(** * The MCP tool layer of [backend/mcp_manager.py]

    A shallow embedding of the tool executor, the result normalizer, the
    argument sanitizer, the adapter class and the server manager, with the
    properties that the design document states about them.

    Conventions of the embedding:
    - a Python [str] is a [string] holding its UTF-8 bytes; [len] and slicing
      count code points, not bytes ([py_len], [py_take]);
    - a Python [float] is a binary64 [float] with the IEEE operations of
      [PrimFloat]; how a float is printed ([repr], [:.2f]) is the business of
      the interpreter and is taken as a parameter ([PyFloatFormat]);
    - a [dict] keeps its insertion order and is a list of pairs with string
      keys ([pydict]);
    - exceptions are values ([pyexn]); a computation that may raise, read the
      clock, write to the logger or await a provider runs in the monad [M];
    - [async def] functions are run to completion: the only thing that is
      awaited is the provider, whose behaviour is part of the [world]. *)

From Stdlib Require Import ZArith Ascii DecimalString PrimFloat.
From Stdlib Require String.
From stdpp Require Import base option list strings.

Set Warnings "-register-all".

(** ** Strings *)

Module PyStr.

(** The bytes 10xxxxxx continue a UTF-8 sequence; every other byte starts a
    code point. *)
Definition is_continuation (c : ascii) : bool :=
  let n := nat_of_ascii c in (128 <=? n)%nat && (n <? 192)%nat.

(** [len(s)] *)
Fixpoint py_len (s : string) : nat :=
  match s with
  | EmptyString => 0
  | String c s' => (if is_continuation c then 0 else 1) + py_len s'
  end.

(** [s[:n]] *)
Fixpoint py_take (n : nat) (s : string) : string :=
  match s with
  | EmptyString => EmptyString
  | String c s' =>
      if is_continuation c then String c (py_take n s')
      else match n with
           | O => EmptyString
           | S m => String c (py_take m s')
           end
  end.

Definition lower_ascii (c : ascii) : ascii :=
  let n := nat_of_ascii c in
  if (65 <=? n)%nat && (n <=? 90)%nat then ascii_of_nat (n + 32) else c.

(** [s.lower()].  Two code points outside ASCII have a lower case that
    contains an ASCII letter: U+212A KELVIN SIGN (bytes 226 132 170) gives
    [k], and U+0130 (bytes 196 176) gives [i] followed by U+0307 (bytes
    204 135).  Every other code point outside ASCII is kept as it is: its
    lower case is again outside ASCII, so a test for an ASCII substring
    cannot tell the difference. *)
Fixpoint lower (s : string) : string :=
  match s with
  | EmptyString => EmptyString
  | String "226" (String "132" (String "170" s')) => String "k" (lower s')
  | String "196" (String "176" s') =>
      String "i" (String "204" (String "135" (lower s')))
  | String c s' => String (lower_ascii c) (lower s')
  end%char.

(** [sub in s] *)
Fixpoint contains (sub s : string) : bool :=
  String.prefix sub s ||
  match s with
  | EmptyString => false
  | String _ s' => contains sub s'
  end.

(** [sep.join(parts)] for parts that are strings *)
Fixpoint join (sep : string) (parts : list string) : string :=
  match parts with
  | [] => ""
  | [p] => p
  | p :: rest => p +:+ sep +:+ join sep rest
  end.

(** [str(n)] for an [int] *)
Definition of_Z (n : Z) : string := NilEmpty.string_of_int (Z.to_int n).
Definition of_nat (n : nat) : string := of_Z (Z.of_nat n).

(** [s.upper()] for a text in ASCII, as the provider names are; it makes
    the tag of a description. *)
Definition upper_ascii (c : ascii) : ascii :=
  let n := nat_of_ascii c in
  if (97 <=? n)%nat && (n <=? 122)%nat then ascii_of_nat (n - 32) else c.

Fixpoint upper (s : string) : string :=
  match s with
  | EmptyString => EmptyString
  | String c s' => String (upper_ascii c) (upper s')
  end.

Definition hex_digit (n : nat) : ascii :=
  if (n <? 10)%nat then ascii_of_nat (48 + n) else ascii_of_nat (87 + n).

(** One byte of [repr(s)], [q] being the quote that encloses it.  The
    control characters of ASCII are escaped; the bytes of a code point
    outside ASCII are kept, [repr_chars] having taken out the code points
    that are escaped. *)
Definition repr_char (q c : ascii) : string :=
  let n := nat_of_ascii c in
  if Ascii.eqb c "\" then "\\"
  else if Ascii.eqb c q then String "\" (String q "")
  else if Ascii.eqb c "010" then "\n"
  else if Ascii.eqb c "013" then "\r"
  else if Ascii.eqb c "009" then "\t"
  else if (n <? 32)%nat || (n =? 127)%nat
       then String "\" (String "x" (String (hex_digit (n / 16))
              (String (hex_digit (n mod 16)) "")))
  else String c "".

(** The code points U+0080 to U+00BF are the byte 194 followed by the
    byte of the same number.  Of these U+0080 to U+009F (controls), U+00A0
    (a space that is no ASCII space) and U+00AD (a format character) are
    not printable, and [repr] writes them as an escape. *)
Definition latin1_unprintable (c : ascii) : bool :=
  let n := nat_of_ascii c in
  ((128 <=? n)%nat && (n <=? 160)%nat) || (n =? 173)%nat.

(** The characters of [repr(s)].  Above U+00FF every code point is taken
    to be printable, which the text that this module writes is; the
    code points there that are not are outside this model. *)
Fixpoint repr_chars (q : ascii) (s : string) : string :=
  match s with
  | EmptyString => EmptyString
  | String "194" (String c s') =>
      if latin1_unprintable c
      then let n := nat_of_ascii c in
           String "\" (String "x" (String (hex_digit (n / 16))
             (String (hex_digit (n mod 16)) (repr_chars q s'))))
      else String "194" (String c (repr_chars q s'))
  | String c s' => repr_char q c +:+ repr_chars q s'
  end%char.

(** [repr(s)]: single quotes, unless the text has a single quote and no
    double quote. *)
Definition repr (s : string) : string :=
  let q := if contains "'" s && negb (contains (String "034" "") s)
           then "034"%char else "'"%char in
  String q (repr_chars q s +:+ String q "").

End PyStr.

(** ** Values *)

(** The values that reach this module: call arguments, provider responses
    and tool descriptors.  A [VObj] is an instance of some other class: the
    name of its class, the text that [str] and [repr] give for it, and its
    attributes.  A [VSeq] is an instance of a class that has a length and
    takes a slice, such as [bytes], [tuple] or a mock object: besides what
    a [VObj] has, its truth value, its length, and what a slice from its
    start gives (the module takes one slice of such a value, [[:500]]).
    A [float] never occurs among them. *)
Inductive pyval :=
| VNone
| VBool (b : bool)
| VInt (n : Z)
| VStr (s : string)
| VList (xs : list pyval)
| VDict (items : list (string * pyval))
| VObj (cls : string) (str : string) (attrs : list (string * pyval))
| VSeq (cls : string) (str : string) (attrs : list (string * pyval))
       (truth : bool) (length : nat) (slice : pyval).

(** A [dict] with string keys, in insertion order. *)
Abbreviation pydict := (list (string * pyval)).

Module Dict.

(** [d[key]] for a key of [d]; [None] when [key in d] is false *)
Fixpoint get {A} (key : string) (d : list (string * A)) : option A :=
  match d with
  | [] => None
  | (k, v) :: d' => if String.eqb key k then Some v else get key d'
  end.

(** [d[key] = v]: the value of a key that is there is replaced in place, a
    new key goes to the end. *)
Fixpoint set {A} (d : list (string * A)) (key : string) (v : A)
  : list (string * A) :=
  match d with
  | [] => [(key, v)]
  | (k, v') :: d' =>
      if String.eqb key k then (k, v) :: d' else (k, v') :: set d' key v
  end.

Definition keys {A} (d : list (string * A)) : list string := map fst d.

(** What a list of pairs has to satisfy to be a [dict]. *)
Definition wf {A} (d : list (string * A)) : Prop := NoDup (keys d).

End Dict.

(** [type(v).__name__] *)
Definition type_name (v : pyval) : string :=
  match v with
  | VNone => "NoneType"
  | VBool _ => "bool"
  | VInt _ => "int"
  | VStr _ => "str"
  | VList _ => "list"
  | VDict _ => "dict"
  | VObj cls _ _ => cls
  | VSeq cls _ _ _ _ _ => cls
  end.

(** [repr(v)] *)
Fixpoint py_repr (v : pyval) : string :=
  match v with
  | VNone => "None"
  | VBool true => "True"
  | VBool false => "False"
  | VInt n => PyStr.of_Z n
  | VStr s => PyStr.repr s
  | VList xs => "[" +:+ PyStr.join ", " (map py_repr xs) +:+ "]"
  | VDict items =>
      "{" +:+ PyStr.join ", "
                (map (fun kv => PyStr.repr (fst kv) +:+ ": " +:+ py_repr (snd kv))
                     items) +:+ "}"
  | VObj _ str _ => str
  | VSeq _ str _ _ _ _ => str
  end.

(** [str(v)], which is also what an f-string puts for [{v}] *)
Definition py_str (v : pyval) : string :=
  match v with
  | VStr s => s
  | _ => py_repr v
  end.

(** [hasattr(v, name)] and [getattr(v, name)] in one: the attribute, if [v]
    has it.  The names asked for in this module are [content], [text],
    [name], [description], [inputSchema] and [tools], and no built-in type
    has an attribute of one of these names. *)
Definition py_getattr (v : pyval) (name : string) : option pyval :=
  match v with
  | VObj _ _ attrs => Dict.get name attrs
  | VSeq _ _ attrs _ _ _ => Dict.get name attrs
  | _ => None
  end.

(** [bool(v)] *)
Definition py_truthy (v : pyval) : bool :=
  match v with
  | VNone => false
  | VBool b => b
  | VInt n => negb (n =? 0)%Z
  | VStr s => negb (String.eqb s "")
  | VList xs => negb (Nat.eqb (length xs) 0)
  | VDict items => negb (Nat.eqb (length items) 0)
  | VObj _ _ _ => true
  | VSeq _ _ _ truth _ _ => truth
  end.

(** ** Exceptions *)

(** The subclasses of [MCPToolError]. *)
Inductive mcp_error_class :=
| MCPToolError
| MCPToolExecutionError
| MCPToolTimeoutError
| MCPToolConnectionError
| MCPToolValidationError.

(** What can be raised.  [OtherException] is any class below [Exception]
    that is none of the above nor [asyncio.TimeoutError], given by the name
    of the class and the text of the exception.  [NonException] is a class
    below [BaseException] and not below [Exception] (a cancellation, a
    keyboard interrupt): an [except Exception] clause lets it through. *)
Inductive pyexn :=
| MCPError (cls : mcp_error_class) (tool_name server_name message : string)
           (original_error : option pyexn)
| AsyncioTimeoutError (text : string)
| OtherException (cls : string) (text : string)
| NonException (cls : string) (text : string).

Definition mcp_error_class_name (c : mcp_error_class) : string :=
  match c with
  | MCPToolError => "MCPToolError"
  | MCPToolExecutionError => "MCPToolExecutionError"
  | MCPToolTimeoutError => "MCPToolTimeoutError"
  | MCPToolConnectionError => "MCPToolConnectionError"
  | MCPToolValidationError => "MCPToolValidationError"
  end.

(** [type(e).__name__] *)
Definition exn_type_name (e : pyexn) : string :=
  match e with
  | MCPError c _ _ _ _ => mcp_error_class_name c
  | AsyncioTimeoutError _ => "TimeoutError"
  | OtherException cls _ => cls
  | NonException cls _ => cls
  end.

(** [str(e)].  For an [MCPToolError] it is the text that [__init__] hands to
    [Exception.__init__], that is [MCPToolError._format_message]. *)
Fixpoint exn_str (e : pyexn) : string :=
  match e with
  | MCPError _ tool_name server_name message original_error =>
      let base_msg :=
        "[" +:+ server_name +:+ "] 도구 '" +:+ tool_name +:+ "' 오류: " +:+ message in
      match original_error with
      | Some o =>
          base_msg +:+ " (원인: " +:+ exn_type_name o +:+ ": " +:+ exn_str o +:+ ")"
      | None => base_msg
      end
  | AsyncioTimeoutError text => text
  | OtherException _ text => text
  | NonException _ text => text
  end.

(** [isinstance(e, Exception)] *)
Definition is_Exception (e : pyexn) : bool :=
  match e with
  | NonException _ _ => false
  | _ => true
  end.

(** [isinstance(e, cls)] for a class of this module: every subclass derives
    from [MCPToolError] directly. *)
Definition isinstance_mcp (e : pyexn) (cls : mcp_error_class) : bool :=
  match e, cls with
  | MCPError _ _ _ _ _, MCPToolError => true
  | MCPError MCPToolExecutionError _ _ _ _, MCPToolExecutionError => true
  | MCPError MCPToolTimeoutError _ _ _ _, MCPToolTimeoutError => true
  | MCPError MCPToolConnectionError _ _ _ _, MCPToolConnectionError => true
  | MCPError MCPToolValidationError _ _ _ _, MCPToolValidationError => true
  | _, _ => false
  end.

(** [isinstance(e, asyncio.TimeoutError)] *)
Definition is_asyncio_timeout (e : pyexn) : bool :=
  match e with
  | AsyncioTimeoutError _ => true
  | _ => false
  end.

(** The [TypeError] of a built-in applied to a value it does not take. *)
Definition TypeError (text : string) : pyexn := OtherException "TypeError" text.

(** A result or a raised exception. *)
Inductive outcome (A : Type) :=
| Ok (a : A)
| Raise (e : pyexn).
Arguments Ok {A} a.
Arguments Raise {A} e.

(** [len(v)] *)
Definition py_len (v : pyval) : outcome nat :=
  match v with
  | VStr s => Ok (PyStr.py_len s)
  | VList xs => Ok (length xs)
  | VDict items => Ok (length items)
  | VSeq _ _ _ _ n _ => Ok n
  | _ => Raise (TypeError ("object of type '" +:+ type_name v +:+ "' has no len()"))
  end.

(** [v[:n]].  A [dict] takes no slice as a key (unhashable up to CPython
    3.11, which is the reading taken here); the other values are not
    subscriptable. *)
Definition py_slice_to (n : nat) (v : pyval) : outcome pyval :=
  match v with
  | VStr s => Ok (VStr (PyStr.py_take n s))
  | VList xs => Ok (VList (take n xs))
  | VDict _ => Raise (TypeError "unhashable type: 'slice'")
  | VSeq _ _ _ _ _ slice => Ok slice
  | _ => Raise (TypeError ("'" +:+ type_name v +:+ "' object is not subscriptable"))
  end.

(** ["\n".join(parts)]: every part has to be a [str]. *)
Fixpoint str_items (i : nat) (parts : list pyval) : outcome (list string) :=
  match parts with
  | [] => Ok []
  | VStr s :: rest =>
      match str_items (S i) rest with
      | Ok ss => Ok (s :: ss)
      | Raise e => Raise e
      end
  | v :: _ =>
      Raise (TypeError ("sequence item " +:+ PyStr.of_nat i +:+
                        ": expected str instance, " +:+ type_name v +:+ " found"))
  end.

Definition py_join (sep : string) (parts : list pyval) : outcome pyval :=
  match str_items 0 parts with
  | Ok ss => Ok (VStr (PyStr.join sep ss))
  | Raise e => Raise e
  end.

(** ** The result normalizer *)

Definition newline : string := String "010" "".

(** The body of the loop over the content blocks: what is appended to
    [text_parts] for one block. *)
Definition content_block_text (content_block : pyval) : pyval :=
  match py_getattr content_block "text" with
  | Some text => text
  | None =>
      match content_block with
      | VStr _ => content_block
      | VDict items =>
          match Dict.get "text" items with
          | Some text => text
          | None => VStr (py_str content_block)
          end
      | _ => VStr (py_str content_block)
      end
  end.

Definition _process_mcp_result (result : pyval) : outcome pyval :=
  match result with
  | VNone => Ok (VStr "")
  | _ =>
      match py_getattr result "content" with
      | Some content =>
          match content with
          | VList blocks => py_join newline (map content_block_text blocks)
          | _ =>
              match py_getattr content "text" with
              | Some text => Ok text
              | None =>
                  match content with
                  | VStr _ => Ok content
                  | VDict items =>
                      match Dict.get "text" items with
                      | Some text => Ok text
                      | None => Ok (VStr (py_str content))
                      end
                  | _ => Ok (VStr (py_str content))
                  end
              end
          end
      | None =>
          match result with
          | VStr _ => Ok result
          | VDict items =>
              match Dict.get "text" items with
              | Some text => Ok text
              | None =>
                  match Dict.get "result" items with
                  | Some r => Ok (VStr (py_str r))
                  | None =>
                      match Dict.get "data" items with
                      | Some d => Ok (VStr (py_str d))
                      | None => Ok (VStr (py_str result))
                      end
                  end
              end
          | _ => Ok (VStr (py_str result))
          end
      end
  end.

(** ** The sanitizer *)

Definition sensitive_keys : list string :=
  ["api_key"; "apikey"; "password"; "secret"; "token"; "credential"].

Definition REDACTED : string := "***REDACTED***".

(** [any(sensitive in key_lower for sensitive in sensitive_keys)] *)
Definition is_sensitive (key : string) : bool :=
  let key_lower := PyStr.lower key in
  existsb (fun sensitive => PyStr.contains sensitive key_lower) sensitive_keys.

(** [f"{value[:100]}...({len(value)} chars)"] *)
Definition truncated (value : string) : string :=
  PyStr.py_take 100 value +:+ "...(" +:+ PyStr.of_nat (PyStr.py_len value) +:+ " chars)".

(** The body of the loop: what is stored in [sanitized[key]]. *)
Definition sanitized_entry (key : string) (value : pyval) : pyval :=
  if is_sensitive key then VStr REDACTED
  else match value with
       | VStr s => if (200 <? PyStr.py_len s)%nat then VStr (truncated s) else value
       | _ => value
       end.

(** One round of the loop: [sanitized[key] = ...] for the item [kv]. *)
Definition sanitize_step (sanitized : pydict) (kv : string * pyval) : pydict :=
  Dict.set sanitized (fst kv) (sanitized_entry (fst kv) (snd kv)).

Definition _sanitize_arguments_for_logging (arguments : pydict) : pydict :=
  fold_left sanitize_step arguments [].

(** An item of the arguments as the sanitized dictionary has it. *)
Definition sanitize_item (kv : string * pyval) : string * pyval :=
  (fst kv, sanitized_entry (fst kv) (snd kv)).

(** The same function with the dictionaries as objects in a store, to see
    which object the loop writes to.  An address is an index of the store. *)
Module Store.

Abbreviation store := (list pydict).

(** [{}]: a new object, at the next free address *)
Definition new_dict (h : store) : store * nat := (h ++ [[]], length h).

(** The items of the dictionary at [r], as the store has them now. *)
Definition items (h : store) (r : nat) : pydict := default [] (h !! r).

(** [r[key] = v] *)
Definition setitem (h : store) (r : nat) (key : string) (v : pyval) : store :=
  alter (fun d => Dict.set d key v) r h.

(** The loop [for key, value in arguments.items(): sanitized[key] = ...],
    from the [i]-th item on: each round reads the item from the store as it
    is then. *)
Fixpoint sanitize_loop (rounds i : nat) (h : store) (arguments sanitized : nat)
  : store :=
  match rounds with
  | O => h
  | S rounds' =>
      match items h arguments !! i with
      | None => h
      | Some (key, value) =>
          sanitize_loop rounds' (S i)
            (setitem h sanitized key (sanitized_entry key value))
            arguments sanitized
      end
  end.

Definition _sanitize_arguments_for_logging (h : store) (arguments : nat)
  : store * nat :=
  let '(h1, sanitized) := new_dict h in
  (sanitize_loop (length (items h arguments)) 0 h1 arguments sanitized, sanitized).

End Store.

(** ** Error texts *)

(** The [error_messages] table of [_format_error_details], by the name of
    the class. *)
Definition _format_error_details (error : pyexn) : string :=
  let error_type := exn_type_name error in
  let error_msg := exn_str error in
  if String.eqb error_type "ConnectionError"
  then "서버 연결에 실패했습니다. 네트워크 상태를 확인하세요."
  else if String.eqb error_type "TimeoutError"
  then "요청 시간이 초과되었습니다. 나중에 다시 시도하세요."
  else if String.eqb error_type "AuthenticationError"
  then "인증에 실패했습니다. 자격 증명을 확인하세요."
  else if String.eqb error_type "PermissionError"
  then "권한이 없습니다. 접근 권한을 확인하세요."
  else if String.eqb error_type "ValueError"
  then "잘못된 값이 전달되었습니다: " +:+ error_msg
  else if String.eqb error_type "TypeError"
  then "잘못된 타입이 전달되었습니다: " +:+ error_msg
  else error_type +:+ ": " +:+ error_msg.



(** ** Sessions, records and the world *)

(** What [session.call_tool(name, arguments)] does once it is started
    under a time budget: it gives a response within the budget, it raises
    within the budget, or it is still running when the budget is spent.
    In the last case [asyncio.wait_for] cancels the call and waits until it
    has ended, and [cancelled] is how it ends: [Raise e] for a call that
    ends by raising [e], which is [asyncio.CancelledError] when the call
    lets the cancellation through, and [Ok response] for a call that
    swallows the cancellation and returns. *)
Inductive call_behaviour :=
| Completes (response : pyval)
| Fails (e : pyexn)
| Overruns (cancelled : outcome pyval).

(** [isinstance(e, asyncio.CancelledError)] *)
Definition is_CancelledError (e : pyexn) : bool :=
  match e with
  | NonException cls _ => String.eqb cls "CancelledError"
  | _ => false
  end.

(** A [ClientSession] of the provider library, by what a call does.  The
    module does nothing else to a session that it keeps: the start methods
    open it and list its tools, [execute_mcp_tool] calls [call_tool], and
    [shutdown] reads its truth value. *)
Record ClientSession := {
  session_id : nat;
  call_tool : string -> pydict -> call_behaviour;
}.

Inductive MCPToolResultStatus :=
| SUCCESS
| ERROR
| TIMEOUT
| CONNECTION_ERROR
| VALIDATION_ERROR.

Module MCPToolResult.
Record t := {
  tool_name : string;
  server_name : string;
  status : MCPToolResultStatus;
  result : option pyval;
  error_message : option string;
  execution_time_ms : float;
  arguments : pydict;
}.
End MCPToolResult.

Module MCPServerInfo.
Record t := {
  name : string;
  session : option ClientSession;
  tools : list pyval;
  is_connected : bool;
}.
End MCPServerInfo.

Module MCPToolWrapper.
Record t := {
  name : string;
  description : string;
  mcp_tool : pydict;
  session : option ClientSession;
  server_name : string;
  timeout_seconds : float;
}.
End MCPToolWrapper.

Record GrafanaConfig := { url : string; api_key : string }.

Record CloudWatchConfig := {
  aws_access_key_id : string;
  aws_secret_access_key : string;
  region : string;
}.

(** The attributes of an [MCPServerManager]. *)
Module MCPServerManager.
Record t := {
  grafana_config : option GrafanaConfig;
  cloudwatch_config : option CloudWatchConfig;
  servers : list (string * MCPServerInfo.t);
  _initialized : bool;
}.
End MCPServerManager.

(** [MCPServerManager(grafana_config, cloudwatch_config)] *)
Definition MCPServerManager_init
  (grafana_config : option GrafanaConfig)
  (cloudwatch_config : option CloudWatchConfig) : MCPServerManager.t :=
  {| MCPServerManager.grafana_config := grafana_config;
     MCPServerManager.cloudwatch_config := cloudwatch_config;
     MCPServerManager.servers := [];
     MCPServerManager._initialized := false |}.

Inductive provider := Grafana | CloudWatch.

(** A provider process as the manager meets it.  [startup] is the way in:
    the two context managers are entered, the session is initialized and
    the tools are listed; it gives the session and the [tools] attribute of
    the response, if the response has one, or the exception that one of
    these steps raised.  [teardown] is the way out of the two context
    managers at the [return]: an exception, if leaving raises one. *)
Record provider_process := {
  startup : outcome (ClientSession * option (list pyval));
  teardown : option pyexn;
}.

Inductive log_level := LogDebug | LogInfo | LogWarning | LogError.

(** A provider call that was started and awaited. *)
Record call_event := {
  call_session : nat;
  call_name : string;
  call_arguments : pydict;
  call_timeout : float;
}.

(** Everything a function of the module can read or change: the clock
    ([clock i] is the [i]-th reading of [time.time()]), the records of the
    logger, the provider calls started so far, the provider processes, and
    the manager object. *)
Record world := {
  clock : nat -> float;
  ticks : nat;
  log : list (log_level * string);
  awaited : list call_event;
  processes : provider -> provider_process;
  self : MCPServerManager.t;
}.

Definition with_ticks (w : world) (n : nat) : world :=
  {| clock := clock w; ticks := n; log := log w; awaited := awaited w;
     processes := processes w; self := self w |}.

Definition with_log (w : world) (l : list (log_level * string)) : world :=
  {| clock := clock w; ticks := ticks w; log := l; awaited := awaited w;
     processes := processes w; self := self w |}.

Definition with_awaited (w : world) (c : list call_event) : world :=
  {| clock := clock w; ticks := ticks w; log := log w; awaited := c;
     processes := processes w; self := self w |}.

Definition with_self (w : world) (m : MCPServerManager.t) : world :=
  {| clock := clock w; ticks := ticks w; log := log w; awaited := awaited w;
     processes := processes w; self := m |}.

(** ** The monad of the module's functions *)

Definition M (A : Type) : Type := world -> outcome A * world.

Definition ret {A} (a : A) : M A := fun w => (Ok a, w).

Definition bind {A B} (m : M A) (k : A -> M B) : M B :=
  fun w =>
    match m w with
    | (Ok a, w') => k a w'
    | (Raise e, w') => (Raise e, w')
    end.

(** [raise e] *)
Definition raise {A} (e : pyexn) : M A := fun w => (Raise e, w).

(** [try: body  except ... as e: handler e].  The handler decides by the
    class of [e], in the order of the [except] clauses, and raises [e] again
    when no clause takes it. *)
Definition try_except {A} (body : M A) (handler : pyexn -> M A) : M A :=
  fun w =>
    match body w with
    | (Ok a, w') => (Ok a, w')
    | (Raise e, w') => handler e w'
    end.

(** A value of a built-in that may raise. *)
Definition lift {A} (o : outcome A) : M A := fun w => (o, w).

Declare Scope py_scope.
Delimit Scope py_scope with py.
Notation "x <- m ;; k" := (bind m (fun x => k))
  (at level 20, m at level 99, k at level 200, only parsing) : py_scope.
Notation "m ;; k" := (bind m (fun _ => k))
  (at level 100, k at level 200, only parsing, right associativity) : py_scope.
Local Open Scope py_scope.

(** [time.time()] *)
Definition time_time : M float :=
  fun w => (Ok (clock w (ticks w)), with_ticks w (S (ticks w))).

Definition logger (level : log_level) (message : string) : M unit :=
  fun w => (Ok tt, with_log w (log w ++ [(level, message)])).

(** [timeout <= 0] is false: [asyncio.wait_for] starts the call.  With a
    budget that is not positive it cancels the call before its first step
    and raises [asyncio.TimeoutError]. *)
Definition call_starts (timeout : float) : bool := negb (PrimFloat.leb timeout 0).

(** What [asyncio.wait_for] hands back for a call that does [b]: the
    response or the exception of a call that ends within the budget; for a
    call that it had to cancel, what the call ends with, where
    [asyncio.CancelledError] becomes [asyncio.TimeoutError]. *)
Definition wait_for_outcome (timeout : float) (b : call_behaviour) : outcome pyval :=
  if call_starts timeout then
    match b with
    | Completes response => Ok response
    | Fails e => Raise e
    | Overruns (Ok response) => Ok response
    | Overruns (Raise e) =>
        if is_CancelledError e then Raise (AsyncioTimeoutError "") else Raise e
    end
  else Raise (AsyncioTimeoutError "").

(** [await asyncio.wait_for(session.call_tool(name, arguments), timeout)]:
    a call that is started is recorded. *)
Definition wait_for_call_tool
  (session : ClientSession) (name : string) (arguments : pydict) (timeout : float)
  : M pyval :=
  fun w =>
    (wait_for_outcome timeout (call_tool session name arguments),
     with_awaited w
       (awaited w ++
        if call_starts timeout
        then [{| call_session := session_id session;
                 call_name := name;
                 call_arguments := arguments;
                 call_timeout := timeout |}]
        else [])).

Definition get_self : M MCPServerManager.t := fun w => (Ok (self w), w).

Definition set_self (m : MCPServerManager.t) : M unit :=
  fun w => (Ok tt, with_self w m).

(** How the interpreter prints a float: [f"{x}"] and [f"{x:.2f}"]. *)
Class PyFloatFormat := {
  float_str : float -> string;
  float_2f : float -> string;
}.

(** [(time.time() - start_time) * 1000], the reading being [t] *)
Definition elapsed_ms (start_time t : float) : float := ((t - start_time) * 1000)%float.

Section Program.
Context `{PyFloatFormat}.

(** ** The tool executor *)

(** [MCPToolTimeoutError(tool_name, server_name, timeout_seconds)] *)
Definition MCPToolTimeoutError_init
  (tool_name server_name : string) (timeout_seconds : float) : pyexn :=
  MCPError MCPToolTimeoutError tool_name server_name
    ("실행 시간 초과 (" +:+ float_str timeout_seconds +:+ "초)") None.

Definition execute_mcp_tool
  (session : option ClientSession) (tool_name server_name : string)
  (arguments : pydict) (timeout_seconds : float) : M MCPToolResult.t :=
  start_time <- time_time ;;
  logger LogInfo
    ("MCP 도구 실행 시작: tool=" +:+ tool_name +:+ ", server=" +:+ server_name +:+
     ", timeout=" +:+ float_str timeout_seconds +:+ "s") ;;
  logger LogDebug
    ("도구 인자: " +:+ py_repr (VDict (_sanitize_arguments_for_logging arguments))) ;;
  try_except
    (match session with
     | None =>
         raise (MCPError MCPToolConnectionError tool_name server_name
                  "MCP 세션이 None입니다. 서버 연결을 확인하세요." None)
     | Some session =>
         result <-
           try_except
             (wait_for_call_tool session tool_name arguments timeout_seconds)
             (fun e =>
                if is_asyncio_timeout e then
                  now <- time_time ;;
                  let execution_time_ms := elapsed_ms start_time now in
                  logger LogError
                    ("MCP 도구 시간 초과: tool=" +:+ tool_name +:+ ", server=" +:+
                     server_name +:+ ", timeout=" +:+ float_str timeout_seconds +:+
                     "s, execution_time=" +:+ float_2f execution_time_ms +:+ "ms") ;;
                  raise (MCPToolTimeoutError_init tool_name server_name timeout_seconds)
                else raise e) ;;
         result_text <- lift (_process_mcp_result result) ;;
         now <- time_time ;;
         let execution_time_ms := elapsed_ms start_time now in
         result_length <- lift (py_len result_text) ;;
         logger LogInfo
           ("MCP 도구 실행 성공: tool=" +:+ tool_name +:+ ", server=" +:+ server_name +:+
            ", execution_time=" +:+ float_2f execution_time_ms +:+ "ms, " +:+
            "result_length=" +:+ PyStr.of_nat result_length +:+ " chars") ;;
         preview <- lift (py_slice_to 500 result_text) ;;
         logger LogDebug ("도구 결과 (처음 500자): " +:+ py_str preview +:+ "...") ;;
         ret {| MCPToolResult.tool_name := tool_name;
                MCPToolResult.server_name := server_name;
                MCPToolResult.status := SUCCESS;
                MCPToolResult.result := Some result_text;
                MCPToolResult.error_message := None;
                MCPToolResult.execution_time_ms := execution_time_ms;
                MCPToolResult.arguments := arguments |}
     end)
    (fun e =>
       if isinstance_mcp e MCPToolTimeoutError then
         now <- time_time ;;
         let execution_time_ms := elapsed_ms start_time now in
         ret {| MCPToolResult.tool_name := tool_name;
                MCPToolResult.server_name := server_name;
                MCPToolResult.status := TIMEOUT;
                MCPToolResult.result := None;
                MCPToolResult.error_message :=
                  Some ("도구 실행 시간 초과 (" +:+ float_str timeout_seconds +:+ "초)");
                MCPToolResult.execution_time_ms := execution_time_ms;
                MCPToolResult.arguments := arguments |}
       else if isinstance_mcp e MCPToolConnectionError then
         now <- time_time ;;
         let execution_time_ms := elapsed_ms start_time now in
         logger LogError
           ("MCP 연결 오류: tool=" +:+ tool_name +:+ ", server=" +:+ server_name +:+
            ", error=" +:+ exn_str e) ;;
         ret {| MCPToolResult.tool_name := tool_name;
                MCPToolResult.server_name := server_name;
                MCPToolResult.status := CONNECTION_ERROR;
                MCPToolResult.result := None;
                MCPToolResult.error_message := Some (exn_str e);
                MCPToolResult.execution_time_ms := execution_time_ms;
                MCPToolResult.arguments := arguments |}
       else if is_Exception e then
         now <- time_time ;;
         let execution_time_ms := elapsed_ms start_time now in
         let error_details := _format_error_details e in
         logger LogError
           ("MCP 도구 실행 실패: tool=" +:+ tool_name +:+ ", server=" +:+ server_name +:+
            ", error_type=" +:+ exn_type_name e +:+ ", error=" +:+ exn_str e +:+
            ", execution_time=" +:+ float_2f execution_time_ms +:+ "ms") ;;
         (* the record ends with the text of the stack trace, left out here *)
         logger LogDebug "오류 스택 트레이스" ;;
         ret {| MCPToolResult.tool_name := tool_name;
                MCPToolResult.server_name := server_name;
                MCPToolResult.status := ERROR;
                MCPToolResult.result := None;
                MCPToolResult.error_message := Some error_details;
                MCPToolResult.execution_time_ms := execution_time_ms;
                MCPToolResult.arguments := arguments |}
       else raise e).

(** ** The adapter *)

(** [f"{x}"] for an [Optional[str]] *)
Definition format_optional (x : option string) : string :=
  match x with
  | Some s => s
  | None => "None"
  end.

Definition _create_error_response
  (this : MCPToolWrapper.t) (result : MCPToolResult.t) : string :=
  match MCPToolResult.status result with
  | TIMEOUT =>
      "도구 '" +:+ MCPToolWrapper.name this +:+ "' 실행이 시간 초과되었습니다. " +:+
      "서버(" +:+ MCPToolWrapper.server_name this +:+ ")가 응답하지 않습니다."
  | CONNECTION_ERROR =>
      "서버 '" +:+ MCPToolWrapper.server_name this +:+ "'에 연결할 수 없습니다. " +:+
      "서버 상태를 확인해 주세요."
  | VALIDATION_ERROR =>
      "도구 '" +:+ MCPToolWrapper.name this +:+ "'에 잘못된 인자가 전달되었습니다. " +:+
      "오류: " +:+ format_optional (MCPToolResult.error_message result)
  | ERROR =>
      "도구 '" +:+ MCPToolWrapper.name this +:+ "' 실행 중 오류가 발생했습니다: " +:+
      format_optional (MCPToolResult.error_message result)
  | SUCCESS =>
      "알 수 없는 오류가 발생했습니다: " +:+
      format_optional (MCPToolResult.error_message result)
  end.

(** [x or default] for an [Optional[str]] *)
Definition or_else (x : option string) (default : string) : string :=
  match x with
  | Some s => if String.eqb s "" then default else s
  | None => default
  end.

Definition _arun (this : MCPToolWrapper.t) (kwargs : pydict) : M pyval :=
  result <- execute_mcp_tool
              (MCPToolWrapper.session this) (MCPToolWrapper.name this)
              (MCPToolWrapper.server_name this) kwargs
              (MCPToolWrapper.timeout_seconds this) ;;
  match MCPToolResult.status result with
  | SUCCESS =>
      match MCPToolResult.result result with
      | Some text => ret (if py_truthy text then text else VStr "")
      | None => ret (VStr "")
      end
  | status =>
      let error_message := _create_error_response this result in
      match status with
      | CONNECTION_ERROR =>
          raise (MCPError MCPToolConnectionError
                   (MCPToolWrapper.name this) (MCPToolWrapper.server_name this)
                   (or_else (MCPToolResult.error_message result) "연결 오류") None)
      | _ => ret (VStr error_message)
      end
  end.

(** ** The server manager *)

(** [for x in xs: acc = body acc x] *)
Fixpoint for_each {A S} (body : S -> A -> M S) (xs : list A) (acc : S) : M S :=
  match xs with
  | [] => ret acc
  | x :: rest => acc' <- body acc x ;; for_each body rest acc'
  end.

(** [isinstance(e, FileNotFoundError)]: another exception is known by the
    name of its class. *)
Definition is_FileNotFoundError (e : pyexn) : bool :=
  match e with
  | OtherException cls _ => String.eqb cls "FileNotFoundError"
  | _ => false
  end.

(** The two [async with] blocks of a start method: the way in gives the
    session and the tools, [body] runs, and the way out may raise. *)
Definition with_provider_session {A}
  (p : provider) (body : ClientSession -> option (list pyval) -> M A) : M A :=
  fun w =>
    match startup (processes w p) with
    | Raise e => (Raise e, w)
    | Ok (session, tools_attr) =>
        match body session tools_attr w with
        | (Ok a, w') =>
            match teardown (processes w p) with
            | Some e => (Raise e, w')
            | None => (Ok a, w')
            end
        | (Raise e, w') => (Raise e, w')
        end
    end.

Definition _start_grafana_mcp : M (option MCPServerInfo.t) :=
  this <- get_self ;;
  match MCPServerManager.grafana_config this with
  | None => logger LogWarning "Grafana 구성이 없습니다" ;; ret None
  | Some grafana_config =>
      try_except
        (logger LogInfo ("Grafana MCP 서버 시작: " +:+ url grafana_config) ;;
         with_provider_session Grafana (fun session tools_attr =>
           let tools := default [] tools_attr in
           logger LogInfo
             ("Grafana MCP 서버에서 " +:+ PyStr.of_nat (length tools) +:+ "개 도구 발견") ;;
           ret (Some {| MCPServerInfo.name := "grafana";
                        MCPServerInfo.session := Some session;
                        MCPServerInfo.tools := tools;
                        MCPServerInfo.is_connected := true |})))
        (fun e =>
           if is_FileNotFoundError e then
             logger LogError
               ("Grafana MCP 서버 실행 파일을 찾을 수 없습니다. " +:+
                "npx가 설치되어 있는지 확인하세요.") ;;
             ret None
           else if is_Exception e then
             logger LogError ("Grafana MCP 서버 시작 실패: " +:+ exn_str e) ;;
             ret None
           else raise e)
  end.

Definition _start_cloudwatch_mcp : M (option MCPServerInfo.t) :=
  this <- get_self ;;
  match MCPServerManager.cloudwatch_config this with
  | None => logger LogWarning "CloudWatch 구성이 없습니다" ;; ret None
  | Some cloudwatch_config =>
      try_except
        (logger LogInfo
           ("CloudWatch MCP 서버 시작: 리전 " +:+ region cloudwatch_config) ;;
         with_provider_session CloudWatch (fun session tools_attr =>
           let tools := default [] tools_attr in
           logger LogInfo
             ("CloudWatch MCP 서버에서 " +:+ PyStr.of_nat (length tools) +:+ "개 도구 발견") ;;
           ret (Some {| MCPServerInfo.name := "cloudwatch";
                        MCPServerInfo.session := Some session;
                        MCPServerInfo.tools := tools;
                        MCPServerInfo.is_connected := true |})))
        (fun e =>
           if is_FileNotFoundError e then
             logger LogError
               ("CloudWatch MCP 서버 실행 파일을 찾을 수 없습니다. " +:+
                "npx가 설치되어 있는지 확인하세요.") ;;
             ret None
           else if is_Exception e then
             logger LogError ("CloudWatch MCP 서버 시작 실패: " +:+ exn_str e) ;;
             ret None
           else raise e)
  end.

(** [self.servers[key] = server_info] *)
Definition set_server (key : string) (server_info : MCPServerInfo.t) : M unit :=
  fun w =>
    let this := self w in
    (Ok tt,
     with_self w
       {| MCPServerManager.grafana_config := MCPServerManager.grafana_config this;
          MCPServerManager.cloudwatch_config := MCPServerManager.cloudwatch_config this;
          MCPServerManager.servers :=
            Dict.set (MCPServerManager.servers this) key server_info;
          MCPServerManager._initialized := MCPServerManager._initialized this |}).

(** [self._initialized = b] *)
Definition set_initialized (b : bool) : M unit :=
  fun w =>
    let this := self w in
    (Ok tt,
     with_self w
       {| MCPServerManager.grafana_config := MCPServerManager.grafana_config this;
          MCPServerManager.cloudwatch_config := MCPServerManager.cloudwatch_config this;
          MCPServerManager.servers := MCPServerManager.servers this;
          MCPServerManager._initialized := b |}).

Definition initialize_servers : M unit :=
  logger LogInfo "MCP 서버 초기화 시작" ;;
  try_except
    (this <- get_self ;;
     (match MCPServerManager.grafana_config this with
      | Some _ =>
          grafana_server <- _start_grafana_mcp ;;
          match grafana_server with
          | Some server_info =>
              set_server "grafana" server_info ;;
              logger LogInfo "Grafana MCP 서버 초기화 완료"
          | None => ret tt
          end
      | None => logger LogWarning "Grafana 구성이 없어 서버를 시작하지 않습니다"
      end) ;;
     (match MCPServerManager.cloudwatch_config this with
      | Some _ =>
          cloudwatch_server <- _start_cloudwatch_mcp ;;
          match cloudwatch_server with
          | Some server_info =>
              set_server "cloudwatch" server_info ;;
              logger LogInfo "CloudWatch MCP 서버 초기화 완료"
          | None => ret tt
          end
      | None => logger LogWarning "CloudWatch 구성이 없어 서버를 시작하지 않습니다"
      end) ;;
     set_initialized true ;;
     this' <- get_self ;;
     logger LogInfo
       ("MCP 서버 초기화 완료: " +:+
        PyStr.of_nat (length (MCPServerManager.servers this')) +:+ "개 서버 활성화"))
    (fun e =>
       if is_Exception e then
         logger LogError ("MCP 서버 초기화 실패: " +:+ exn_str e) ;; raise e
       else raise e).

(** The body of the inner loop of [get_all_tools], for one tool of a
    connected server.  The arguments of the [MCPToolWrapper] constructor
    have the declared types, so the model validation takes them. *)
Definition wrap_tool
  (server_name : string) (server_info : MCPServerInfo.t) (timeout_seconds : float)
  (all_tools : list MCPToolWrapper.t) (mcp_tool : pyval)
  : M (list MCPToolWrapper.t) :=
  try_except
    (let tool_name :=
       match py_getattr mcp_tool "name" with
       | Some n => n
       | None => VStr (py_str mcp_tool)
       end in
     let tool_description :=
       match py_getattr mcp_tool "description" with
       | Some d => d
       | None => VStr (py_str tool_name +:+ " 도구")
       end in
     let input_schema :=
       match py_getattr mcp_tool "inputSchema" with
       | Some schema => schema
       | None => VDict []
       end in
     match MCPServerInfo.session server_info with
     | Some session =>
         let wrapped_tool :=
           {| MCPToolWrapper.name := server_name +:+ "_" +:+ py_str tool_name;
              MCPToolWrapper.description :=
                "[" +:+ PyStr.upper server_name +:+ "] " +:+ py_str tool_description;
              MCPToolWrapper.mcp_tool := [("name", tool_name); ("schema", input_schema)];
              MCPToolWrapper.session := Some session;
              MCPToolWrapper.server_name := server_name;
              MCPToolWrapper.timeout_seconds := timeout_seconds |} in
         logger LogDebug
           ("도구 등록: " +:+ server_name +:+ "_" +:+ py_str tool_name) ;;
         ret (all_tools ++ [wrapped_tool])
     | None => ret all_tools
     end)
    (fun e =>
       if is_Exception e then
         logger LogError
           ("도구 래핑 실패 (" +:+ server_name +:+ "): " +:+ exn_str e) ;;
         ret all_tools
       else raise e).

Definition get_all_tools (timeout_seconds : float) : M (list MCPToolWrapper.t) :=
  this <- get_self ;;
  all_tools <-
    for_each
      (fun all_tools entry =>
         let server_name := fst entry in
         let server_info := snd entry in
         if negb (MCPServerInfo.is_connected server_info) then
           logger LogWarning
             ("서버 '" +:+ server_name +:+ "'이 연결되지 않아 도구를 가져올 수 없습니다") ;;
           ret all_tools
         else
           for_each (wrap_tool server_name server_info timeout_seconds)
             (MCPServerInfo.tools server_info) all_tools)
      (MCPServerManager.servers this) [] ;;
  logger LogInfo
    ("총 " +:+ PyStr.of_nat (length all_tools) +:+ "개 도구 집계 완료") ;;
  ret all_tools.

(** The [is_initialized] property. *)
Definition is_initialized (this : MCPServerManager.t) : bool :=
  MCPServerManager._initialized this.

(** The [connected_server_count] property. *)
Definition connected_server_count (this : MCPServerManager.t) : nat :=
  length (filter (fun entry => MCPServerInfo.is_connected (snd entry) = true)
            (MCPServerManager.servers this)).

(** ** Definitions that the statements use *)

(** The event that a call through [execute_mcp_tool] leaves behind. *)
Definition call_of (session : ClientSession) (tool_name : string)
  (arguments : pydict) (timeout_seconds : float) : call_event :=
  {| call_session := session_id session; call_name := tool_name;
     call_arguments := arguments; call_timeout := timeout_seconds |}.

(** The status that the [except] clauses of [execute_mcp_tool] give to an
    exception below [Exception] that comes out of the awaited call. *)
Definition status_of_exception (e : pyexn) : MCPToolResultStatus :=
  if is_asyncio_timeout e || isinstance_mcp e MCPToolTimeoutError then TIMEOUT
  else if isinstance_mcp e MCPToolConnectionError then CONNECTION_ERROR
  else ERROR.

(** The error message that goes with it. *)
Definition message_of_exception (timeout_seconds : float) (e : pyexn) : string :=
  if is_asyncio_timeout e || isinstance_mcp e MCPToolTimeoutError
  then "도구 실행 시간 초과 (" +:+ float_str timeout_seconds +:+ "초)"
  else if isinstance_mcp e MCPToolConnectionError then exn_str e
  else _format_error_details e.

(** What [execute_mcp_tool] does with a response: the three steps that may
    raise, in their order. *)
Definition processed (response : pyval) : outcome (pyval * nat * pyval) :=
  match _process_mcp_result response with
  | Raise e => Raise e
  | Ok result_text =>
      match py_len result_text with
      | Raise e => Raise e
      | Ok n =>
          match py_slice_to 500 result_text with
          | Raise e => Raise e
          | Ok preview => Ok (result_text, n, preview)
          end
      end
  end.

End Program.

(** ** Definitions that the statements about the manager use *)

(** The server record that a start method returns: there is one when the
    provider is configured, its process starts and the way out raises
    nothing. *)
Definition started (name : string) (configured : bool) (process : provider_process)
  : option MCPServerInfo.t :=
  if configured then
    match startup process, teardown process with
    | Ok (session, tools_attr), None =>
        Some {| MCPServerInfo.name := name;
                MCPServerInfo.session := Some session;
                MCPServerInfo.tools := default [] tools_attr;
                MCPServerInfo.is_connected := true |}
    | _, _ => None
    end
  else None.

(** What a provider adds to the registry. *)
Definition registered (name : string) (configured : bool) (process : provider_process)
  : list (string * MCPServerInfo.t) :=
  match started name configured process with
  | Some server_info => [(name, server_info)]
  | None => []
  end.

(** [bool(config)] for an optional configuration: a configuration object
    is true. *)
Definition configured {A} (config : option A) : bool :=
  match config with
  | Some _ => true
  | None => false
  end.

(** How the error records of a provider's start method begin. *)
Definition provider_label (p : provider) : string :=
  match p with
  | Grafana => "Grafana MCP 서버"
  | CloudWatch => "CloudWatch MCP 서버"
  end.

(** The operation name that [get_all_tools] reads off a descriptor. *)
Definition operation_name (mcp_tool : pyval) : string :=
  py_str match py_getattr mcp_tool "name" with
         | Some n => n
         | None => VStr (py_str mcp_tool)
         end.

(** The adapter that [get_all_tools] builds for a tool of a server. *)
Definition adapter (server_name : string) (session : ClientSession)
  (timeout_seconds : float) (mcp_tool : pyval) : MCPToolWrapper.t :=
  {| MCPToolWrapper.name := server_name +:+ "_" +:+ operation_name mcp_tool;
     MCPToolWrapper.description :=
       "[" +:+ PyStr.upper server_name +:+ "] " +:+
       py_str match py_getattr mcp_tool "description" with
              | Some d => d
              | None => VStr (operation_name mcp_tool +:+ " 도구")
              end;
     MCPToolWrapper.mcp_tool :=
       [("name", match py_getattr mcp_tool "name" with
                 | Some n => n
                 | None => VStr (py_str mcp_tool)
                 end);
        ("schema", match py_getattr mcp_tool "inputSchema" with
                   | Some schema => schema
                   | None => VDict []
                   end)];
     MCPToolWrapper.session := Some session;
     MCPToolWrapper.server_name := server_name;
     MCPToolWrapper.timeout_seconds := timeout_seconds |}.

(** The adapters of one registry entry: none for a server that is not
    connected or has no session. *)
Definition adapters_of (timeout_seconds : float) (entry : string * MCPServerInfo.t)
  : list MCPToolWrapper.t :=
  if MCPServerInfo.is_connected (snd entry) then
    match MCPServerInfo.session (snd entry) with
    | Some session =>
        map (adapter (fst entry) session timeout_seconds)
          (MCPServerInfo.tools (snd entry))
    | None => []
    end
  else [].

(** The number of adapters that a registry entry stands for. *)
Definition offered (server_info : MCPServerInfo.t) : nat :=
  if MCPServerInfo.is_connected server_info then
    match MCPServerInfo.session server_info with
    | Some _ => length (MCPServerInfo.tools server_info)
    | None => 0
    end
  else 0.

(** An object with a [content] attribute. *)
Definition with_content (content : pyval) : pyval :=
  VObj "CallToolResult" "CallToolResult(...)" [("content", content)].

(** ** The data of the examples *)

(** The printing of the floats that the examples use; outside this table
    the text is a placeholder. *)
Definition example_float_str (x : float) : string :=
  if PrimFloat.eqb x 30 then "30.0" else "?".

Definition example_float_2f (x : float) : string :=
  if PrimFloat.eqb x 0 then "0.00"
  else if PrimFloat.eqb x 1000 then "1000.00"
  else if PrimFloat.eqb x 2000 then "2000.00"
  else "?".

#[export] Instance example_format : PyFloatFormat :=
  {| float_str := example_float_str; float_2f := example_float_2f |}.

(** A clock that advances by one second at every reading. *)
Fixpoint example_clock (i : nat) : float :=
  match i with
  | O => 0
  | S j => (example_clock j + 1)%float
  end.


(** A session whose calls all do the same. *)
Definition session_that (id : nat) (b : call_behaviour) : ClientSession :=
  {| session_id := id; call_tool := fun _ _ => b |}.

(** A provider process that cannot be started. *)
Definition failing_process (e : pyexn) : provider_process :=
  {| startup := Raise e; teardown := None |}.

(** A provider process that starts and lists [tools]. *)
Definition working_process (id : nat) (tools : list pyval) : provider_process :=
  {| startup := Ok (session_that id (Completes VNone), Some tools);
     teardown := None |}.

(** A tool descriptor: an object with the three attributes. *)
Definition tool_descriptor (name description : string) : pyval :=
  VObj "Tool" ("Tool(" +:+ name +:+ ")")
    [("name", VStr name); ("description", VStr description);
     ("inputSchema", VDict [])].

(** A world at the start: nothing logged, nothing awaited, a manager as
    its constructor leaves it. *)
Definition example_world
  (grafana_config : option GrafanaConfig)
  (cloudwatch_config : option CloudWatchConfig)
  (processes : provider -> provider_process) : world :=
  {| clock := example_clock; ticks := 0; log := []; awaited := [];
     processes := processes;
     self := MCPServerManager_init grafana_config cloudwatch_config |}.

Definition idle_world : world :=
  example_world None None (fun _ => failing_process (OtherException "OSError" "")).

(** A registry entry for a server that is connected over [session]. *)
Definition connected_server (name : string) (id : nat) (tools : list pyval)
  : string * MCPServerInfo.t :=
  (name, {| MCPServerInfo.name := name;
            MCPServerInfo.session := Some (session_that id (Completes VNone));
            MCPServerInfo.tools := tools;
            MCPServerInfo.is_connected := true |}).

(** A registry entry for a server whose connection is closed. *)
Definition disconnected_server (name : string) (id : nat) (tools : list pyval)
  : string * MCPServerInfo.t :=
  (name, {| MCPServerInfo.name := name;
            MCPServerInfo.session := Some (session_that id (Completes VNone));
            MCPServerInfo.tools := tools;
            MCPServerInfo.is_connected := false |}).

(** A world whose manager has the registry [servers]. *)
Definition world_with_servers (servers : list (string * MCPServerInfo.t)) : world :=
  {| clock := example_clock; ticks := 0; log := []; awaited := [];
     processes := fun _ => failing_process (OtherException "OSError" "");
     self := {| MCPServerManager.grafana_config := None;
                MCPServerManager.cloudwatch_config := None;
                MCPServerManager.servers := servers;
                MCPServerManager._initialized := true |} |}.

(** A text of [n] letters. *)
Fixpoint letters (n : nat) : string :=
  match n with
  | O => ""
  | S m => String "a" (letters m)
  end.

Definition example_arguments : pydict :=
  [("query", VStr "up"); ("API_Key", VStr (letters 300)); ("limit", VInt 10);
   ("body", VStr (letters 300))].

(** An adapter as [get_all_tools] builds it. *)
Definition example_wrapper (session : option ClientSession) : MCPToolWrapper.t :=
  {| MCPToolWrapper.name := "grafana_query";
     MCPToolWrapper.description := "[GRAFANA] query";
     MCPToolWrapper.mcp_tool := [("name", VStr "query"); ("schema", VDict [])];
     MCPToolWrapper.session := session;
     MCPToolWrapper.server_name := "grafana";
     MCPToolWrapper.timeout_seconds := 30 |}.

(** The two configurations of the examples. *)
Definition example_grafana_config : GrafanaConfig :=
  {| url := "https://grafana.example.com"; api_key := "k" |}.

Definition example_cloudwatch_config : CloudWatchConfig :=
  {| aws_access_key_id := "AKIA"; aws_secret_access_key := "s";
     region := "us-east-1" |}.

(** A world in which Grafana cannot be started and CloudWatch can. *)
Definition half_started_world : world :=
  example_world (Some example_grafana_config) (Some example_cloudwatch_config)
    (fun p => match p with
              | Grafana => failing_process (OtherException "FileNotFoundError" "npx")
              | CloudWatch => working_process 2 [tool_descriptor "get_logs" ""]
              end).

(** A world in which both providers start. *)
Definition started_world : world :=
  example_world (Some example_grafana_config) (Some example_cloudwatch_config)
    (fun p => match p with
              | Grafana =>
                  working_process 1 [tool_descriptor "query" ""; tool_descriptor "list" ""]
              | CloudWatch => working_process 2 [tool_descriptor "query" ""]
              end).

(** A world whose manager was initialized when Grafana ran, and in which
    Grafana can no longer be started. *)
Definition restarted_world : world :=
  {| clock := example_clock; ticks := 0; log := []; awaited := [];
     processes := fun _ => failing_process (OtherException "OSError" "");
     self := {| MCPServerManager.grafana_config := Some example_grafana_config;
                MCPServerManager.cloudwatch_config := None;
                MCPServerManager.servers :=
                  [connected_server "grafana" 1 [tool_descriptor "query" ""]];
                MCPServerManager._initialized := true |} |}.

(** An environment with the variables of the two providers. *)
Definition example_environ : list (string * string) :=
  [("GRAFANA_URL", "https://grafana.example.com"); ("GRAFANA_API_KEY", "k");
   ("CLOUDWATCH_AWS_ACCESS_KEY_ID", "AKIA");
   ("CLOUDWATCH_AWS_SECRET_ACCESS_KEY", "s"); ("CLOUDWATCH_REGION", "us-east-1")].

(** ** The rest of the manager: status and shutdown *)

(** [mcp_tool.name if hasattr(mcp_tool, 'name') else str(mcp_tool)] *)
Definition listed_name (mcp_tool : pyval) : pyval :=
  match py_getattr mcp_tool "name" with
  | Some n => n
  | None => VStr (py_str mcp_tool)
  end.

(** The dictionary that [get_server_status] builds for one server. *)
Definition server_status_of (server_info : MCPServerInfo.t) : pydict :=
  [("is_connected", VBool (MCPServerInfo.is_connected server_info));
   ("tool_count", VInt (Z.of_nat (length (MCPServerInfo.tools server_info))));
   ("tools", VList (map listed_name (MCPServerInfo.tools server_info)))].

Definition get_server_status : M (list (string * pydict)) :=
  this <- get_self ;;
  for_each
    (fun status entry =>
       ret (Dict.set status (fst entry) (server_status_of (snd entry))))
    (MCPServerManager.servers this) [].

(** [self.servers.clear()] *)
Definition clear_servers : M unit :=
  fun w =>
    let this := self w in
    (Ok tt,
     with_self w
       {| MCPServerManager.grafana_config := MCPServerManager.grafana_config this;
          MCPServerManager.cloudwatch_config := MCPServerManager.cloudwatch_config this;
          MCPServerManager.servers := [];
          MCPServerManager._initialized := MCPServerManager._initialized this |}).

(** [server_info.is_connected = False], for the record under [key] *)
Definition mark_disconnected (key : string) (server_info : MCPServerInfo.t) : M unit :=
  set_server key
    {| MCPServerInfo.name := MCPServerInfo.name server_info;
       MCPServerInfo.session := MCPServerInfo.session server_info;
       MCPServerInfo.tools := MCPServerInfo.tools server_info;
       MCPServerInfo.is_connected := false |}.

(** The body of the loop of [shutdown], for one record of the registry;
    each record is an object of its own, so what the loop does to one is
    not seen in another. *)
Definition close_server (entry : string * MCPServerInfo.t) : M unit :=
  let server_name := fst entry in
  let server_info := snd entry in
  try_except
    (if MCPServerInfo.is_connected server_info
        && configured (MCPServerInfo.session server_info)
     then
       mark_disconnected server_name server_info ;;
       logger LogInfo ("서버 '" +:+ server_name +:+ "' 연결 종료")
     else ret tt)
    (fun e =>
       if is_Exception e then
         logger LogError
           ("서버 '" +:+ server_name +:+ "' 종료 실패: " +:+ exn_str e)
       else raise e).

Definition shutdown : M unit :=
  logger LogInfo "MCP 서버 종료 시작" ;;
  this <- get_self ;;
  for_each (fun _ entry => close_server entry) (MCPServerManager.servers this) tt ;;
  clear_servers ;;
  set_initialized false ;;
  logger LogInfo "MCP 서버 종료 완료".

(** ** The health checks of [app.py] that read the manager *)

(** The [Literal["healthy", "unhealthy", "unknown"]] of a component. *)
Inductive component_state := healthy | unhealthy | unknown.

Module ServiceStatus.
Record t := {
  name : string;
  status : component_state;
  message : option string;
}.
End ServiceStatus.

(** [not v] for the value of [os.environ.get(...)] *)
Definition env_missing (v : option string) : bool :=
  match v with
  | Some s => String.eqb s ""
  | None => true
  end.

(** [d.get(key, default)] *)
Definition dict_get_default (d : pydict) (key : string) (default : pyval) : pyval :=
  match Dict.get key d with
  | Some v => v
  | None => default
  end.

(** [_check_mcp_grafana_health].  [environ] is [os.environ];
    [manager_is_set] says whether [_mcp_manager_instance] is not [None], and
    then it is the manager of the world. *)
Definition _check_mcp_grafana_health
  (environ : list (string * string)) (manager_is_set : bool) : M ServiceStatus.t :=
  try_except
    (let grafana_url := Dict.get "GRAFANA_URL" environ in
     let grafana_api_key := Dict.get "GRAFANA_API_KEY" environ in
     let cannot_tell :=
       {| ServiceStatus.name := "mcp_grafana";
          ServiceStatus.status := unknown;
          ServiceStatus.message := Some "Grafana MCP 서버 상태를 확인할 수 없습니다" |} in
     if env_missing grafana_url || env_missing grafana_api_key then
       ret {| ServiceStatus.name := "mcp_grafana";
              ServiceStatus.status := unknown;
              ServiceStatus.message := Some "Grafana MCP 서버가 구성되지 않았습니다" |}
     else if manager_is_set then
       server_status <- get_server_status ;;
       match Dict.get "grafana" server_status with
       | Some grafana_info =>
           if py_truthy (dict_get_default grafana_info "is_connected" (VBool false))
           then
             let tool_count := dict_get_default grafana_info "tool_count" (VInt 0) in
             ret {| ServiceStatus.name := "mcp_grafana";
                    ServiceStatus.status := healthy;
                    ServiceStatus.message :=
                      Some ("Grafana MCP 서버 연결 정상 (도구 " +:+ py_str tool_count +:+
                            "개)") |}
           else
             ret {| ServiceStatus.name := "mcp_grafana";
                    ServiceStatus.status := unhealthy;
                    ServiceStatus.message := Some "Grafana MCP 서버 연결 끊김" |}
       | None => ret cannot_tell
       end
     else ret cannot_tell)
    (fun e =>
       if is_Exception e then
         logger LogError ("Grafana MCP 헬스 체크 중 예외 발생: " +:+ exn_str e) ;;
         ret {| ServiceStatus.name := "mcp_grafana";
                ServiceStatus.status := unhealthy;
                ServiceStatus.message := Some ("상태 확인 실패: " +:+ exn_str e) |}
       else raise e).

Definition _check_mcp_cloudwatch_health
  (environ : list (string * string)) (manager_is_set : bool) : M ServiceStatus.t :=
  try_except
    (let cw_access_key := Dict.get "CLOUDWATCH_AWS_ACCESS_KEY_ID" environ in
     let cw_secret_key := Dict.get "CLOUDWATCH_AWS_SECRET_ACCESS_KEY" environ in
     let cw_region := Dict.get "CLOUDWATCH_REGION" environ in
     let cannot_tell :=
       {| ServiceStatus.name := "mcp_cloudwatch";
          ServiceStatus.status := unknown;
          ServiceStatus.message := Some "CloudWatch MCP 서버 상태를 확인할 수 없습니다" |} in
     if env_missing cw_access_key || env_missing cw_secret_key || env_missing cw_region
     then
       ret {| ServiceStatus.name := "mcp_cloudwatch";
              ServiceStatus.status := unknown;
              ServiceStatus.message := Some "CloudWatch MCP 서버가 구성되지 않았습니다" |}
     else if manager_is_set then
       server_status <- get_server_status ;;
       match Dict.get "cloudwatch" server_status with
       | Some cloudwatch_info =>
           if py_truthy (dict_get_default cloudwatch_info "is_connected" (VBool false))
           then
             let tool_count := dict_get_default cloudwatch_info "tool_count" (VInt 0) in
             ret {| ServiceStatus.name := "mcp_cloudwatch";
                    ServiceStatus.status := healthy;
                    ServiceStatus.message :=
                      Some ("CloudWatch MCP 서버 연결 정상 (도구 " +:+ py_str tool_count +:+
                            "개)") |}
           else
             ret {| ServiceStatus.name := "mcp_cloudwatch";
                    ServiceStatus.status := unhealthy;
                    ServiceStatus.message := Some "CloudWatch MCP 서버 연결 끊김" |}
       | None => ret cannot_tell
       end
     else ret cannot_tell)
    (fun e =>
       if is_Exception e then
         logger LogError ("CloudWatch MCP 헬스 체크 중 예외 발생: " +:+ exn_str e) ;;
         ret {| ServiceStatus.name := "mcp_cloudwatch";
                ServiceStatus.status := unhealthy;
                ServiceStatus.message := Some ("상태 확인 실패: " +:+ exn_str e) |}
       else raise e).

Definition is_healthy (c : ServiceStatus.t) : bool :=
  match ServiceStatus.status c with
  | healthy => true
  | _ => false
  end.

Definition is_unhealthy (c : ServiceStatus.t) : bool :=
  match ServiceStatus.status c with
  | unhealthy => true
  | _ => false
  end.

(** [_determine_overall_status]: [next(...)] over the generator is the
    first component named [database], if there is one. *)
Definition _determine_overall_status (components : list ServiceStatus.t) : string :=
  let db_status :=
    List.find (fun c => String.eqb (ServiceStatus.name c) "database") components in
  if match db_status with
     | Some db => is_unhealthy db
     | None => false
     end
  then "unhealthy"
  else
    let all_healthy := forallb is_healthy components in
    let any_unhealthy := existsb is_unhealthy components in
    if all_healthy then "healthy"
    else if any_unhealthy then "degraded"
    else if match db_status with
            | Some db => is_healthy db
            | None => false
            end
         then "healthy"
         else "degraded".

(** ** Definitions that the further statements use *)

(** [self.servers[name] = server], when a start method gave a server. *)
Definition register (name : string) (server : option MCPServerInfo.t)
  (servers : list (string * MCPServerInfo.t)) : list (string * MCPServerInfo.t) :=
  match server with
  | Some server_info => Dict.set servers name server_info
  | None => servers
  end.

(** The number of error records of a log. *)
Definition is_error_record (entry : log_level * string) : bool :=
  match fst entry with
  | LogError => true
  | _ => false
  end.

Definition error_records (l : list (log_level * string)) : nat :=
  length (List.filter is_error_record l).

(** Two worlds that differ in the log and in the registry of the manager
    at most: the clock, the calls awaited, the provider processes and the
    two configurations are the same. *)
Definition same_outside_registry (w w' : world) : Prop :=
  clock w' = clock w /\ ticks w' = ticks w /\ awaited w' = awaited w /\
  processes w' = processes w /\
  MCPServerManager.grafana_config (self w')
  = MCPServerManager.grafana_config (self w) /\
  MCPServerManager.cloudwatch_config (self w')
  = MCPServerManager.cloudwatch_config (self w).

(** The status dictionary of one registry entry. *)
Definition status_item (entry : string * MCPServerInfo.t) : string * pydict :=
  (fst entry, server_status_of (snd entry)).

(** [isinstance(v, str)] *)
Definition is_str (v : pyval) : bool :=
  match v with
  | VStr _ => true
  | _ => false
  end.

(** * Properties *)

(** ** Facts about strings *)

Lemma py_len_take (n : nat) (s : string) :
  PyStr.py_len (PyStr.py_take n s) = Nat.min n (PyStr.py_len s).
Proof.
  revert n; induction s as [|c s IH]; intros n; simpl.
  - by rewrite Nat.min_0_r.
  - destruct (PyStr.is_continuation c) eqn:E; simpl; rewrite ?E.
    + by rewrite IH.
    + destruct n as [|m]; simpl; rewrite ?E; [done|]. rewrite IH. lia.
Qed.

Lemma py_take_prefix (n : nat) (s : string) :
  String.prefix (PyStr.py_take n s) s = true.
Proof.
  revert n; induction s as [|c s IH]; intros n; simpl; [done|].
  destruct (PyStr.is_continuation c); simpl.
  - destruct (ascii_dec c c); [apply IH|done].
  - destruct n as [|m]; simpl; [done|].
    destruct (ascii_dec c c); [apply IH|done].
Qed.

Example py_len_ascii : PyStr.py_len "abc" = 3.
Proof. reflexivity. Qed.

Example py_len_hangul : PyStr.py_len "도구" = 2 /\ String.length "도구" = 6.
Proof. split; reflexivity. Qed.

Example py_take_hangul : PyStr.py_take 1 "도구" = "도".
Proof. reflexivity. Qed.

Example lower_mixed : PyStr.lower "API_Key" = "api_key".
Proof. reflexivity. Qed.

Example lower_kelvin :
  PyStr.lower "toKen" = "token" /\ is_sensitive "authToKen" = true.
Proof. split; reflexivity. Qed.

Example contains_inner : PyStr.contains "token" "x_token_y" = true.
Proof. reflexivity. Qed.

Example repr_plain :
  PyStr.repr "a'b" = String "034" ("a'b" +:+ String "034" "") /\
  PyStr.repr "ab" = "'ab'".
Proof. split; reflexivity. Qed.

(** ** Facts about dictionaries *)

Lemma string_eqb_eq (a b : string) : String.eqb a b = true <-> a = b.
Proof. apply String.eqb_eq. Qed.

Lemma string_eqb_ne (a b : string) : String.eqb a b = false <-> a <> b.
Proof. apply String.eqb_neq. Qed.

Lemma dict_set_fresh {A} (d : list (string * A)) (key : string) (v : A) :
  key ∉ Dict.keys d -> Dict.set d key v = d ++ [(key, v)].
Proof.
  induction d as [|[k v'] d IH]; simpl; intros Hk; [done|].
  apply not_elem_of_cons in Hk as [Hne Hk].
  destruct (String.eqb key k) eqn:E.
  - apply string_eqb_eq in E. done.
  - by rewrite IH.
Qed.

Lemma dict_keys_app {A} (d1 d2 : list (string * A)) :
  Dict.keys (d1 ++ d2) = Dict.keys d1 ++ Dict.keys d2.
Proof. apply map_app. Qed.

Lemma dict_get_map {A B} (g : string -> A -> B) (d : list (string * A)) (key : string) :
  Dict.get key (map (fun kv => (fst kv, g (fst kv) (snd kv))) d)
  = g key <$> Dict.get key d.
Proof.
  induction d as [|[k v] d IH]; simpl; [done|].
  destruct (String.eqb key k) eqn:E; [|done].
  apply string_eqb_eq in E. by subst.
Qed.

Lemma dict_get_None {A} (d : list (string * A)) (key : string) :
  key ∉ Dict.keys d -> Dict.get key d = None.
Proof.
  induction d as [|[k v] d IH]; simpl; intros Hk; [done|].
  apply not_elem_of_cons in Hk as [Hne Hk].
  destruct (String.eqb key k) eqn:E; [by apply string_eqb_eq in E|auto].
Qed.

(** ** The sanitizer builds its result entry by entry *)

Lemma sanitize_fold (arguments sanitized : pydict) :
  NoDup (Dict.keys sanitized ++ Dict.keys arguments) ->
  fold_left sanitize_step arguments sanitized
  = sanitized ++ map sanitize_item arguments.
Proof.
  revert sanitized.
  induction arguments as [|[k v] arguments IH]; intros sanitized Hnd; simpl.
  - by rewrite app_nil_r.
  - apply NoDup_app in Hnd as (Hs & Hdisj & Ha).
    unfold sanitize_step at 2; simpl.
    rewrite dict_set_fresh.
    2:{ intros Hin. apply (Hdisj k Hin). apply list_elem_of_here. }
    rewrite IH.
    + by rewrite <- app_assoc.
    + rewrite dict_keys_app; simpl. rewrite <- app_assoc; simpl.
      apply NoDup_app. split; [done|]. split; [|done].
      intros x Hx. apply Hdisj. done.
Qed.

Lemma sanitize_as_map (arguments : pydict) :
  Dict.wf arguments ->
  _sanitize_arguments_for_logging arguments = map sanitize_item arguments.
Proof.
  intros Hwf. unfold _sanitize_arguments_for_logging.
  by rewrite sanitize_fold.
Qed.

Lemma sanitize_keys (arguments : pydict) :
  Dict.wf arguments ->
  Dict.keys (_sanitize_arguments_for_logging arguments) = Dict.keys arguments.
Proof.
  intros Hwf. rewrite sanitize_as_map by done.
  unfold Dict.keys. rewrite map_map. done.
Qed.

Lemma sanitize_get (arguments : pydict) (key : string) :
  Dict.wf arguments ->
  Dict.get key (_sanitize_arguments_for_logging arguments)
  = sanitized_entry key <$> Dict.get key arguments.
Proof.
  intros Hwf. rewrite sanitize_as_map by done.
  apply (dict_get_map sanitized_entry).
Qed.

Lemma is_sensitive_spec (key : string) :
  is_sensitive key = true <->
  exists sensitive,
    sensitive ∈ sensitive_keys /\
    PyStr.contains sensitive (PyStr.lower key) = true.
Proof.
  unfold is_sensitive. rewrite existsb_exists.
  split; intros (x & Hx & Hc); exists x; split; try done.
  - by apply list_elem_of_In.
  - by apply list_elem_of_In.
Qed.

(** The sanitized dictionary does not depend on what the sensitive keys
    hold. *)
Lemma sanitize_hides_sensitive_values (arguments arguments' : pydict) :
  Dict.wf arguments ->
  Dict.keys arguments' = Dict.keys arguments ->
  (forall key, is_sensitive key = false ->
               Dict.get key arguments' = Dict.get key arguments) ->
  _sanitize_arguments_for_logging arguments'
  = _sanitize_arguments_for_logging arguments.
Proof.
  intros Hwf Hkeys Hsame.
  rewrite !sanitize_as_map by (unfold Dict.wf; by rewrite ?Hkeys).
  revert arguments' Hkeys Hsame.
  induction arguments as [|[k v] arguments IH]; intros [|[k' v'] arguments'];
    try done.
  intros [= -> Hkeys] Hsame. apply NoDup_cons in Hwf as [Hk Hwf].
  cbn [map]. f_equal.
  - unfold sanitize_item, sanitized_entry. cbn [fst snd].
    destruct (is_sensitive k) eqn:Hs; [done|].
    specialize (Hsame k Hs). simpl in Hsame. rewrite String.eqb_refl in Hsame.
    by injection Hsame as ->.
  - apply IH; [done|done|]. intros key Hs. specialize (Hsame key Hs).
    simpl in Hsame. destruct (String.eqb key k) eqn:E; [|done].
    apply string_eqb_eq in E as ->.
    rewrite !dict_get_None; [done|done|]. by rewrite Hkeys.
Qed.

(** ** The sanitizer over the store *)

Lemma store_insert_after_alter (f : pydict -> pydict) (h : Store.store) (r : nat) (d : pydict) :
  <[r := d]> (alter f r h) = <[r := d]> h.
Proof.
  rewrite !list_insert_alter. rewrite list_alter_alter_eq. done.
Qed.

Lemma sanitize_loop_spec (rounds : nat) :
  forall (i : nat) (h : Store.store) (a r : nat) (arguments acc : pydict),
    a <> r ->
    h !! a = Some arguments ->
    h !! r = Some acc ->
    length arguments <= i + rounds ->
    Store.sanitize_loop rounds i h a r
    = <[r := fold_left sanitize_step (drop i arguments) acc]> h.
Proof.
  induction rounds as [|rounds IH]; intros i h a r arguments acc Hne Ha Hr Hlen; simpl.
  - rewrite drop_ge by lia. simpl. by rewrite list_insert_id.
  - unfold Store.items. rewrite Ha. simpl.
    destruct (arguments !! i) as [[key value]|] eqn:Hi.
    + erewrite (IH (S i) _ a r arguments (sanitize_step acc (key, value))).
      * unfold Store.setitem. rewrite store_insert_after_alter.
        by rewrite (drop_S _ _ _ Hi).
      * done.
      * unfold Store.setitem. by rewrite list_lookup_alter_ne.
      * unfold Store.setitem. rewrite list_lookup_alter_eq, Hr. done.
      * lia.
    + apply lookup_ge_None in Hi. rewrite drop_ge by lia. simpl.
      by rewrite list_insert_id.
Qed.

Lemma store_sanitize_spec (h : Store.store) (a : nat) (arguments : pydict) :
  h !! a = Some arguments ->
  Store._sanitize_arguments_for_logging h a
  = (h ++ [_sanitize_arguments_for_logging arguments], length h).
Proof.
  intros Ha. unfold Store._sanitize_arguments_for_logging, Store.new_dict.
  f_equal. unfold Store.items at 1. rewrite Ha. simpl.
  assert (Hlt : a < length h) by (by eapply lookup_lt_Some).
  rewrite (sanitize_loop_spec _ 0 _ a (length h) arguments []).
  - rewrite drop_0. replace (length h) with (length h + 0) at 1 by lia.
    rewrite insert_app_r. done.
  - lia.
  - by rewrite lookup_app_l.
  - rewrite lookup_app_r by lia. by rewrite Nat.sub_diag.
  - lia.
Qed.

(** ** C7 and C10: what the sanitizer keeps, cuts and hides *)

(** C7.  In the dictionary that [_sanitize_arguments_for_logging] returns,
    the value of a key that contains one of the sensitive words, whatever
    the case of its letters, is the redaction marker, and the whole
    dictionary is the same whatever the sensitive keys hold; a string of
    more than 200 characters under any other key is cut to its first 100
    characters, followed by the count of its characters; every other value
    is the one of the arguments. *)
Theorem sanitize_arguments_redacts_and_truncates
  (arguments : pydict) (key : string) (value : pyval) :
  Dict.wf arguments ->
  Dict.get key arguments = Some value ->
  ((exists sensitive,
       sensitive ∈ ["api_key"; "apikey"; "password"; "secret"; "token"; "credential"] /\
       PyStr.contains sensitive (PyStr.lower key) = true) ->
   Dict.get key (_sanitize_arguments_for_logging arguments)
   = Some (VStr "***REDACTED***")) /\
  (is_sensitive key = false ->
   forall s, value = VStr s -> 200 < PyStr.py_len s ->
     Dict.get key (_sanitize_arguments_for_logging arguments)
     = Some (VStr (PyStr.py_take 100 s +:+ "...(" +:+
                   PyStr.of_nat (PyStr.py_len s) +:+ " chars)")) /\
     PyStr.py_len (PyStr.py_take 100 s) = 100 /\
     String.prefix (PyStr.py_take 100 s) s = true) /\
  (is_sensitive key = false ->
   (forall s, value = VStr s -> PyStr.py_len s <= 200) ->
   Dict.get key (_sanitize_arguments_for_logging arguments) = Some value) /\
  (forall arguments',
      Dict.keys arguments' = Dict.keys arguments ->
      (forall key', is_sensitive key' = false ->
                    Dict.get key' arguments' = Dict.get key' arguments) ->
      _sanitize_arguments_for_logging arguments'
      = _sanitize_arguments_for_logging arguments).
Proof.
  intros Hwf Hget.
  split; [|split; [|split]];
    [| | |intros arguments'; by apply sanitize_hides_sensitive_values];
    rewrite sanitize_get, Hget by done; simpl; unfold sanitized_entry.
  - intros Hs. apply is_sensitive_spec in Hs. by rewrite Hs.
  - intros Hns s -> Hlong. rewrite Hns.
    assert (Hlt : (200 <? PyStr.py_len s) = true) by (apply Nat.ltb_lt; lia).
    rewrite Hlt. split; [done|]. split.
    + rewrite py_len_take. lia.
    + apply py_take_prefix.
  - intros Hns Hshort. rewrite Hns. destruct value as [| | |s| | | |]; try done.
    specialize (Hshort s eq_refl).
    assert (Hlt : (200 <? PyStr.py_len s) = false) by (apply Nat.ltb_ge; lia).
    by rewrite Hlt.
Qed.

(** C10.  With the dictionaries as objects in a store: the call allocates
    one new dictionary and writes to nothing else, so the argument
    dictionary and every other object are as before; the new dictionary has
    the keys of the arguments, in their order; and a long string under a
    sensitive key comes out as the marker, not as a cut string. *)
Theorem sanitize_arguments_fresh_copy
  (h : Store.store) (a : nat) (arguments : pydict) :
  h !! a = Some arguments ->
  Dict.wf arguments ->
  let sanitized := snd (Store._sanitize_arguments_for_logging h a) in
  let h' := fst (Store._sanitize_arguments_for_logging h a) in
  h' !! a = Some arguments /\
  (forall b, b < length h -> h' !! b = h !! b) /\
  sanitized = length h /\
  h' !! sanitized = Some (_sanitize_arguments_for_logging arguments) /\
  Dict.keys (_sanitize_arguments_for_logging arguments) = Dict.keys arguments /\
  (forall key s,
      is_sensitive key = true ->
      Dict.get key arguments = Some (VStr s) ->
      200 < PyStr.py_len s ->
      Dict.get key (_sanitize_arguments_for_logging arguments)
      = Some (VStr "***REDACTED***")).
Proof.
  intros Ha Hwf. rewrite (store_sanitize_spec _ _ _ Ha). simpl.
  assert (Hlt : a < length h) by (by eapply lookup_lt_Some).
  repeat split.
  - by rewrite lookup_app_l.
  - intros b Hb. by rewrite lookup_app_l.
  - rewrite lookup_app_r by lia. by rewrite Nat.sub_diag.
  - by apply sanitize_keys.
  - intros key s Hs Hget _. rewrite sanitize_get, Hget by done. simpl.
    unfold sanitized_entry. by rewrite Hs.
Qed.

(** ** The executor, case by case *)

Lemma append_nonempty_l (a b : string) : a <> "" -> a +:+ b <> "".
Proof. destruct a; [done|]. intros _. discriminate. Qed.

Lemma append_nonempty_r (a b : string) : b <> "" -> a +:+ b <> "".
Proof. destruct a; [done|]. intros _. discriminate. Qed.

Lemma format_error_details_nonempty (e : pyexn) : _format_error_details e <> "".
Proof.
  unfold _format_error_details.
  repeat (destruct (String.eqb _ _); [first [discriminate | by apply append_nonempty_l]|]).
  apply append_nonempty_r. by apply append_nonempty_l.
Qed.

Lemma mcp_error_str_nonempty cls tool_name server_name message original_error :
  exn_str (MCPError cls tool_name server_name message original_error) <> "".
Proof.
  simpl. destruct original_error; by repeat apply append_nonempty_l.
Qed.


Lemma append_nil_l (z : string) : "" +:+ z = z.
Proof. reflexivity. Qed.

Lemma append_cons (c : ascii) (a z : string) : String c a +:+ z = String c (a +:+ z).
Proof. reflexivity. Qed.

Lemma string_length_append (a b : string) :
  String.length (a +:+ b) = String.length a + String.length b.
Proof.
  induction a as [|x a IH]; [done|].
  change (String x a +:+ b) with (String x (a +:+ b)). simpl. by rewrite IH.
Qed.

Lemma string_append_inj_l (a x y : string) : a +:+ x = a +:+ y -> x = y.
Proof.
  induction a as [|c a IH]; [done|].
  change (String c a +:+ x) with (String c (a +:+ x)).
  change (String c a +:+ y) with (String c (a +:+ y)).
  intros [= Heq]. auto.
Qed.

Lemma string_append_inj_r (a b x : string) : a +:+ x = b +:+ x -> a = b.
Proof.
  revert b. induction a as [|c a IH]; intros [|d b] Heq; [done| | |].
  - apply (f_equal String.length) in Heq.
    rewrite !string_length_append in Heq. simpl in Heq. lia.
  - apply (f_equal String.length) in Heq.
    rewrite !string_length_append in Heq. simpl in Heq. lia.
  - change (String c a +:+ x) with (String c (a +:+ x)) in Heq.
    change (String d b +:+ x) with (String d (b +:+ x)) in Heq.
    injection Heq as -> Heq. f_equal. auto.
Qed.

Lemma no_underscore_cons (c : ascii) (s : string) :
  PyStr.contains "_" (String c s) = false ->
  c <> "_"%char /\ PyStr.contains "_" s = false.
Proof.
  cbn [PyStr.contains String.prefix]. destruct (ascii_dec "_" c) as [<-|Hne].
  - by destruct s.
  - destruct (PyStr.contains "_" s); [done|]. intros _. split; [congruence|done].
Qed.

(** A provider name without an underscore can be read back from the
    qualified name, and the operation with it. *)
Lemma qualified_name_inj (a b x y : string) :
  PyStr.contains "_" a = false ->
  PyStr.contains "_" b = false ->
  a +:+ "_" +:+ x = b +:+ "_" +:+ y ->
  a = b /\ x = y.
Proof.
  revert b. induction a as [|c a IH]; intros [|d b] Ha Hb Heq;
    rewrite ?append_cons, ?append_nil_l in Heq.
  - by injection Heq as ->.
  - apply no_underscore_cons in Hb as [Hd _]. injection Heq as <- _. done.
  - apply no_underscore_cons in Ha as [Hc _]. injection Heq as -> _. done.
  - apply no_underscore_cons in Ha as [_ Ha].
    apply no_underscore_cons in Hb as [_ Hb].
    injection Heq as -> Heq. destruct (IH b Ha Hb Heq) as [-> ->]. done.
Qed.

Lemma dict_wf_unique {A} (d : list (string * A)) (key : string) (v1 v2 : A) :
  Dict.wf d -> (key, v1) ∈ d -> (key, v2) ∈ d -> v1 = v2.
Proof.
  unfold Dict.wf, Dict.keys.
  induction d as [|[k v] d IH]; simpl; intros Hnd H1 H2.
  - by apply elem_of_nil in H1.
  - apply NoDup_cons in Hnd as [Hk Hnd].
    apply elem_of_cons in H1 as [[= -> ->]|H1]; apply elem_of_cons in H2 as [[= ?]|H2];
      subst; try done.
    + exfalso. apply Hk. apply list_elem_of_fmap. by exists (k, v2).
    + exfalso. apply Hk. apply list_elem_of_fmap. by exists (k, v1).
    + eauto.
Qed.

Lemma prefix_append (s t : string) : String.prefix s (s +:+ t) = true.
Proof.
  induction s as [|c s IH].
  - change ("" +:+ t) with t. by destruct t.
  - change (String c s +:+ t) with (String c (s +:+ t)). simpl.
    destruct (ascii_dec c c); [apply IH|done].
Qed.



Section Executor.
Context `{PyFloatFormat}.

Ltac run_monad :=
  unfold execute_mcp_tool, bind, try_except, time_time, logger, raise,
    wait_for_call_tool, lift, ret; cbn [fst snd ticks clock awaited log self
    with_ticks with_log with_awaited session_id call_tool].

Ltac step :=
  cbn -[_process_mcp_result py_len py_slice_to elapsed_ms py_repr py_str
        String.append _sanitize_arguments_for_logging _format_error_details
        exn_str PyStr.of_nat].

Lemma execute_without_session tool_name server_name arguments timeout_seconds w :
  exists w',
    execute_mcp_tool None tool_name server_name arguments timeout_seconds w
    = (Ok {| MCPToolResult.tool_name := tool_name;
             MCPToolResult.server_name := server_name;
             MCPToolResult.status := CONNECTION_ERROR;
             MCPToolResult.result := None;
             MCPToolResult.error_message :=
               Some ("[" +:+ server_name +:+ "] 도구 '" +:+ tool_name +:+ "' 오류: " +:+
                     "MCP 세션이 None입니다. 서버 연결을 확인하세요.");
             MCPToolResult.execution_time_ms :=
               elapsed_ms (clock w (ticks w)) (clock w (S (ticks w)));
             MCPToolResult.arguments := arguments |}, w') /\
    awaited w' = awaited w /\
    ticks w' = S (S (ticks w)) /\
    self w' = self w.
Proof.
  eexists. run_monad. cbn. split; [reflexivity|]. by repeat split.
Qed.

Lemma wait_for_outcome_started timeout_seconds b response :
  wait_for_outcome timeout_seconds b = Ok response ->
  call_starts timeout_seconds = true.
Proof. unfold wait_for_outcome. by destruct (call_starts timeout_seconds). Qed.


Lemma execute_fails session tool_name server_name arguments timeout_seconds w e :
  wait_for_outcome timeout_seconds (call_tool session tool_name arguments) = Raise e ->
  is_Exception e = true ->
  exists r w',
    execute_mcp_tool (Some session) tool_name server_name arguments timeout_seconds w
    = (Ok r, w') /\
    MCPToolResult.status r = status_of_exception e /\
    MCPToolResult.error_message r = Some (message_of_exception timeout_seconds e) /\
    MCPToolResult.result r = None /\
    MCPToolResult.arguments r = arguments /\
    awaited w'
    = awaited w ++
      (if call_starts timeout_seconds
       then [call_of session tool_name arguments timeout_seconds] else []).
Proof.
  intros Hcall Hexn. unfold status_of_exception, message_of_exception.
  destruct e as [cls t s m o | text | cls text | cls text]; [|  | |done].
  - destruct cls; do 2 eexists; run_monad; rewrite Hcall; step;
      (split; [reflexivity|]); by repeat split.
  - do 2 eexists; run_monad; rewrite Hcall; step.
    split; [reflexivity|]. by repeat split.
  - do 2 eexists; run_monad; rewrite Hcall; step.
    split; [reflexivity|]. by repeat split.
Qed.


Lemma str_items_raises parts : forall i e,
  str_items i parts = Raise e -> exists text, e = TypeError text.
Proof.
  induction parts as [|v parts IH]; intros i e; simpl; [done|].
  destruct v; try (intros [= <-]; by eexists).
  destruct (str_items (S i) parts) eqn:E; [done|].
  intros [= <-]. by eapply IH.
Qed.

Lemma process_mcp_result_raises response e :
  _process_mcp_result response = Raise e -> exists text, e = TypeError text.
Proof.
  unfold _process_mcp_result, py_join. intros Hp.
  repeat case_match; simplify_eq; eauto using str_items_raises.
Qed.

Lemma py_len_raises v e : py_len v = Raise e -> exists text, e = TypeError text.
Proof. destruct v; simpl; try done; intros [= <-]; by eexists. Qed.

Lemma py_slice_to_raises n v e :
  py_slice_to n v = Raise e -> exists text, e = TypeError text.
Proof. destruct v; simpl; try done; intros [= <-]; by eexists. Qed.


Lemma execute_completes session tool_name server_name arguments timeout_seconds w response :
  wait_for_outcome timeout_seconds (call_tool session tool_name arguments)
  = Ok response ->
  exists r w',
    execute_mcp_tool (Some session) tool_name server_name arguments timeout_seconds w
    = (Ok r, w') /\
    MCPToolResult.arguments r = arguments /\
    awaited w' = awaited w ++ [call_of session tool_name arguments timeout_seconds] /\
    match processed response with
    | Ok (result_text, _, _) =>
        MCPToolResult.status r = SUCCESS /\
        MCPToolResult.result r = Some result_text /\
        MCPToolResult.error_message r = None /\
        MCPToolResult.execution_time_ms r
        = elapsed_ms (clock w (ticks w)) (clock w (S (ticks w)))
    | Raise e =>
        MCPToolResult.status r = ERROR /\
        MCPToolResult.result r = None /\
        MCPToolResult.error_message r = Some (_format_error_details e)
    end.
Proof.
  intros Hcall. pose proof (wait_for_outcome_started _ _ _ Hcall) as Hstart.
  unfold processed.
  destruct (_process_mcp_result response) as [result_text|e] eqn:Hp.
  - destruct (py_len result_text) as [n|e] eqn:Hn.
    + destruct (py_slice_to 500 result_text) as [preview|e] eqn:Hs.
      * do 2 eexists. run_monad. rewrite Hcall, Hstart. step. rewrite Hp, Hn. step.
        rewrite Hs. step. split; [reflexivity|]. by repeat split.
      * destruct (py_slice_to_raises _ _ _ Hs) as [text ->].
        do 2 eexists. run_monad. rewrite Hcall, Hstart. step. rewrite Hp, Hn. step.
        rewrite Hs. step. split; [reflexivity|]. by repeat split.
    + destruct (py_len_raises _ _ Hn) as [text ->].
      do 2 eexists. run_monad. rewrite Hcall, Hstart. step. rewrite Hp, Hn. step.
      split; [reflexivity|]. by repeat split.
  - destruct (process_mcp_result_raises _ _ Hp) as [text ->].
    do 2 eexists. run_monad. rewrite Hcall, Hstart. step. rewrite Hp. step.
    split; [reflexivity|]. by repeat split.
Qed.

(** ** The adapter, by the status of the outcome *)

Lemma arun_by_status this kwargs w r w' :
  execute_mcp_tool
    (MCPToolWrapper.session this) (MCPToolWrapper.name this)
    (MCPToolWrapper.server_name this) kwargs
    (MCPToolWrapper.timeout_seconds this) w = (Ok r, w') ->
  _arun this kwargs w =
  match MCPToolResult.status r with
  | SUCCESS =>
      (Ok match MCPToolResult.result r with
          | Some text => if py_truthy text then text else VStr ""
          | None => VStr ""
          end, w')
  | CONNECTION_ERROR =>
      (Raise (MCPError MCPToolConnectionError
                (MCPToolWrapper.name this) (MCPToolWrapper.server_name this)
                (or_else (MCPToolResult.error_message r) "연결 오류") None), w')
  | _ => (Ok (VStr (_create_error_response this r)), w')
  end.
Proof.
  intros Hexec. unfold _arun, bind. rewrite Hexec.
  destruct (MCPToolResult.status r); try done.
  destruct (MCPToolResult.result r); done.
Qed.

(** Whatever the wait hands back, short of an exception outside
    [Exception], the executor returns an outcome. *)
Lemma execute_returns session tool_name server_name arguments timeout_seconds w :
  (forall s e, session = Some s ->
               wait_for_outcome timeout_seconds (call_tool s tool_name arguments)
               = Raise e ->
               is_Exception e = true) ->
  exists r w',
    execute_mcp_tool session tool_name server_name arguments timeout_seconds w
    = (Ok r, w') /\
    MCPToolResult.status r <> VALIDATION_ERROR /\
    (session = None -> MCPToolResult.status r = CONNECTION_ERROR) /\
    (forall s e, session = Some s ->
       wait_for_outcome timeout_seconds (call_tool s tool_name arguments) = Raise e ->
       MCPToolResult.status r = status_of_exception e /\
       MCPToolResult.error_message r = Some (message_of_exception timeout_seconds e)).
Proof.
  intros Hexn. destruct session as [s|].
  - destruct (wait_for_outcome timeout_seconds (call_tool s tool_name arguments))
      as [response|e] eqn:Hcall.
    + destruct (execute_completes s tool_name server_name arguments timeout_seconds
                  w response Hcall) as (r & w' & Hrun & _ & _ & Hr).
      exists r, w'. split; [done|]. split; [|split; [done|]].
      * destruct (processed response) as [[[? ?] ?]|?]; destruct Hr as [-> _]; done.
      * intros s' e [= <-]. by rewrite Hcall.
    + destruct (execute_fails s tool_name server_name arguments timeout_seconds
                  w e Hcall (Hexn s e eq_refl Hcall)) as (r & w' & Hrun & Hst & Hmsg & _).
      exists r, w'. split; [done|]. split; [|split; [done|]].
      * rewrite Hst. unfold status_of_exception. by repeat case_match.
      * intros s' e' [= <-]. rewrite Hcall. intros [= <-]. done.
  - destruct (execute_without_session tool_name server_name arguments timeout_seconds w)
      as (w' & Hrun & _).
    eexists _, w'. split; [done|]. split; [done|]. split; [done|]. done.
Qed.


Lemma message_of_exception_nonempty timeout_seconds e :
  message_of_exception timeout_seconds e <> "".
Proof.
  unfold message_of_exception. repeat case_match.
  - by apply append_nonempty_l.
  - destruct e; try done. apply mcp_error_str_nonempty.
  - apply format_error_details_nonempty.
Qed.

(** ** C1, C3 and C4: what the executor returns and what the adapter raises *)

(** C1, as amended.  Whatever the awaited call does, short of an
    exception outside [Exception] coming out of the wait,
    [execute_mcp_tool] raises nothing and returns an outcome, whose status
    is never the validation error.  When the wait hands back an exception,
    which it does for a call that raises and for a call that it cancels or
    does not start, the outcome is an execution error, except that
    [asyncio.TimeoutError] and [MCPToolTimeoutError] give a timeout and
    [MCPToolConnectionError] gives a connection error; its message is not
    empty.  [_arun] raises, an [MCPToolConnectionError], on the outcomes
    with the connection error status and returns on every other one. *)
Theorem executor_returns_adapter_raises_on_connection
  (this : MCPToolWrapper.t) (kwargs : pydict) (w : world) :
  (forall s e,
      MCPToolWrapper.session this = Some s ->
      wait_for_outcome (MCPToolWrapper.timeout_seconds this)
        (call_tool s (MCPToolWrapper.name this) kwargs) = Raise e ->
      is_Exception e = true) ->
  exists r w',
    execute_mcp_tool
      (MCPToolWrapper.session this) (MCPToolWrapper.name this)
      (MCPToolWrapper.server_name this) kwargs
      (MCPToolWrapper.timeout_seconds this) w = (Ok r, w') /\
    MCPToolResult.status r <> VALIDATION_ERROR /\
    (forall s e,
        MCPToolWrapper.session this = Some s ->
        wait_for_outcome (MCPToolWrapper.timeout_seconds this)
          (call_tool s (MCPToolWrapper.name this) kwargs) = Raise e ->
        MCPToolResult.status r
        = (if is_asyncio_timeout e || isinstance_mcp e MCPToolTimeoutError
           then TIMEOUT
           else if isinstance_mcp e MCPToolConnectionError
                then CONNECTION_ERROR else ERROR) /\
        exists message,
          MCPToolResult.error_message r = Some message /\ message <> "") /\
    (MCPToolResult.status r = CONNECTION_ERROR ->
     exists message,
       _arun this kwargs w
       = (Raise (MCPError MCPToolConnectionError (MCPToolWrapper.name this)
                   (MCPToolWrapper.server_name this) message None), w')) /\
    (MCPToolResult.status r <> CONNECTION_ERROR ->
     exists text, _arun this kwargs w = (Ok text, w')).
Proof.
  intros Hexn.
  destruct (execute_returns (MCPToolWrapper.session this) (MCPToolWrapper.name this)
              (MCPToolWrapper.server_name this) kwargs
              (MCPToolWrapper.timeout_seconds this) w Hexn)
    as (r & w' & Hrun & Hval & _ & Hfail).
  exists r, w'. split; [done|]. split; [done|]. split; [|split].
  - intros s e Hs Hcall. destruct (Hfail s e Hs Hcall) as [Hst Hmsg].
    split; [done|]. eexists. split; [done|]. apply message_of_exception_nonempty.
  - intros Hst. rewrite (arun_by_status _ _ _ _ _ Hrun), Hst. by eexists.
  - intros Hst. rewrite (arun_by_status _ _ _ _ _ Hrun).
    destruct (MCPToolResult.status r); try done; by eexists.
Qed.

(** C3.  Without a session [execute_mcp_tool] returns an outcome with the
    connection error status; no provider call is awaited, and the clock is
    read at the start and in the handler and nowhere between. *)
Theorem execute_without_session_connection_error
  (tool_name server_name : string) (arguments : pydict) (timeout_seconds : float)
  (w : world) :
  exists r w',
    execute_mcp_tool None tool_name server_name arguments timeout_seconds w
    = (Ok r, w') /\
    MCPToolResult.status r = CONNECTION_ERROR /\
    MCPToolResult.result r = None /\
    awaited w' = awaited w /\
    ticks w' = S (S (ticks w)) /\
    MCPToolResult.execution_time_ms r
    = elapsed_ms (clock w (ticks w)) (clock w (S (ticks w))).
Proof.
  destruct (execute_without_session tool_name server_name arguments timeout_seconds w)
    as (w' & Hrun & Haw & Hticks & _).
  eexists _, w'. split; [exact Hrun|]. by repeat split.
Qed.


(** ** C8: the text that reaches the user *)




End Executor.

(** The witness of C1: an adapter whose call raises a [ValueError]. *)
Lemma executor_returns_adapter_raises_on_connection_witness :
  exists r w',
    execute_mcp_tool
      (Some (session_that 1 (Fails (OtherException "ValueError" "boom"))))
      "grafana_query" "grafana" [("q", VStr "up")] 30 idle_world = (Ok r, w') /\
    MCPToolResult.status r = ERROR /\
    MCPToolResult.error_message r = Some "잘못된 값이 전달되었습니다: boom".
Proof.
  destruct (executor_returns_adapter_raises_on_connection
              (example_wrapper
                 (Some (session_that 1 (Fails (OtherException "ValueError" "boom")))))
              [("q", VStr "up")] idle_world)
    as (r & w' & Hrun & _ & Hfail & _).
  - intros s e [= <-]. simpl. intros [= <-]. reflexivity.
  - exists r, w'. split; [exact Hrun|].
    vm_compute in Hrun. injection Hrun as <- <-. split; reflexivity.
Defined.

(** The counterexample of C1: a call that raises [asyncio.TimeoutError]
    gives an outcome with the timeout status, not an execution error. *)
Lemma timeout_raised_by_call_is_not_execution_error :
  exists r w',
    execute_mcp_tool
      (Some (session_that 1 (Fails (AsyncioTimeoutError "read timed out"))))
      "grafana_query" "grafana" [] 30 idle_world = (Ok r, w') /\
    MCPToolResult.status r = TIMEOUT /\
    MCPToolResult.status r <> ERROR.
Proof.
  eexists _, _. split; [vm_compute; reflexivity|]. split; [reflexivity|discriminate].
Qed.



(** ** C2: the normalizer on the shapes of a response *)

(** The four cases that the design lists. *)
Lemma normalizer_round_trips :
  _process_mcp_result (VDict [("text", VStr "42%")]) = Ok (VStr "42%") /\
  _process_mcp_result
    (with_content (VList [VDict [("text", VStr "a")]; VDict [("text", VStr "b")]]))
  = Ok (VStr ("a" +:+ newline +:+ "b")) /\
  _process_mcp_result VNone = Ok (VStr "") /\
  _process_mcp_result (VStr "ok") = Ok (VStr "ok").
Proof. repeat split; reflexivity. Qed.

(** A string comes back as it is, and so does the text of a [text] key
    that holds a string. *)
Lemma normalizer_on_strings (s : string) (items : pydict) :
  _process_mcp_result (VStr s) = Ok (VStr s) /\
  (Dict.get "text" items = Some (VStr s) ->
   _process_mcp_result (VDict items) = Ok (VStr s)).
Proof.
  split; [done|]. intros Ht. unfold _process_mcp_result. simpl. by rewrite Ht.
Qed.

Lemma str_items_of_strings (texts : list string) (i : nat) :
  str_items i (map VStr texts) = Ok texts.
Proof.
  revert i. induction texts as [|t texts IH]; intros i; simpl; [done|].
  by rewrite IH.
Qed.

(** The texts of the blocks of a [content] list, when they are strings,
    are joined by newlines. *)
Lemma normalizer_joins_content
  (cls str : string) (attrs : pydict) (blocks : list pyval) (texts : list string) :
  Dict.get "content" attrs = Some (VList blocks) ->
  map content_block_text blocks = map VStr texts ->
  _process_mcp_result (VObj cls str attrs) = Ok (VStr (PyStr.join newline texts)).
Proof.
  intros Hc Ht. unfold _process_mcp_result. cbn [py_getattr]. rewrite Hc.
  unfold py_join. by rewrite Ht, str_items_of_strings.
Qed.

(** The values under [result] and [data] go through [str]. *)
Lemma normalizer_coerces_result_and_data (items : pydict) (v : pyval) :
  Dict.get "text" items = None ->
  (Dict.get "result" items = Some v ->
   _process_mcp_result (VDict items) = Ok (VStr (py_str v))) /\
  (Dict.get "result" items = None -> Dict.get "data" items = Some v ->
   _process_mcp_result (VDict items) = Ok (VStr (py_str v))).
Proof.
  intros Ht. unfold _process_mcp_result. simpl. rewrite Ht.
  split; [by intros ->|]. by intros -> ->.
Qed.

(** C2, where the code departs from it.  The value under a [text] key is
    returned as it is, with no [str] around it, while the values under
    [result] and [data] are coerced: for a [text] that is the number 42
    the normalizer returns the number and not a string, and a content block
    whose [text] is a number makes the join raise.  In [execute_mcp_tool]
    such a response, of a call that succeeded, comes out as an execution
    error. *)
Theorem process_mcp_result_text_not_coerced :
  _process_mcp_result (VDict [("text", VInt 42)]) = Ok (VInt 42) /\
  _process_mcp_result (VDict [("result", VInt 42)]) = Ok (VStr "42") /\
  _process_mcp_result (VDict [("data", VInt 42)]) = Ok (VStr "42") /\
  _process_mcp_result (with_content (VList [VDict [("text", VInt 42)]]))
  = Raise (TypeError "sequence item 0: expected str instance, int found") /\
  exists r w',
    execute_mcp_tool
      (Some (session_that 1 (Completes (VDict [("text", VInt 42)]))))
      "query" "grafana" [] 30 idle_world = (Ok r, w') /\
    MCPToolResult.status r = ERROR /\
    MCPToolResult.error_message r
    = Some "잘못된 타입이 전달되었습니다: object of type 'int' has no len()".
Proof.
  repeat split; try reflexivity.
  eexists _, _. split; [vm_compute; reflexivity|]. split; reflexivity.
Qed.



(** ** The manager: starting the providers *)

Section Manager.
Context `{PyFloatFormat}.

Ltac run_start :=
  unfold _start_grafana_mcp, _start_cloudwatch_mcp, bind, get_self, try_except,
    logger, with_provider_session, ret, raise;
  cbn [fst snd ticks clock awaited log self processes with_ticks with_log
       with_awaited with_self].

(* Runs a start method to its end, using what is known of the process. *)
Ltac run_to_end :=
  eexists _, _; run_start;
  repeat (cbn; match goal with
               | Hx : ?l = _ |- context [?l] => rewrite Hx
               end);
  cbn.

Ltac start_done :=
  split; [reflexivity|]; split; [done|]; split; [done|];
  rewrite <- !app_assoc; split; [reflexivity|];
  first [ done
        | intros _; eexists;
          split; [ rewrite !elem_of_app, !elem_of_cons; eauto
                 | first [apply prefix_append | reflexivity] ] ].

Lemma start_grafana_spec (w : world) (cfg : GrafanaConfig) :
  MCPServerManager.grafana_config (self w) = Some cfg ->
  (forall e, startup (processes w Grafana) = Raise e -> is_Exception e = true) ->
  (forall e, teardown (processes w Grafana) = Some e -> is_Exception e = true) ->
  exists w' new,
    _start_grafana_mcp w = (Ok (started "grafana" true (processes w Grafana)), w') /\
    self w' = self w /\ processes w' = processes w /\
    log w' = log w ++ new /\
    (started "grafana" true (processes w Grafana) = None ->
     exists message,
       (LogError, message) ∈ new /\
       String.prefix (provider_label Grafana) message = true).
Proof.
  intros Hcfg Hup Hdown. unfold started.
  destruct (startup (processes w Grafana)) as [[session tools_attr]|e] eqn:Hs.
  - destruct (teardown (processes w Grafana)) as [e|] eqn:Ht.
    + specialize (Hdown e eq_refl).
      destruct (is_FileNotFoundError e) eqn:Hf; run_to_end; start_done.
    + clear Hup Hdown. run_to_end. start_done.
  - specialize (Hup e eq_refl).
    destruct (is_FileNotFoundError e) eqn:Hf; run_to_end; start_done.
Qed.

Lemma start_cloudwatch_spec (w : world) (cfg : CloudWatchConfig) :
  MCPServerManager.cloudwatch_config (self w) = Some cfg ->
  (forall e, startup (processes w CloudWatch) = Raise e -> is_Exception e = true) ->
  (forall e, teardown (processes w CloudWatch) = Some e -> is_Exception e = true) ->
  exists w' new,
    _start_cloudwatch_mcp w
    = (Ok (started "cloudwatch" true (processes w CloudWatch)), w') /\
    self w' = self w /\ processes w' = processes w /\
    log w' = log w ++ new /\
    (started "cloudwatch" true (processes w CloudWatch) = None ->
     exists message,
       (LogError, message) ∈ new /\
       String.prefix (provider_label CloudWatch) message = true).
Proof.
  intros Hcfg Hup Hdown. unfold started.
  destruct (startup (processes w CloudWatch)) as [[session tools_attr]|e] eqn:Hs.
  - destruct (teardown (processes w CloudWatch)) as [e|] eqn:Ht.
    + specialize (Hdown e eq_refl).
      destruct (is_FileNotFoundError e) eqn:Hf; run_to_end; start_done.
    + clear Hup Hdown. run_to_end. start_done.
  - specialize (Hup e eq_refl).
    destruct (is_FileNotFoundError e) eqn:Hf; run_to_end; start_done.
Qed.

(** ** C9: one provider that fails does not stop the other *)

Ltac keep_starts :=
  cbn -[_start_grafana_mcp _start_cloudwatch_mcp String.append PyStr.of_nat
        started Dict.set].

(* Brings the manager and the processes of a later world back to those of
   the first one. *)
Ltac world_facts :=
  keep_starts;
  repeat match goal with
         | Hx : self ?x = _ |- context [self ?x] => rewrite Hx
         | Hx : processes ?x = _ |- context [processes ?x] => rewrite Hx
         end;
  keep_starts.

(* Replaces the call of a start method by what the lemma says of it. *)
Ltac use_start_grafana g Hself Hup Hdown :=
  match goal with
  | |- context [_start_grafana_mcp ?w1] =>
      let w2 := fresh "w2" in
      let new2 := fresh "new2" in
      let Hrun := fresh "Hrun" in
      let Hself2 := fresh "Hself2" in
      let Hproc2 := fresh "Hproc2" in
      let Hlog2 := fresh "Hlog2" in
      let Hfail2 := fresh "Hfail2" in
      destruct (start_grafana_spec w1 g)
        as (w2 & new2 & Hrun & Hself2 & Hproc2 & Hlog2 & Hfail2);
      [ by world_facts
      | world_facts; apply Hup
      | world_facts; apply Hdown
      | rewrite Hrun; clear Hrun;
        cbn [self log processes with_log with_self] in Hself2, Hproc2, Hlog2, Hfail2;
        cbn [self log processes with_log with_self] ]
  end.

Ltac use_start_cloudwatch c Hself Hup Hdown :=
  match goal with
  | |- context [_start_cloudwatch_mcp ?w1] =>
      let w3 := fresh "w3" in
      let new3 := fresh "new3" in
      let Hrun := fresh "Hrun" in
      let Hself3 := fresh "Hself3" in
      let Hproc3 := fresh "Hproc3" in
      let Hlog3 := fresh "Hlog3" in
      let Hfail3 := fresh "Hfail3" in
      destruct (start_cloudwatch_spec w1 c)
        as (w3 & new3 & Hrun & Hself3 & Hproc3 & Hlog3 & Hfail3);
      [ by world_facts
      | world_facts; apply Hup
      | world_facts; apply Hdown
      | rewrite Hrun; clear Hrun;
        cbn [self log processes with_log with_self] in Hself3, Hproc3, Hlog3, Hfail3;
        cbn [self log processes with_log with_self] ]
  end.

(* The facts about the last world, once the run is known. *)
Ltac finish_init :=
  keep_starts; eexists _, _; (split; [reflexivity|]);
  cbn [self log with_log with_self is_initialized
       MCPServerManager._initialized MCPServerManager.servers];
  repeat match goal with
         | Hx : self ?x = _ |- context [self ?x] =>
             rewrite Hx;
             cbn [self log with_log with_self MCPServerManager._initialized
                  MCPServerManager.servers MCPServerManager.grafana_config
                  MCPServerManager.cloudwatch_config MCPServerManager_init]
         | Hx : log ?x = _ |- context [log ?x] => rewrite Hx
         end;
  unfold registered;
  repeat match goal with
         | Hx : started _ _ _ = _ |- _ => rewrite Hx
         end;
  (split; [reflexivity|]);
  (split; [reflexivity|]);
  rewrite <- ?app_assoc; (split; [reflexivity|]);
  split; intros ? ?; try done;
  match goal with
  | Hx : _ -> exists _, _ /\ String.prefix ?l _ = true
    |- exists _, _ /\ String.prefix ?l' _ = true =>
      unify l l';
      let m := fresh "m" in
      let Hin := fresh "Hin" in
      let Hp := fresh "Hp" in
      destruct Hx as (m & Hin & Hp); [done|];
      exists m; split; [|exact Hp];
      rewrite !elem_of_app; eauto 10
  end.

Ltac run_init :=
  unfold initialize_servers, bind, try_except, logger, get_self, set_server,
    set_initialized, ret;
  cbn [fst snd ticks clock awaited log self processes with_ticks with_log
       with_awaited with_self].

(** C9.  For a manager as its constructor leaves it, with or without each
    of the two configurations, and for provider processes that start or
    fail with an exception below [Exception]: [initialize_servers] raises
    nothing; afterwards [is_initialized] is true; the registry holds the
    providers that are configured and started, each under its own name,
    whatever the other one did; and for each configured provider that did
    not start there is an error record of its start method in the log. *)
Theorem initialize_servers_isolates_failures
  (grafana_config : option GrafanaConfig)
  (cloudwatch_config : option CloudWatchConfig) (w : world) :
  self w = MCPServerManager_init grafana_config cloudwatch_config ->
  (forall p e, startup (processes w p) = Raise e -> is_Exception e = true) ->
  (forall p e, teardown (processes w p) = Some e -> is_Exception e = true) ->
  exists w' new,
    initialize_servers w = (Ok tt, w') /\
    is_initialized (self w') = true /\
    MCPServerManager.servers (self w')
    = registered "grafana" (configured grafana_config) (processes w Grafana) ++
      registered "cloudwatch" (configured cloudwatch_config) (processes w CloudWatch) /\
    log w' = log w ++ new /\
    (configured grafana_config = true ->
     started "grafana" true (processes w Grafana) = None ->
     exists message,
       (LogError, message) ∈ new /\
       String.prefix (provider_label Grafana) message = true) /\
    (configured cloudwatch_config = true ->
     started "cloudwatch" true (processes w CloudWatch) = None ->
     exists message,
       (LogError, message) ∈ new /\
       String.prefix (provider_label CloudWatch) message = true).
Proof.
  intros Hself Hup Hdown.
  destruct grafana_config as [g|], cloudwatch_config as [c|];
    run_init; rewrite Hself; keep_starts.
  - use_start_grafana g Hself Hup Hdown.
    destruct (started "grafana" true (processes w Grafana)) as [info_g|] eqn:Hsg;
      keep_starts; use_start_cloudwatch c Hself Hup Hdown;
      rewrite Hproc2 in *;
      destruct (started "cloudwatch" true (processes w CloudWatch)) as [info_c|] eqn:Hsc;
      finish_init.
  - use_start_grafana g Hself Hup Hdown.
    destruct (started "grafana" true (processes w Grafana)) as [info_g|] eqn:Hsg;
      finish_init.
  - use_start_cloudwatch c Hself Hup Hdown.
    destruct (started "cloudwatch" true (processes w CloudWatch)) as [info_c|] eqn:Hsc;
      finish_init.
  - finish_init.
Qed.

(** ** The aggregator *)

Lemma log_then_ret {A} (level : log_level) (message : string) (a : A) (w : world) :
  bind (logger level message) (fun _ => ret a) w
  = (Ok a, with_log w (log w ++ [(level, message)])).
Proof. reflexivity. Qed.

Lemma wrap_tool_spec server_name server_info timeout_seconds all_tools mcp_tool w :
  exists w',
    wrap_tool server_name server_info timeout_seconds all_tools mcp_tool w
    = (Ok (all_tools ++
           match MCPServerInfo.session server_info with
           | Some session => [adapter server_name session timeout_seconds mcp_tool]
           | None => []
           end), w') /\
    self w' = self w.
Proof.
  unfold wrap_tool, try_except, bind, logger, ret.
  destruct (MCPServerInfo.session server_info) as [session|]; eexists.
  - split; [reflexivity|done].
  - rewrite app_nil_r. split; [reflexivity|done].
Qed.

Lemma wrap_tools_spec server_name server_info timeout_seconds tools :
  forall all_tools w,
  exists w',
    for_each (wrap_tool server_name server_info timeout_seconds) tools all_tools w
    = (Ok (all_tools ++
           match MCPServerInfo.session server_info with
           | Some session => map (adapter server_name session timeout_seconds) tools
           | None => []
           end), w') /\
    self w' = self w.
Proof.
  induction tools as [|mcp_tool tools IH]; intros all_tools w.
  - exists w. simpl. unfold ret. split; [|done].
    destruct (MCPServerInfo.session server_info); by rewrite app_nil_r.
  - destruct (wrap_tool_spec server_name server_info timeout_seconds all_tools mcp_tool w)
      as (w1 & Hrun1 & Hself1).
    destruct (IH (all_tools ++
                  match MCPServerInfo.session server_info with
                  | Some session => [adapter server_name session timeout_seconds mcp_tool]
                  | None => []
                  end) w1) as (w2 & Hrun2 & Hself2).
    exists w2. split; [|congruence].
    simpl. unfold bind at 1. rewrite Hrun1, Hrun2.
    destruct (MCPServerInfo.session server_info); simpl;
      by rewrite <- ?app_assoc, ?app_nil_r.
Qed.

Lemma get_all_tools_spec (timeout_seconds : float) (w : world) :
  exists w',
    get_all_tools timeout_seconds w
    = (Ok (MCPServerManager.servers (self w) ≫= adapters_of timeout_seconds), w') /\
    self w' = self w.
Proof.
  unfold get_all_tools, bind at 1, get_self.
  assert (Hloop : forall servers all_tools w0,
    exists w1,
      for_each
        (fun all_tools entry =>
           if negb (MCPServerInfo.is_connected (snd entry)) then
             bind (logger LogWarning
                     ("서버 '" +:+ fst entry +:+
                      "'이 연결되지 않아 도구를 가져올 수 없습니다"))
                  (fun _ => ret all_tools)
           else
             for_each (wrap_tool (fst entry) (snd entry) timeout_seconds)
               (MCPServerInfo.tools (snd entry)) all_tools)
        servers all_tools w0
      = (Ok (all_tools ++ (servers ≫= adapters_of timeout_seconds)), w1) /\
      self w1 = self w0).
  { induction servers as [|[server_name server_info] servers IH]; intros all_tools w0.
    - exists w0. simpl. unfold ret. by rewrite app_nil_r.
    - cbn [for_each fst snd]. unfold bind at 1.
      rewrite bind_cons. unfold adapters_of at 1. cbn [fst snd].
      destruct (MCPServerInfo.is_connected server_info); cbn [negb].
      + destruct (wrap_tools_spec server_name server_info timeout_seconds
                    (MCPServerInfo.tools server_info) all_tools w0)
          as (w1 & Hrun1 & Hself1).
        rewrite Hrun1.
        destruct (IH (all_tools ++
                      match MCPServerInfo.session server_info with
                      | Some session =>
                          map (adapter server_name session timeout_seconds)
                            (MCPServerInfo.tools server_info)
                      | None => []
                      end) w1) as (w2 & Hrun2 & Hself2).
        exists w2. rewrite Hrun2. split; [|congruence]. by rewrite <- app_assoc.
      + rewrite log_then_ret.
        match goal with
        | |- context [for_each _ servers all_tools ?w1] =>
            destruct (IH all_tools w1) as (w2 & Hrun2 & Hself2)
        end.
        exists w2. by rewrite Hrun2. }
  destruct (Hloop (MCPServerManager.servers (self w)) [] w) as (w1 & Hrun1 & Hself1).
  unfold bind at 1. rewrite Hrun1. unfold bind, logger, ret. eexists.
  split; [reflexivity|done].
Qed.

(** ** C6: only connected providers are offered *)

Lemma elem_of_adapters_of timeout_seconds entry a :
  a ∈ adapters_of timeout_seconds entry ->
  MCPServerInfo.is_connected (snd entry) = true /\
  exists session mcp_tool,
    MCPServerInfo.session (snd entry) = Some session /\
    mcp_tool ∈ MCPServerInfo.tools (snd entry) /\
    a = adapter (fst entry) session timeout_seconds mcp_tool.
Proof.
  unfold adapters_of.
  destruct (MCPServerInfo.is_connected (snd entry)); [|by intros ?%elem_of_nil].
  destruct (MCPServerInfo.session (snd entry)) as [session|]; [|by intros ?%elem_of_nil].
  intros (mcp_tool & -> & Hin)%list_elem_of_fmap. split; [done|]. eauto.
Qed.

Lemma length_adapters_of timeout_seconds entry :
  length (adapters_of timeout_seconds entry) = offered (snd entry).
Proof.
  unfold adapters_of, offered.
  destruct (MCPServerInfo.is_connected (snd entry)); [|done].
  destruct (MCPServerInfo.session (snd entry)); [|done].
  apply length_map.
Qed.

Lemma length_adapters timeout_seconds (servers : list (string * MCPServerInfo.t)) :
  length (servers ≫= adapters_of timeout_seconds)
  = sum_list_with (fun entry => offered (snd entry)) servers.
Proof.
  induction servers as [|entry servers IH]; [done|].
  rewrite bind_cons, length_app, IH, length_adapters_of. done.
Qed.

(** C6.  Every adapter that [get_all_tools] returns belongs to an entry of
    the registry whose [is_connected] is true, and the entries that are not
    connected add nothing to the count.  So a registry of a connected
    provider with three operations and a provider that is not connected
    with two, in either order, gives three adapters, all of the first. *)
Theorem get_all_tools_offers_connected_only (timeout_seconds : float) (w : world) :
  exists all_tools w',
    get_all_tools timeout_seconds w = (Ok all_tools, w') /\
    (forall a, a ∈ all_tools ->
       exists server_info,
         (MCPToolWrapper.server_name a, server_info)
           ∈ MCPServerManager.servers (self w) /\
         MCPServerInfo.is_connected server_info = true /\
         MCPToolWrapper.session a = MCPServerInfo.session server_info) /\
    length all_tools
    = sum_list_with (fun entry => offered (snd entry))
        (MCPServerManager.servers (self w)) /\
    (forall A B info_A info_B session_A,
        MCPServerManager.servers (self w) = [(A, info_A); (B, info_B)] \/
        MCPServerManager.servers (self w) = [(B, info_B); (A, info_A)] ->
        MCPServerInfo.is_connected info_A = true ->
        MCPServerInfo.session info_A = Some session_A ->
        length (MCPServerInfo.tools info_A) = 3 ->
        MCPServerInfo.is_connected info_B = false ->
        length (MCPServerInfo.tools info_B) = 2 ->
        length all_tools = 3 /\
        forall a, a ∈ all_tools -> MCPToolWrapper.server_name a = A).
Proof.
  destruct (get_all_tools_spec timeout_seconds w) as (w' & Hrun & _).
  eexists _, w'. split; [exact Hrun|]. split; [|split].
  - intros a ([name server_info] & Ha & Hentry)%list_elem_of_bind.
    apply elem_of_adapters_of in Ha as (Hconn & session & mcp_tool & Hs & _ & ->).
    exists server_info. cbn in *. by rewrite Hs.
  - apply length_adapters.
  - intros A B info_A info_B session_A Hreg HcA HsA HnA HcB HnB.
    split.
    + rewrite length_adapters.
      destruct Hreg as [-> | ->]; cbn; unfold offered; rewrite HcA, HsA, HcB, HnA; done.
    + intros a ([name server_info] & Ha & Hentry)%list_elem_of_bind.
      apply elem_of_adapters_of in Ha as (Hconn & session & mcp_tool & _ & _ & ->).
      cbn in *.
      destruct Hreg as [Hreg | Hreg]; rewrite Hreg in Hentry;
        rewrite !elem_of_cons, elem_of_nil in Hentry;
        destruct Hentry as [[= -> ->] | [[= -> ->] | []]]; congruence.
Qed.

(** ** C5: the qualified names *)

Lemma names_of_adapters timeout_seconds (servers : list (string * MCPServerInfo.t)) :
  map MCPToolWrapper.name (servers ≫= adapters_of timeout_seconds)
  = servers ≫= (fun entry => map MCPToolWrapper.name (adapters_of timeout_seconds entry)).
Proof.
  induction servers as [|entry servers IH]; [done|].
  by rewrite !bind_cons, map_app, IH.
Qed.

Lemma elem_of_names_of timeout_seconds entry n :
  n ∈ map MCPToolWrapper.name (adapters_of timeout_seconds entry) ->
  exists mcp_tool,
    mcp_tool ∈ MCPServerInfo.tools (snd entry) /\
    n = fst entry +:+ "_" +:+ operation_name mcp_tool.
Proof.
  intros (a & -> & Ha)%list_elem_of_fmap.
  apply elem_of_adapters_of in Ha as (_ & session & mcp_tool & _ & Hin & ->).
  by exists mcp_tool.
Qed.

Lemma NoDup_names_of timeout_seconds entry :
  NoDup (map operation_name (MCPServerInfo.tools (snd entry))) ->
  NoDup (map MCPToolWrapper.name (adapters_of timeout_seconds entry)).
Proof.
  intros Hnd. unfold adapters_of.
  destruct (MCPServerInfo.is_connected (snd entry)); [|constructor].
  destruct (MCPServerInfo.session (snd entry)) as [session|]; [|constructor].
  rewrite map_map. cbn [adapter MCPToolWrapper.name].
  change (NoDup ((fun o => fst entry +:+ "_" +:+ o) ∘ operation_name
                   <$> MCPServerInfo.tools (snd entry))).
  rewrite list_fmap_compose. apply NoDup_fmap_2; [|done].
  intros x y Heq. by apply string_append_inj_l, string_append_inj_l in Heq.
Qed.

(** C5, as amended.  Every adapter is named by the name of its provider,
    an underscore and the name of the operation.  Two different providers
    that both have an operation [query] give two adapters with different
    names.  Both hold for every registry.  When the registry has one
    record for a name, as a dictionary has, no provider name has an
    underscore and no provider lists an operation name twice, no two
    adapters of the list have the same name. *)
Theorem get_all_tools_qualified_names (timeout_seconds : float) (w : world) :
  exists all_tools w',
    get_all_tools timeout_seconds w = (Ok all_tools, w') /\
    (forall a, a ∈ all_tools ->
       exists server_info mcp_tool,
         (MCPToolWrapper.server_name a, server_info)
           ∈ MCPServerManager.servers (self w) /\
         mcp_tool ∈ MCPServerInfo.tools server_info /\
         MCPToolWrapper.name a
         = MCPToolWrapper.server_name a +:+ "_" +:+ operation_name mcp_tool) /\
    (forall A B info_A info_B session_A session_B tool_A tool_B,
        (A, info_A) ∈ MCPServerManager.servers (self w) ->
        (B, info_B) ∈ MCPServerManager.servers (self w) ->
        A <> B ->
        MCPServerInfo.is_connected info_A = true ->
        MCPServerInfo.is_connected info_B = true ->
        MCPServerInfo.session info_A = Some session_A ->
        MCPServerInfo.session info_B = Some session_B ->
        tool_A ∈ MCPServerInfo.tools info_A -> operation_name tool_A = "query" ->
        tool_B ∈ MCPServerInfo.tools info_B -> operation_name tool_B = "query" ->
        A +:+ "_query" ∈ map MCPToolWrapper.name all_tools /\
        B +:+ "_query" ∈ map MCPToolWrapper.name all_tools /\
        A +:+ "_query" <> B +:+ "_query") /\
    (Dict.wf (MCPServerManager.servers (self w)) ->
     (forall entry, entry ∈ MCPServerManager.servers (self w) ->
                    PyStr.contains "_" (fst entry) = false) ->
     (forall entry, entry ∈ MCPServerManager.servers (self w) ->
                    NoDup (map operation_name (MCPServerInfo.tools (snd entry)))) ->
     NoDup (map MCPToolWrapper.name all_tools)).
Proof.
  destruct (get_all_tools_spec timeout_seconds w) as (w' & Hrun & _).
  eexists _, w'. split; [exact Hrun|]. split; [|split].
  - intros a ([name server_info] & Ha & Hentry)%list_elem_of_bind.
    apply elem_of_adapters_of in Ha as (_ & session & mcp_tool & _ & Hin & ->).
    exists server_info, mcp_tool. done.
  - intros A B info_A info_B session_A session_B tool_A tool_B
      HA HB Hne HcA HcB HsA HsB HtA HoA HtB HoB.
    assert (Hoffer : forall P info session tool,
      (P, info) ∈ MCPServerManager.servers (self w) ->
      MCPServerInfo.is_connected info = true ->
      MCPServerInfo.session info = Some session ->
      tool ∈ MCPServerInfo.tools info -> operation_name tool = "query" ->
      P +:+ "_query"
        ∈ map MCPToolWrapper.name
            (MCPServerManager.servers (self w) ≫= adapters_of timeout_seconds)).
    { intros P info session tool HP Hc Hs Ht Ho.
      apply list_elem_of_fmap. exists (adapter P session timeout_seconds tool).
      split; [cbn; by rewrite Ho|].
      apply list_elem_of_bind. exists (P, info). split; [|done].
      unfold adapters_of. cbn. rewrite Hc, Hs. by apply list_elem_of_fmap_2. }
    split; [eauto|]. split; [eauto|].
    intros Heq. by apply string_append_inj_r in Heq.
  - intros Hwf Hplain Hops.
    rewrite names_of_adapters. apply NoDup_bind.
    + intros [k1 i1] [k2 i2] n H1 H2 Hn1 Hn2.
      apply elem_of_names_of in Hn1 as (t1 & _ & ->).
      apply elem_of_names_of in Hn2 as (t2 & _ & Heq). cbn in Heq.
      apply qualified_name_inj in Heq as [-> _];
        [|by apply (Hplain _ H1)|by apply (Hplain _ H2)].
      f_equal. by eapply dict_wf_unique.
    + intros entry Hentry. apply NoDup_names_of. by apply Hops.
    + by eapply NoDup_fmap_1.
Qed.

End Manager.

(** ** Witnesses and counterexamples for the manager and the sanitizer *)

(** The witness of C5: two providers that both list [query]. *)
Lemma get_all_tools_qualified_names_witness :
  exists all_tools w',
    get_all_tools 30
      (world_with_servers
         [connected_server "grafana" 1
            [tool_descriptor "query" "metrics"; tool_descriptor "list" "boards"];
          connected_server "cloudwatch" 2 [tool_descriptor "query" "logs"]])
    = (Ok all_tools, w') /\
    map MCPToolWrapper.name all_tools
    = ["grafana_query"; "grafana_list"; "cloudwatch_query"] /\
    NoDup (map MCPToolWrapper.name all_tools).
Proof.
  destruct (get_all_tools_qualified_names 30
              (world_with_servers
                 [connected_server "grafana" 1
                    [tool_descriptor "query" "metrics"; tool_descriptor "list" "boards"];
                  connected_server "cloudwatch" 2 [tool_descriptor "query" "logs"]]))
    as (all_tools & w' & Hrun & _ & _ & Hnd).
  exists all_tools, w'. split; [exact Hrun|]. split.
  - vm_compute in Hrun. injection Hrun as <- _. reflexivity.
  - apply Hnd.
    + apply (bool_decide_unpack _). vm_compute. reflexivity.
    + intros entry Hin. cbn in Hin. rewrite !elem_of_cons, elem_of_nil in Hin.
      destruct Hin as [-> | [-> | []]]; reflexivity.
    + intros entry Hin. cbn in Hin. rewrite !elem_of_cons, elem_of_nil in Hin.
      destruct Hin as [-> | [-> | []]];
        apply (bool_decide_unpack _); vm_compute; reflexivity.
Defined.

(** The counterexample of C5: a provider that lists [query] twice gives two
    adapters of the same name; and so do a provider [a] with an operation
    [b_c] and a provider [a_b] with an operation [c]. *)
Lemma qualified_names_can_collide :
  (exists all_tools w',
     get_all_tools 30
       (world_with_servers
          [connected_server "grafana" 1
             [tool_descriptor "query" "metrics"; tool_descriptor "query" "metrics v2"]])
     = (Ok all_tools, w') /\
     map MCPToolWrapper.name all_tools = ["grafana_query"; "grafana_query"] /\
     ~ NoDup (map MCPToolWrapper.name all_tools)) /\
  (exists all_tools w',
     get_all_tools 30
       (world_with_servers
          [connected_server "a" 1 [tool_descriptor "b_c" ""];
           connected_server "a_b" 2 [tool_descriptor "c" ""]])
     = (Ok all_tools, w') /\
     map MCPToolWrapper.name all_tools = ["a_b_c"; "a_b_c"] /\
     ~ NoDup (map MCPToolWrapper.name all_tools)).
Proof.
  split; eexists _, _; (split; [vm_compute; reflexivity|]);
    (split; [reflexivity|]);
    intros Hnd; apply NoDup_cons in Hnd as [Hnotin _]; apply Hnotin;
    apply list_elem_of_here.
Qed.

(** The witness of C6: three operations of a connected provider, two of a
    provider that is not connected. *)
Lemma get_all_tools_offers_connected_only_witness :
  exists all_tools w',
    get_all_tools 30
      (world_with_servers
         [connected_server "grafana" 1
            [tool_descriptor "query" ""; tool_descriptor "list" "";
             tool_descriptor "get" ""];
          disconnected_server "cloudwatch" 2
            [tool_descriptor "query" ""; tool_descriptor "tail" ""]])
    = (Ok all_tools, w') /\
    length all_tools = 3 /\
    forall a, a ∈ all_tools -> MCPToolWrapper.server_name a = "grafana".
Proof.
  destruct (get_all_tools_offers_connected_only 30
              (world_with_servers
                 [connected_server "grafana" 1
                    [tool_descriptor "query" ""; tool_descriptor "list" "";
                     tool_descriptor "get" ""];
                  disconnected_server "cloudwatch" 2
                    [tool_descriptor "query" ""; tool_descriptor "tail" ""]]))
    as (all_tools & w' & Hrun & _ & _ & Hex).
  exists all_tools, w'. split; [exact Hrun|].
  eapply Hex; [left; reflexivity|reflexivity|reflexivity|reflexivity|reflexivity|reflexivity].
Defined.

(** The witness of C7: a sensitive key in capitals, with a long value. *)
Lemma sanitize_arguments_redacts_and_truncates_witness :
  Dict.get "API_Key" (_sanitize_arguments_for_logging example_arguments)
  = Some (VStr "***REDACTED***").
Proof.
  destruct (sanitize_arguments_redacts_and_truncates example_arguments "API_Key"
              (VStr (letters 300))) as [Hredact _].
  - apply (bool_decide_unpack _). vm_compute. reflexivity.
  - reflexivity.
  - apply Hredact. exists "api_key". split; [apply list_elem_of_here|reflexivity].
Defined.

(** The sanitizer on the example: the long text under an ordinary key is
    cut, the short values are kept. *)
Lemma sanitize_example :
  _sanitize_arguments_for_logging example_arguments
  = [("query", VStr "up"); ("API_Key", VStr "***REDACTED***"); ("limit", VInt 10);
     ("body", VStr (letters 100 +:+ "...(300 chars)"))].
Proof. vm_compute. reflexivity. Qed.

(** The witness of C10: the arguments at address 0 of a store. *)
Lemma sanitize_arguments_fresh_copy_witness :
  fst (Store._sanitize_arguments_for_logging [example_arguments] 0) !! 0
  = Some example_arguments /\
  snd (Store._sanitize_arguments_for_logging [example_arguments] 0) = 1.
Proof.
  destruct (sanitize_arguments_fresh_copy [example_arguments] 0 example_arguments)
    as (Hkept & _ & Hfresh & _).
  - reflexivity.
  - apply (bool_decide_unpack _). vm_compute. reflexivity.
  - split; [exact Hkept|exact Hfresh].
Defined.

(** The witness of C9: Grafana cannot be started, CloudWatch can. *)
Lemma initialize_servers_isolates_failures_witness :
  exists w',
    initialize_servers
      (example_world
         (Some {| url := "https://grafana.example.com"; api_key := "k" |})
         (Some {| aws_access_key_id := "AKIA"; aws_secret_access_key := "s";
                  region := "us-east-1" |})
         (fun p => match p with
                   | Grafana => failing_process (OtherException "FileNotFoundError" "npx")
                   | CloudWatch => working_process 2 [tool_descriptor "get_logs" ""]
                   end))
    = (Ok tt, w') /\
    is_initialized (self w') = true /\
    Dict.keys (MCPServerManager.servers (self w')) = ["cloudwatch"].
Proof.
  destruct (initialize_servers_isolates_failures
              (Some {| url := "https://grafana.example.com"; api_key := "k" |})
              (Some {| aws_access_key_id := "AKIA"; aws_secret_access_key := "s";
                       region := "us-east-1" |})
              (example_world
                 (Some {| url := "https://grafana.example.com"; api_key := "k" |})
                 (Some {| aws_access_key_id := "AKIA"; aws_secret_access_key := "s";
                          region := "us-east-1" |})
                 (fun p => match p with
                           | Grafana =>
                               failing_process (OtherException "FileNotFoundError" "npx")
                           | CloudWatch =>
                               working_process 2 [tool_descriptor "get_logs" ""]
                           end)))
    as (w' & new & Hrun & Hinit & Hservers & _).
  - reflexivity.
  - intros [] e; cbn; [intros [= <-]; reflexivity|discriminate].
  - intros [] e; cbn; discriminate.
  - exists w'. split; [exact Hrun|]. split; [exact Hinit|].
    rewrite Hservers. reflexivity.
Defined.

(** With no configuration at all the manager is initialized and the
    registry is empty. *)
Lemma initialize_servers_without_configuration :
  exists w',
    initialize_servers idle_world = (Ok tt, w') /\
    is_initialized (self w') = true /\
    MCPServerManager.servers (self w') = [].
Proof. eexists. split; [vm_compute; reflexivity|]. split; reflexivity. Qed.

(** * Further properties of the executor and the adapter *)

(* Runs [execute_mcp_tool] in a hypothesis, as far as the facts at hand
   decide its branches. *)
Ltac run_execute_in H :=
  unfold execute_mcp_tool, bind, try_except, time_time, logger, raise,
    wait_for_call_tool, lift, ret in H;
  cbn [fst snd ticks clock awaited log self with_ticks with_log with_awaited
       session_id call_tool] in H;
  repeat
    (cbn -[_process_mcp_result py_len py_slice_to elapsed_ms py_repr py_str
           String.append _sanitize_arguments_for_logging _format_error_details
           exn_str PyStr.of_nat wait_for_outcome call_starts] in H;
     match type of H with
     | context [wait_for_outcome ?t (call_tool ?s ?n ?a)] =>
         match goal with
         | Hx : wait_for_outcome t (call_tool s n a) = _ |- _ => rewrite Hx in H
         end
     | context [_process_mcp_result ?r] =>
         match goal with Hx : _process_mcp_result r = _ |- _ => rewrite Hx in H end
     | context [py_len ?r] =>
         match goal with Hx : py_len r = _ |- _ => rewrite Hx in H end
     | context [py_slice_to 500 ?r] =>
         match goal with Hx : py_slice_to 500 r = _ |- _ => rewrite Hx in H end
     end);
  cbn -[_process_mcp_result py_len py_slice_to elapsed_ms py_repr py_str
        String.append _sanitize_arguments_for_logging _format_error_details
        exn_str PyStr.of_nat wait_for_outcome call_starts] in H.

(* Splits a run of [execute_mcp_tool] into the ways it can go. *)
Ltac execute_cases H :=
  match type of H with
  | execute_mcp_tool ?session ?tool ?server ?args ?timeout ?w = _ =>
      destruct session as [?s|];
      [ let Hcall := fresh "Hcall" in
        destruct (wait_for_outcome timeout (call_tool s tool args))
          as [?response|?e] eqn:Hcall;
        [ let Hstart := fresh "Hstart" in
          pose proof (wait_for_outcome_started _ _ _ Hcall) as Hstart;
          let Hp := fresh "Hp" in
          destruct (_process_mcp_result response) as [?text|?e] eqn:Hp;
          [ let Hn := fresh "Hn" in
            destruct (py_len text) as [?n|?e] eqn:Hn;
            [ let Hs := fresh "Hs" in
              destruct (py_slice_to 500 text) as [?preview|?e] eqn:Hs;
              [ | destruct (py_slice_to_raises _ _ _ Hs) as [? ->] ]
            | destruct (py_len_raises _ _ Hn) as [? ->] ]
          | destruct (process_mcp_result_raises _ _ Hp) as [? ->] ]
        | destruct e as [[] ? ? ? ?| ? | ? ? | ? ?] ]
      | ];
      run_execute_in H
  end.

Lemma error_records_app (l k : list (log_level * string)) :
  error_records (l ++ k) = error_records l + error_records k.
Proof. unfold error_records. by rewrite List.filter_app, length_app. Qed.

Section ExecutorMore.
Context `{PyFloatFormat}.

(** X1.  An outcome of [execute_mcp_tool] echoes the tool, the server and
    the arguments of the call; it holds a result and no error message when
    its status is the success, and no result and an error message that is
    not empty on every other status. *)
Theorem execute_outcome_shape
  (session : option ClientSession) (tool_name server_name : string)
  (arguments : pydict) (timeout_seconds : float) (w w' : world)
  (r : MCPToolResult.t) :
  execute_mcp_tool session tool_name server_name arguments timeout_seconds w
  = (Ok r, w') ->
  MCPToolResult.tool_name r = tool_name /\
  MCPToolResult.server_name r = server_name /\
  MCPToolResult.arguments r = arguments /\
  (MCPToolResult.status r = SUCCESS ->
   MCPToolResult.error_message r = None /\
   exists text, MCPToolResult.result r = Some text) /\
  (MCPToolResult.status r <> SUCCESS ->
   MCPToolResult.result r = None /\
   exists message, MCPToolResult.error_message r = Some message /\ message <> "").
Proof.
  intros Hrun. execute_cases Hrun; try discriminate; injection Hrun as <- <-;
    cbn [MCPToolResult.tool_name MCPToolResult.server_name MCPToolResult.arguments
         MCPToolResult.status MCPToolResult.result MCPToolResult.error_message];
    (split; [done|]); (split; [done|]); (split; [done|]); split; intros Hst;
    first [ discriminate Hst
          | by destruct Hst
          | split; [done|]; eexists; first [ done | split; [done|] ];
            first [ apply format_error_details_nonempty
                  | apply mcp_error_str_nonempty
                  | by apply append_nonempty_l
                  | by (case_match; repeat apply append_nonempty_l) ] ].
Qed.

(** X2.  A run of [execute_mcp_tool] starts the call of the provider once
    when there is a session and the budget is positive, under the name,
    the arguments and the budget it was given; it starts none when there
    is no session or when the budget is not positive: no call is
    repeated.  It raises only what lies outside [Exception].  The run
    reads the clock two or three times, and [execution_time_ms] is the time
    from the first reading to the last one, in milliseconds. *)
Theorem execute_one_call_and_clock
  (session : option ClientSession) (tool_name server_name : string)
  (arguments : pydict) (timeout_seconds : float) (w : world) :
  let run :=
    execute_mcp_tool session tool_name server_name arguments timeout_seconds w in
  awaited (snd run)
  = awaited w ++
    match session with
    | Some s =>
        if call_starts timeout_seconds
        then [call_of s tool_name arguments timeout_seconds] else []
    | None => []
    end /\
  match fst run with
  | Ok r =>
      (ticks (snd run) = 2 + ticks w \/ ticks (snd run) = 3 + ticks w) /\
      MCPToolResult.execution_time_ms r
      = elapsed_ms (clock w (ticks w)) (clock w (pred (ticks (snd run))))
  | Raise e => is_Exception e = false
  end.
Proof.
  cbn zeta.
  destruct (execute_mcp_tool session tool_name server_name arguments
              timeout_seconds w) as [o w'] eqn:Hrun.
  execute_cases Hrun; injection Hrun as <- <-;
    cbn [fst snd awaited ticks with_log with_ticks with_awaited pred
         MCPToolResult.execution_time_ms];
    rewrite ?app_nil_r; (split; [done|]); first [done | split; [|done]; auto].
Qed.

(** X3.  What [execute_mcp_tool] writes to the log does not depend on the
    values of the sensitive arguments: two calls whose arguments differ
    only under sensitive keys, and on which the provider does the same,
    leave the same log.  The log is the one of the model, whose record of
    a stack trace holds no text of the trace. *)
Theorem execute_log_hides_secrets
  (session : option ClientSession) (tool_name server_name : string)
  (arguments arguments' : pydict) (timeout_seconds : float) (w : world) :
  Dict.wf arguments ->
  Dict.keys arguments' = Dict.keys arguments ->
  (forall key, is_sensitive key = false ->
               Dict.get key arguments' = Dict.get key arguments) ->
  (forall s, session = Some s ->
             call_tool s tool_name arguments' = call_tool s tool_name arguments) ->
  log (snd (execute_mcp_tool session tool_name server_name arguments'
              timeout_seconds w))
  = log (snd (execute_mcp_tool session tool_name server_name arguments
                timeout_seconds w)).
Proof.
  intros Hwf Hkeys Hsame Hcalls.
  pose proof (sanitize_hides_sensitive_values _ _ Hwf Hkeys Hsame) as Hsan.
  destruct (execute_mcp_tool session tool_name server_name arguments
              timeout_seconds w) as [o w1] eqn:Hrun.
  destruct (execute_mcp_tool session tool_name server_name arguments'
              timeout_seconds w) as [o' w2] eqn:Hrun'.
  execute_cases Hrun;
    try (specialize (Hcalls _ eq_refl); pose proof Hcall as Hcall';
         rewrite <- Hcalls in Hcall');
    run_execute_in Hrun';
    injection Hrun as <- <-; injection Hrun' as <- <-;
    cbn [snd log with_log with_ticks with_awaited]; by rewrite Hsan.
Qed.

(** X4.  Unless the awaited call itself raises an [MCPToolTimeoutError],
    so that the wait hands it back, [execute_mcp_tool] writes one error
    record for an outcome that is not a success and none for a success. *)
Theorem execute_logs_each_failure_once
  (session : option ClientSession) (tool_name server_name : string)
  (arguments : pydict) (timeout_seconds : float) (w w' : world)
  (r : MCPToolResult.t) :
  (forall s e, session = Some s ->
               wait_for_outcome timeout_seconds (call_tool s tool_name arguments)
               = Raise e ->
               isinstance_mcp e MCPToolTimeoutError = false) ->
  execute_mcp_tool session tool_name server_name arguments timeout_seconds w
  = (Ok r, w') ->
  exists new,
    log w' = log w ++ new /\
    error_records new
    = match MCPToolResult.status r with
      | SUCCESS => 0
      | _ => 1
      end.
Proof.
  intros Hnot Hrun.
  assert (Hnot' : forall s e, session = Some s ->
            wait_for_outcome timeout_seconds (call_tool s tool_name arguments)
            = Raise e ->
            isinstance_mcp e MCPToolTimeoutError = true -> False).
  { intros s e Hs Hc Ht. specialize (Hnot s e Hs Hc). congruence. }
  execute_cases Hrun; try discriminate;
    try (exfalso; by eapply Hnot');
    injection Hrun as <- <-;
    cbn [log with_log with_ticks with_awaited MCPToolResult.status];
    rewrite <- ?app_assoc; eexists; (split; [reflexivity|]); reflexivity.
Qed.

(** X5.  When the wait hands back a response that the normalizer turns
    into a string, the outcome is a success that holds this string, and
    the adapter returns this string. *)
Theorem adapter_returns_normalized_text
  (this : MCPToolWrapper.t) (kwargs : pydict) (w : world)
  (s : ClientSession) (response : pyval) (text : string) :
  MCPToolWrapper.session this = Some s ->
  wait_for_outcome (MCPToolWrapper.timeout_seconds this)
    (call_tool s (MCPToolWrapper.name this) kwargs) = Ok response ->
  _process_mcp_result response = Ok (VStr text) ->
  (exists r w',
     execute_mcp_tool (Some s) (MCPToolWrapper.name this)
       (MCPToolWrapper.server_name this) kwargs
       (MCPToolWrapper.timeout_seconds this) w = (Ok r, w') /\
     MCPToolResult.status r = SUCCESS /\
     MCPToolResult.result r = Some (VStr text)) /\
  fst (_arun this kwargs w) = Ok (VStr text).
Proof.
  intros Hs Hcall Hp.
  destruct (execute_completes s (MCPToolWrapper.name this)
              (MCPToolWrapper.server_name this) kwargs
              (MCPToolWrapper.timeout_seconds this) w response Hcall)
    as (r & w' & Hrun & _ & _ & Hr).
  unfold processed in Hr. rewrite Hp in Hr. cbn in Hr.
  destruct Hr as (Hst & Hres & _).
  split; [by eauto|].
  rewrite <- Hs in Hrun. rewrite (arun_by_status _ _ _ _ _ Hrun), Hst, Hres.
  cbn. destruct (String.eqb text "") eqn:E; [|done].
  apply String.eqb_eq in E. by subst.
Qed.

End ExecutorMore.

(** The witness of X1: a call that completes. *)
Lemma execute_outcome_shape_witness :
  exists r w',
    execute_mcp_tool (Some (session_that 1 (Completes (VStr "ok"))))
      "query" "grafana" [("q", VStr "up")] 30 idle_world = (Ok r, w') /\
    MCPToolResult.arguments r = [("q", VStr "up")] /\
    MCPToolResult.error_message r = None.
Proof.
  destruct (execute_mcp_tool (Some (session_that 1 (Completes (VStr "ok"))))
              "query" "grafana" [("q", VStr "up")] 30 idle_world)
    as [[r|e] w'] eqn:Hrun; [|vm_compute in Hrun; discriminate].
  exists r, w'. split; [reflexivity|].
  destruct (execute_outcome_shape _ _ _ _ _ _ _ _ Hrun)
    as (_ & _ & Hargs & Hok & _).
  split; [exact Hargs|]. apply Hok.
  vm_compute in Hrun. by injection Hrun as <- _.
Defined.

(** The witness of X3: two passwords, one log. *)
Lemma execute_log_hides_secrets_witness :
  log (snd (execute_mcp_tool (Some (session_that 1 (Completes (VStr "ok"))))
              "login" "grafana" [("user", VStr "ann"); ("password", VStr "first")]
              30 idle_world))
  = log (snd (execute_mcp_tool (Some (session_that 1 (Completes (VStr "ok"))))
                "login" "grafana" [("user", VStr "ann"); ("password", VStr "second")]
                30 idle_world)).
Proof.
  apply execute_log_hides_secrets.
  - apply (bool_decide_unpack _). vm_compute. reflexivity.
  - reflexivity.
  - intros key Hkey. cbn [Dict.get].
    destruct (String.eqb key "user"); [done|].
    destruct (String.eqb key "password") eqn:E; [|done].
    apply String.eqb_eq in E. subst key. vm_compute in Hkey. discriminate.
  - by intros s [= <-].
Defined.

(** The witness of X4: a call that raises leaves one error record. *)
Lemma execute_logs_each_failure_once_witness :
  exists r w' new,
    execute_mcp_tool
      (Some (session_that 1 (Fails (OtherException "ValueError" "boom"))))
      "query" "grafana" [] 30 idle_world = (Ok r, w') /\
    log w' = log idle_world ++ new /\
    error_records new = 1.
Proof.
  destruct (execute_mcp_tool
              (Some (session_that 1 (Fails (OtherException "ValueError" "boom"))))
              "query" "grafana" [] 30 idle_world)
    as [[r|e] w'] eqn:Hrun; [|vm_compute in Hrun; discriminate].
  assert (Hnot : forall s e,
            Some (session_that 1 (Fails (OtherException "ValueError" "boom"))) = Some s ->
            wait_for_outcome 30 (call_tool s "query" []) = Raise e ->
            isinstance_mcp e MCPToolTimeoutError = false).
  { intros s e [= <-] Hw. vm_compute in Hw. by injection Hw as <-. }
  destruct (execute_logs_each_failure_once _ _ _ _ _ _ _ _ Hnot
              Hrun) as (new & Hlog & Hcount).
  exists r, w', new. split; [reflexivity|]. split; [exact Hlog|].
  rewrite Hcount. vm_compute in Hrun. by injection Hrun as <- _.
Defined.

(** The witness of X5: the text of two content blocks. *)
Lemma adapter_returns_normalized_text_witness :
  fst (_arun
         (example_wrapper
            (Some (session_that 1
                     (Completes (with_content (VList [VStr "cpu 42%"; VStr "ok"]))))))
         [] idle_world)
  = Ok (VStr ("cpu 42%" +:+ newline +:+ "ok")).
Proof.
  destruct (adapter_returns_normalized_text
              (example_wrapper
                 (Some (session_that 1
                          (Completes (with_content (VList [VStr "cpu 42%"; VStr "ok"]))))))
              [] idle_world
              (session_that 1
                 (Completes (with_content (VList [VStr "cpu 42%"; VStr "ok"]))))
              (with_content (VList [VStr "cpu 42%"; VStr "ok"]))
              ("cpu 42%" +:+ newline +:+ "ok")
              eq_refl eq_refl eq_refl) as [_ Hrun].
  exact Hrun.
Defined.

(** ** The normalizer: when it raises, and when it gives no string *)

Lemma str_items_raises_iff (parts : list pyval) : forall i,
  (exists e, str_items i parts = Raise e) <->
  exists v, v ∈ parts /\ is_str v = false.
Proof.
  induction parts as [|v parts IH]; intros i.
  - split; [by intros [e He]|]. by intros (v & Hv%elem_of_nil & _).
  - split.
    + intros [e He]. destruct v;
        try (eexists; split; [apply list_elem_of_here|reflexivity]).
      simpl in He. destruct (str_items (S i) parts) as [ss|e'] eqn:E; [done|].
      destruct (proj1 (IH (S i))) as (v & Hv & Hs); [by eexists|].
      exists v. split; [by apply list_elem_of_further|done].
    + intros (x & Hx & Hs). apply elem_of_cons in Hx as [-> | Hx].
      * destruct v; try done; simpl; by eexists.
      * destruct v; try (simpl; by eexists).
        destruct (proj2 (IH (S i))) as [e He]; [by eauto|].
        exists e. simpl. by rewrite He.
Qed.

(** X6.  The normalizer raises in one case only: the response has a
    [content] attribute that is a list, and for one of its blocks the text
    that the loop takes from it is not a string. *)
Theorem normalizer_raises_iff (response : pyval) :
  (exists e, _process_mcp_result response = Raise e) <->
  exists blocks block,
    py_getattr response "content" = Some (VList blocks) /\
    block ∈ blocks /\ is_str (content_block_text block) = false.
Proof.
  split.
  - intros [e He]. unfold _process_mcp_result in He.
    destruct (py_getattr response "content") as [content|] eqn:Hc.
    + destruct response; try done;
        (destruct content as [| | | |blocks| | |];
         try (repeat case_match; by simplify_eq));
        (exists blocks; unfold py_join in He;
         destruct (str_items 0 (map content_block_text blocks)) as [ss|e'] eqn:Hs;
         [done|];
         destruct (proj1 (str_items_raises_iff (map content_block_text blocks) 0))
           as (v & Hv & Hstr); [by eexists|];
         apply list_elem_of_fmap in Hv as (block & -> & Hblock); by exists block).
    + destruct response; repeat case_match; by simplify_eq.
  - intros (blocks & block & Hc & Hblock & Hstr).
    destruct (proj2 (str_items_raises_iff (map content_block_text blocks) 0))
      as [e He].
    { exists (content_block_text block). split; [|done]. by apply list_elem_of_fmap_2. }
    exists e.
    destruct response; try done; unfold _process_mcp_result; rewrite Hc;
      unfold py_join; by rewrite He.
Qed.

(** X7.  What the normalizer returns is a string, unless it is the value
    that a dictionary holds under [text] or that a [text] attribute holds,
    of the response or of its [content]: these are handed on as they
    are. *)
Theorem normalizer_non_string_comes_from_text (response v : pyval) :
  _process_mcp_result response = Ok v ->
  is_str v = false ->
  (exists items, response = VDict items /\ Dict.get "text" items = Some v) \/
  (exists content,
     py_getattr response "content" = Some content /\
     (py_getattr content "text" = Some v \/
      exists items, content = VDict items /\ Dict.get "text" items = Some v)).
Proof.
  intros Hp Hv. unfold _process_mcp_result, py_join in Hp.
  destruct (py_getattr response "content") as [content|] eqn:Hc.
  - destruct response; try done; right; exists content; (split; [done|]);
      destruct content; repeat case_match; simplify_eq; try done; eauto.
  - destruct response; repeat case_match; simplify_eq; try done; eauto.
Qed.

(** The witness of X7: a number under [text]. *)
Lemma normalizer_non_string_comes_from_text_witness :
  Dict.get "text" [("text", VInt 42); ("result", VStr "x")] = Some (VInt 42).
Proof.
  destruct (normalizer_non_string_comes_from_text
              (VDict [("text", VInt 42); ("result", VStr "x")]) (VInt 42)
              eq_refl eq_refl)
    as [(items & [= <-] & Hget) | (content & Hc & _)]; [exact Hget|discriminate Hc].
Defined.

Section AdapterMore.
Context `{PyFloatFormat}.

Lemma execute_awaited session tool_name server_name arguments timeout_seconds w :
  awaited (snd (execute_mcp_tool session tool_name server_name arguments
                  timeout_seconds w))
  = awaited w ++
    match session with
    | Some s =>
        if call_starts timeout_seconds
        then [call_of s tool_name arguments timeout_seconds] else []
    | None => []
    end.
Proof.
  destruct (execute_mcp_tool session tool_name server_name arguments
              timeout_seconds w) as [o w'] eqn:Hrun.
  execute_cases Hrun; injection Hrun as <- <-;
    cbn [snd awaited with_log with_ticks with_awaited];
    by rewrite ?app_nil_r.
Qed.

Lemma arun_world this kwargs w :
  snd (_arun this kwargs w)
  = snd (execute_mcp_tool (MCPToolWrapper.session this) (MCPToolWrapper.name this)
           (MCPToolWrapper.server_name this) kwargs
           (MCPToolWrapper.timeout_seconds this) w).
Proof.
  unfold _arun, bind.
  destruct (execute_mcp_tool _ _ _ _ _ w) as [[r|e] w']; [|done].
  by destruct (MCPToolResult.status r), (MCPToolResult.result r).
Qed.

(** X8.  An outcome with the success status holds what the normalizer
    gave for the response that the wait handed back, and this value has a
    length and a slice: [len] and the slice of the first 500 both went
    through before the outcome was built.  So a value that the normalizer
    hands on and that is [None], a [bool], an [int] or a [dict] never comes
    out as a success. *)
Theorem execute_success_has_length_and_slice
  (session : option ClientSession) (tool_name server_name : string)
  (arguments : pydict) (timeout_seconds : float) (w w' : world)
  (r : MCPToolResult.t) :
  execute_mcp_tool session tool_name server_name arguments timeout_seconds w
  = (Ok r, w') ->
  MCPToolResult.status r = SUCCESS ->
  exists s response v n preview,
    session = Some s /\
    wait_for_outcome timeout_seconds (call_tool s tool_name arguments)
    = Ok response /\
    _process_mcp_result response = Ok v /\
    MCPToolResult.result r = Some v /\
    py_len v = Ok n /\
    py_slice_to 500 v = Ok preview /\
    v <> VNone /\ (forall b, v <> VBool b) /\ (forall k, v <> VInt k) /\
    (forall items, v <> VDict items).
Proof.
  intros Hrun Hst.
  execute_cases Hrun; try discriminate; injection Hrun as <- <-; try discriminate Hst.
  eexists _, _, _, _, _. repeat (split; [done|]).
  by destruct text.
Qed.

(** X9.  An adapter that [get_all_tools] returns belongs to a tool of a
    server of the registry.  Running it starts one call on the session of
    that server when the time budget that [get_all_tools] was given is
    positive, and none when it is not: the call names the tool by the
    qualified name of the adapter, the name of the server, an underscore
    and the name of the operation, and carries the arguments of the run
    and that time budget. *)
Theorem adapter_calls_provider_by_qualified_name (timeout_seconds : float) (w : world) :
  exists all_tools w',
    get_all_tools timeout_seconds w = (Ok all_tools, w') /\
    forall a, a ∈ all_tools ->
      exists server_name server_info session mcp_tool,
        (server_name, server_info) ∈ MCPServerManager.servers (self w) /\
        MCPServerInfo.session server_info = Some session /\
        mcp_tool ∈ MCPServerInfo.tools server_info /\
        forall kwargs w0,
          awaited (snd (_arun a kwargs w0))
          = awaited w0 ++
            (if call_starts timeout_seconds
             then [call_of session (server_name +:+ "_" +:+ operation_name mcp_tool)
                     kwargs timeout_seconds]
             else []).
Proof.
  destruct (get_all_tools_spec timeout_seconds w) as (w' & Hrun & _).
  eexists _, w'. split; [exact Hrun|].
  intros a ([name server_info] & Ha & Hentry)%list_elem_of_bind.
  apply elem_of_adapters_of in Ha as (_ & session & mcp_tool & Hs & Hin & ->).
  exists name, server_info, session, mcp_tool. repeat (split; [done|]).
  intros kwargs w0. by rewrite arun_world, execute_awaited.
Qed.

End AdapterMore.

(** The witness of X8: a response whose content is one block. *)
Lemma execute_success_has_length_and_slice_witness :
  exists r w',
    execute_mcp_tool (Some (session_that 1 (Completes (with_content (VList [VStr "up"])))))
      "query" "grafana" [] 30 idle_world = (Ok r, w') /\
    MCPToolResult.result r = Some (VStr "up").
Proof.
  destruct (execute_mcp_tool
              (Some (session_that 1 (Completes (with_content (VList [VStr "up"])))))
              "query" "grafana" [] 30 idle_world)
    as [[r|e] w'] eqn:Hrun; [|vm_compute in Hrun; discriminate].
  assert (Hst : MCPToolResult.status r = SUCCESS).
  { vm_compute in Hrun. by injection Hrun as <- _. }
  destruct (execute_success_has_length_and_slice _ _ _ _ _ _ _ _ Hrun Hst)
    as (s & response & v & n & preview & [= <-] & Hcall & Hp & Hres & _).
  exists r, w'. split; [reflexivity|].
  vm_compute in Hcall. injection Hcall as <-. rewrite Hres. f_equal.
  by injection Hp as <-.
Defined.

(** * Further properties of the manager *)

Lemma for_each_ret {A S} (g : S -> A -> S) (xs : list A) : forall acc w,
  for_each (fun acc x => ret (g acc x)) xs acc w = (Ok (fold_left g xs acc), w).
Proof.
  induction xs as [|x xs IH]; intros acc w; [done|].
  cbn [for_each fold_left]. unfold bind at 1, ret at 1. apply IH.
Qed.

Lemma dict_fold_set {A B} (f : A -> B) (d : list (string * A)) :
  forall acc : list (string * B),
  NoDup (Dict.keys acc ++ Dict.keys d) ->
  fold_left (fun st e => Dict.set st (fst e) (f (snd e))) d acc
  = acc ++ map (fun e => (fst e, f (snd e))) d.
Proof.
  induction d as [|[k v] d IH]; intros acc Hnd; simpl.
  - by rewrite app_nil_r.
  - apply NoDup_app in Hnd as (Hs & Hdisj & Ha).
    rewrite dict_set_fresh.
    2:{ intros Hin. apply (Hdisj k Hin). apply list_elem_of_here. }
    rewrite IH.
    + by rewrite <- app_assoc.
    + rewrite dict_keys_app; simpl. rewrite <- app_assoc; simpl.
      apply NoDup_app. split; [done|]. split; [|done].
      intros x Hx. apply Hdisj. done.
Qed.

Lemma get_server_status_run (w : world) :
  get_server_status w
  = (Ok (fold_left (fun st e => Dict.set st (fst e) (server_status_of (snd e)))
           (MCPServerManager.servers (self w)) []), w).
Proof.
  unfold get_server_status, bind, get_self. cbn [fst snd]. apply for_each_ret.
Qed.

Lemma get_server_status_spec (w : world) :
  Dict.wf (MCPServerManager.servers (self w)) ->
  get_server_status w = (Ok (map status_item (MCPServerManager.servers (self w))), w).
Proof.
  intros Hwf. rewrite get_server_status_run. by rewrite dict_fold_set.
Qed.

Lemma dict_get_elem_of {A} (d : list (string * A)) (key : string) (v : A) :
  Dict.get key d = Some v -> (key, v) ∈ d.
Proof.
  induction d as [|[k v'] d IH]; simpl; [done|].
  destruct (String.eqb key k) eqn:E.
  - apply string_eqb_eq in E as ->. intros [= ->]. apply list_elem_of_here.
  - intros Hg. apply list_elem_of_further. auto.
Qed.

Lemma dict_get_status (servers : list (string * MCPServerInfo.t)) (key : string) :
  Dict.get key (map status_item servers) = server_status_of <$> Dict.get key servers.
Proof.
  induction servers as [|[k v] servers IH]; simpl; [done|].
  by destruct (String.eqb key k).
Qed.

(** X10.  For a registry with one record for a name, [get_server_status]
    changes nothing and lists every server of the registry, connected or
    not, in the order of the registry.  Under [tool_count] it gives the
    number of the tools that the record holds, which is the length of the
    list under [tools], and under [is_connected] the flag of the record. *)
Theorem get_server_status_lists_every_server (w : world) :
  Dict.wf (MCPServerManager.servers (self w)) ->
  exists status,
    get_server_status w = (Ok status, w) /\
    Dict.keys status = Dict.keys (MCPServerManager.servers (self w)) /\
    forall server_name,
      match Dict.get server_name (MCPServerManager.servers (self w)) with
      | None => Dict.get server_name status = None
      | Some server_info =>
          exists d names,
            Dict.get server_name status = Some d /\
            Dict.get "is_connected" d
            = Some (VBool (MCPServerInfo.is_connected server_info)) /\
            Dict.get "tool_count" d
            = Some (VInt (Z.of_nat (length (MCPServerInfo.tools server_info)))) /\
            Dict.get "tools" d = Some (VList names) /\
            length names = length (MCPServerInfo.tools server_info)
      end.
Proof.
  intros Hwf. eexists. split; [by apply get_server_status_spec|]. split.
  - unfold Dict.keys. by rewrite map_map.
  - intros server_name. rewrite dict_get_status.
    destruct (Dict.get server_name (MCPServerManager.servers (self w)))
      as [server_info|]; [|done].
    eexists _, _. split; [reflexivity|]. repeat (split; [reflexivity|]).
    apply length_map.
Qed.

(** The witness of X10: a server that is not connected is listed with its
    tools. *)
Lemma get_server_status_lists_every_server_witness :
  exists status,
    fst (get_server_status
           (world_with_servers
              [disconnected_server "cloudwatch" 2
                 [tool_descriptor "query" ""; tool_descriptor "tail" ""]]))
    = Ok status /\
    Dict.keys status = ["cloudwatch"].
Proof.
  destruct (get_server_status_lists_every_server
              (world_with_servers
                 [disconnected_server "cloudwatch" 2
                    [tool_descriptor "query" ""; tool_descriptor "tail" ""]]))
    as (status & Hrun & Hkeys & _).
  - apply (bool_decide_unpack _). vm_compute. reflexivity.
  - exists status. split; [by rewrite Hrun|exact Hkeys].
Defined.

(** ** Shutdown *)

Lemma close_server_spec (entry : string * MCPServerInfo.t) (w : world) :
  exists w' new,
    close_server entry w = (Ok tt, w') /\
    same_outside_registry w w' /\
    MCPServerManager._initialized (self w') = MCPServerManager._initialized (self w) /\
    log w' = log w ++ new /\ error_records new = 0.
Proof.
  unfold close_server, try_except, mark_disconnected, set_server, bind, logger, ret.
  destruct (MCPServerInfo.is_connected (snd entry)
            && configured (MCPServerInfo.session (snd entry)));
    cbn [fst snd]; eexists _, _; (split; [reflexivity|]);
    (split; [done|]); (split; [done|]); cbn [log with_log with_self].
  - split; [reflexivity|done].
  - split; [by rewrite app_nil_r|done].
Qed.

Lemma same_outside_registry_trans (w1 w2 w3 : world) :
  same_outside_registry w1 w2 -> same_outside_registry w2 w3 ->
  same_outside_registry w1 w3.
Proof.
  unfold same_outside_registry. intros (?&?&?&?&?&?) (?&?&?&?&?&?).
  repeat split; congruence.
Qed.

Lemma close_servers_spec (entries : list (string * MCPServerInfo.t)) : forall w,
  exists w' new,
    for_each (fun _ entry => close_server entry) entries tt w = (Ok tt, w') /\
    same_outside_registry w w' /\
    MCPServerManager._initialized (self w') = MCPServerManager._initialized (self w) /\
    log w' = log w ++ new /\ error_records new = 0.
Proof.
  induction entries as [|entry entries IH]; intros w.
  - exists w, []. cbn. unfold ret. rewrite app_nil_r. by repeat split.
  - destruct (close_server_spec entry w) as (w1 & new1 & Hrun1 & Hsame1 & Hi1 & Hlog1 & He1).
    destruct (IH w1) as (w2 & new2 & Hrun2 & Hsame2 & Hi2 & Hlog2 & He2).
    exists w2, (new1 ++ new2). cbn [for_each]. unfold bind at 1.
    rewrite Hrun1, Hrun2. split; [done|].
    split; [by eapply same_outside_registry_trans|].
    split; [congruence|]. split; [by rewrite Hlog2, Hlog1, app_assoc|].
    by rewrite error_records_app, He1, He2.
Qed.

Lemma shutdown_spec (w : world) :
  exists w' new,
    shutdown w = (Ok tt, w') /\
    same_outside_registry w w' /\
    MCPServerManager.servers (self w') = [] /\
    MCPServerManager._initialized (self w') = false /\
    log w' = log w ++ new /\ error_records new = 0.
Proof.
  unfold shutdown, bind at 1, logger at 1, bind at 1, get_self.
  cbn [fst snd self with_log].
  destruct (close_servers_spec (MCPServerManager.servers (self w))
              (with_log w (log w ++ [(LogInfo, "MCP 서버 종료 시작")])))
    as (w1 & new1 & Hrun1 & Hsame1 & _ & Hlog1 & He1).
  unfold bind at 1. rewrite Hrun1.
  unfold bind, clear_servers, set_initialized, logger.
  cbn [fst snd self log with_log with_self MCPServerManager.servers
       MCPServerManager._initialized MCPServerManager.grafana_config
       MCPServerManager.cloudwatch_config].
  eexists _, _. split; [reflexivity|].
  split; [exact Hsame1|]. split; [done|]. split; [done|].
  cbn [log with_log with_self]. rewrite Hlog1. cbn [log with_log].
  rewrite <- !app_assoc. split; [reflexivity|].
  rewrite !error_records_app, He1. done.
Qed.

Lemma started_unconfigured (name : string) (process : provider_process) :
  started name false process = None.
Proof. reflexivity. Qed.

Lemma started_connected (name : string) (c : bool) (process : provider_process)
  (server_info : MCPServerInfo.t) :
  started name c process = Some server_info ->
  MCPServerInfo.is_connected server_info = true /\
  MCPServerInfo.session server_info <> None.
Proof.
  unfold started. destruct c; [|done].
  destruct (startup process) as [[session tools_attr]|]; [|done].
  destruct (teardown process); [done|]. by intros [= <-].
Qed.

Lemma dict_get_set_eq {A} (d : list (string * A)) (key : string) (v : A) :
  Dict.get key (Dict.set d key v) = Some v.
Proof.
  induction d as [|[k v'] d IH]; simpl.
  - by rewrite String.eqb_refl.
  - destruct (String.eqb key k) eqn:E; simpl; by rewrite E.
Qed.

Lemma dict_get_set_ne {A} (d : list (string * A)) (key other : string) (v : A) :
  other <> key -> Dict.get other (Dict.set d key v) = Dict.get other d.
Proof.
  intros Hne. induction d as [|[k v'] d IH]; simpl.
  - by apply string_eqb_ne in Hne as ->.
  - destruct (String.eqb key k) eqn:E; simpl; [|by rewrite IH].
    apply string_eqb_eq in E as <-. by apply string_eqb_ne in Hne as ->.
Qed.

Lemma dict_get_register_eq (name : string) (server : option MCPServerInfo.t)
  (servers : list (string * MCPServerInfo.t)) :
  Dict.get name (register name server servers)
  = match server with
    | Some server_info => Some server_info
    | None => Dict.get name servers
    end.
Proof. destruct server; [apply dict_get_set_eq|done]. Qed.

Lemma dict_get_register_ne (name other : string) (server : option MCPServerInfo.t)
  (servers : list (string * MCPServerInfo.t)) :
  other <> name ->
  Dict.get other (register name server servers) = Dict.get other servers.
Proof. intros Hne. destruct server; [by apply dict_get_set_ne|done]. Qed.

Section ManagerMore.
Context `{PyFloatFormat}.

(** X11.  [shutdown] raises nothing and writes no error record.  It
    empties the registry and takes back the initialization, and leaves the
    configurations, the clock and the calls awaited as they were; after it
    no server counts as connected, [get_all_tools] offers nothing and
    [get_server_status] lists nothing. *)
Theorem shutdown_empties_registry (timeout_seconds : float) (w : world) :
  exists w' new,
    shutdown w = (Ok tt, w') /\
    MCPServerManager.servers (self w') = [] /\
    is_initialized (self w') = false /\
    connected_server_count (self w') = 0 /\
    same_outside_registry w w' /\
    log w' = log w ++ new /\ error_records new = 0 /\
    fst (get_all_tools timeout_seconds w') = Ok [] /\
    fst (get_server_status w') = Ok [].
Proof.
  destruct (shutdown_spec w) as (w' & new & Hrun & Hsame & Hservers & Hinit & Hlog & He).
  exists w', new. split; [done|]. split; [done|]. split; [done|].
  split; [unfold connected_server_count; by rewrite Hservers|].
  split; [done|]. split; [done|]. split; [done|]. split.
  - destruct (get_all_tools_spec timeout_seconds w') as (w2 & Hrun2 & _).
    by rewrite Hrun2, Hservers.
  - by rewrite get_server_status_run, Hservers.
Qed.

Ltac keep_starts :=
  cbn -[_start_grafana_mcp _start_cloudwatch_mcp String.append PyStr.of_nat
        started Dict.set register].

Ltac world_facts :=
  keep_starts;
  repeat match goal with
         | Hx : self ?x = _ |- context [self ?x] => rewrite Hx
         | Hx : processes ?x = _ |- context [processes ?x] => rewrite Hx
         end;
  keep_starts.

Ltac use_start_grafana g Hup Hdown :=
  match goal with
  | |- context [_start_grafana_mcp ?w1] =>
      let w2 := fresh "w2" in
      let new2 := fresh "new2" in
      let Hrun := fresh "Hrun" in
      let Hself2 := fresh "Hself2" in
      let Hproc2 := fresh "Hproc2" in
      let Hlog2 := fresh "Hlog2" in
      let Hfail2 := fresh "Hfail2" in
      destruct (start_grafana_spec w1 g)
        as (w2 & new2 & Hrun & Hself2 & Hproc2 & Hlog2 & Hfail2);
      [ by world_facts
      | world_facts; apply Hup
      | world_facts; apply Hdown
      | rewrite Hrun; clear Hrun Hfail2;
        cbn [self log processes with_log with_self] in Hself2, Hproc2, Hlog2;
        cbn [self log processes with_log with_self] ]
  end.

Ltac use_start_cloudwatch c Hup Hdown :=
  match goal with
  | |- context [_start_cloudwatch_mcp ?w1] =>
      let w3 := fresh "w3" in
      let new3 := fresh "new3" in
      let Hrun := fresh "Hrun" in
      let Hself3 := fresh "Hself3" in
      let Hproc3 := fresh "Hproc3" in
      let Hlog3 := fresh "Hlog3" in
      let Hfail3 := fresh "Hfail3" in
      destruct (start_cloudwatch_spec w1 c)
        as (w3 & new3 & Hrun & Hself3 & Hproc3 & Hlog3 & Hfail3);
      [ by world_facts
      | world_facts; apply Hup
      | world_facts; apply Hdown
      | rewrite Hrun; clear Hrun Hfail3;
        cbn [self log processes with_log with_self] in Hself3, Hproc3, Hlog3;
        cbn [self log processes with_log with_self] ]
  end.

Ltac run_init :=
  unfold initialize_servers, bind, try_except, logger, get_self, set_server,
    set_initialized, ret;
  cbn [fst snd ticks clock awaited log self processes with_ticks with_log
       with_awaited with_self].

Ltac finish_init :=
  keep_starts; eexists _, _; (split; [reflexivity|]);
  cbn [self log processes with_log with_self MCPServerManager._initialized
       MCPServerManager.servers MCPServerManager.grafana_config
       MCPServerManager.cloudwatch_config configured];
  repeat match goal with
         | Hx : self ?x = _ |- context [self ?x] =>
             rewrite Hx;
             cbn [self log processes with_log with_self
                  MCPServerManager._initialized
                  MCPServerManager.servers MCPServerManager.grafana_config
                  MCPServerManager.cloudwatch_config]
         | Hx : log ?x = _ |- context [log ?x] => rewrite Hx
         | Hx : processes ?x = _ |- context [processes ?x] => rewrite Hx
         end;
  rewrite ?started_unconfigured;
  repeat match goal with
         | Hx : started _ _ _ = _ |- _ => rewrite Hx
         end;
  cbn [register log with_log];
  rewrite <- ?app_assoc; by repeat split.

(** What [initialize_servers] does to a manager in any state. *)
Lemma initialize_servers_spec (w : world) :
  (forall p e, startup (processes w p) = Raise e -> is_Exception e = true) ->
  (forall p e, teardown (processes w p) = Some e -> is_Exception e = true) ->
  exists w' new,
    initialize_servers w = (Ok tt, w') /\
    MCPServerManager.servers (self w')
    = register "cloudwatch"
        (started "cloudwatch"
           (configured (MCPServerManager.cloudwatch_config (self w)))
           (processes w CloudWatch))
        (register "grafana"
           (started "grafana"
              (configured (MCPServerManager.grafana_config (self w)))
              (processes w Grafana))
           (MCPServerManager.servers (self w))) /\
    MCPServerManager._initialized (self w') = true /\
    MCPServerManager.grafana_config (self w')
    = MCPServerManager.grafana_config (self w) /\
    MCPServerManager.cloudwatch_config (self w')
    = MCPServerManager.cloudwatch_config (self w) /\
    processes w' = processes w /\
    log w' = log w ++ new.
Proof.
  intros Hup Hdown.
  destruct (self w) as [gc cc servers init] eqn:Hself.
  destruct gc as [g|], cc as [c|]; run_init; rewrite Hself; keep_starts.
  - use_start_grafana g Hup Hdown.
    destruct (started "grafana" true (processes w Grafana)) as [info_g|] eqn:Hsg;
      keep_starts; use_start_cloudwatch c Hup Hdown;
      rewrite Hproc2 in *;
      destruct (started "cloudwatch" true (processes w CloudWatch)) as [info_c|] eqn:Hsc;
      finish_init.
  - use_start_grafana g Hup Hdown.
    destruct (started "grafana" true (processes w Grafana)) as [info_g|] eqn:Hsg;
      finish_init.
  - use_start_cloudwatch c Hup Hdown.
    destruct (started "cloudwatch" true (processes w CloudWatch)) as [info_c|] eqn:Hsc;
      finish_init.
  - finish_init.
Qed.

(** X13.  [initialize_servers] on a manager in any state, with provider
    processes that start or fail with an exception below [Exception]:
    nothing is raised and the manager is initialized.  A provider that
    starts is registered under its name; for a provider that does not
    start, and for every other name, the registry holds what it held: a
    second initialization takes no record away, so the record of a
    provider that started at the first one and fails at the second stays
    in the registry as it was. *)
Theorem initialize_servers_keeps_registry (w : world) :
  (forall p e, startup (processes w p) = Raise e -> is_Exception e = true) ->
  (forall p e, teardown (processes w p) = Some e -> is_Exception e = true) ->
  exists w',
    initialize_servers w = (Ok tt, w') /\
    is_initialized (self w') = true /\
    Dict.get "grafana" (MCPServerManager.servers (self w'))
    = match started "grafana"
              (configured (MCPServerManager.grafana_config (self w)))
              (processes w Grafana) with
      | Some server_info => Some server_info
      | None => Dict.get "grafana" (MCPServerManager.servers (self w))
      end /\
    Dict.get "cloudwatch" (MCPServerManager.servers (self w'))
    = match started "cloudwatch"
              (configured (MCPServerManager.cloudwatch_config (self w)))
              (processes w CloudWatch) with
      | Some server_info => Some server_info
      | None => Dict.get "cloudwatch" (MCPServerManager.servers (self w))
      end /\
    forall server_name,
      server_name <> "grafana" -> server_name <> "cloudwatch" ->
      Dict.get server_name (MCPServerManager.servers (self w'))
      = Dict.get server_name (MCPServerManager.servers (self w)).
Proof.
  intros Hup Hdown.
  destruct (initialize_servers_spec w Hup Hdown)
    as (w' & new & Hrun & Hservers & Hinit & _).
  exists w'. split; [done|]. split; [done|]. rewrite Hservers.
  split; [|split].
  - by rewrite dict_get_register_ne, dict_get_register_eq.
  - by rewrite dict_get_register_eq, dict_get_register_ne.
  - intros server_name Hg Hc. by rewrite !dict_get_register_ne.
Qed.

(** X14.  An exception that is not below [Exception], raised when the
    Grafana process is started, goes through [_start_grafana_mcp] and
    [initialize_servers]: the manager is as it was, so it is not marked as
    initialized, the CloudWatch provider is not tried, and no error record
    is written. *)
Theorem initialize_servers_lets_interrupts_through
  (w : world) (grafana_config : GrafanaConfig) (e : pyexn) :
  MCPServerManager.grafana_config (self w) = Some grafana_config ->
  startup (processes w Grafana) = Raise e ->
  is_Exception e = false ->
  exists w',
    initialize_servers w = (Raise e, w') /\
    self w' = self w /\
    log w'
    = log w ++ [(LogInfo, "MCP 서버 초기화 시작");
                (LogInfo, "Grafana MCP 서버 시작: " +:+ url grafana_config)].
Proof.
  intros Hcfg Hstart Hexn. destruct e; try discriminate Hexn.
  unfold initialize_servers, _start_grafana_mcp, with_provider_session, bind,
    try_except, logger, get_self, raise, ret.
  cbn [fst snd self log processes with_log with_self]. rewrite Hcfg.
  cbn [fst snd self log processes with_log with_self]. rewrite Hcfg.
  cbn [fst snd self log processes with_log with_self]. rewrite Hstart.
  cbn [fst snd self log processes with_log with_self is_FileNotFoundError
       is_Exception].
  eexists. split; [reflexivity|]. split; [done|].
  cbn [log with_log]. by rewrite <- app_assoc.
Qed.

(** X15.  After [initialize_servers] and then [shutdown] the manager is as
    its constructor leaves it for the two configurations. *)
Theorem initialize_then_shutdown_round_trip (w : world) :
  (forall p e, startup (processes w p) = Raise e -> is_Exception e = true) ->
  (forall p e, teardown (processes w p) = Some e -> is_Exception e = true) ->
  exists w1 w2,
    initialize_servers w = (Ok tt, w1) /\
    shutdown w1 = (Ok tt, w2) /\
    self w2
    = MCPServerManager_init (MCPServerManager.grafana_config (self w))
        (MCPServerManager.cloudwatch_config (self w)).
Proof.
  intros Hup Hdown.
  destruct (initialize_servers_spec w Hup Hdown)
    as (w1 & new1 & Hrun1 & _ & _ & Hg1 & Hc1 & _).
  destruct (shutdown_spec w1)
    as (w2 & new2 & Hrun2 & (_ & _ & _ & _ & Hg2 & Hc2) & Hservers & Hinit & _).
  exists w1, w2. split; [done|]. split; [done|].
  destruct (self w2) as [gc cc servers init]. cbn in *. unfold MCPServerManager_init.
  congruence.
Qed.

End ManagerMore.

(** ** The health checks *)

Lemma find_database_spec (components : list ServiceStatus.t) (db : ServiceStatus.t) :
  List.find (fun c => String.eqb (ServiceStatus.name c) "database") components = Some db ->
  db ∈ components /\ ServiceStatus.name db = "database".
Proof.
  intros Hf. apply List.find_some in Hf as [Hin Hname].
  split; [by apply list_elem_of_In|by apply string_eqb_eq].
Qed.

Lemma forallb_is_healthy (components : list ServiceStatus.t) :
  forallb is_healthy components = true <->
  forall c, c ∈ components -> ServiceStatus.status c = healthy.
Proof.
  rewrite forallb_forall. unfold is_healthy.
  split; intros Hall c Hc; [apply list_elem_of_In, Hall in Hc|apply list_elem_of_In, Hall in Hc];
    by destruct (ServiceStatus.status c).
Qed.

Lemma existsb_is_unhealthy (components : list ServiceStatus.t) :
  existsb is_unhealthy components = false <->
  forall c, c ∈ components -> ServiceStatus.status c <> unhealthy.
Proof.
  unfold is_unhealthy. split.
  - intros Hnone c Hc Hst.
    assert (existsb (fun c => match ServiceStatus.status c with
                              | unhealthy => true
                              | _ => false
                              end) components = true) as Hsome; [|congruence].
    apply existsb_exists. exists c. split; [by apply list_elem_of_In|by rewrite Hst].
  - intros Hall. apply not_true_is_false. intros (c & Hc & Hst)%existsb_exists.
    apply list_elem_of_In, Hall in Hc. by destruct (ServiceStatus.status c).
Qed.

(** X16.  [_determine_overall_status] gives one of three words.  It gives
    [unhealthy] exactly when the first component named [database] is
    unhealthy: no other component, whatever its state, makes the whole
    unhealthy, and with no database component the whole never is. *)
Theorem overall_unhealthy_iff_database_unhealthy (components : list ServiceStatus.t) :
  (_determine_overall_status components = "healthy" \/
   _determine_overall_status components = "degraded" \/
   _determine_overall_status components = "unhealthy") /\
  (_determine_overall_status components = "unhealthy" <->
   exists db,
     List.find (fun c => String.eqb (ServiceStatus.name c) "database") components
     = Some db /\
     ServiceStatus.status db = unhealthy).
Proof.
  unfold _determine_overall_status.
  generalize (forallb is_healthy components) (existsb is_unhealthy components).
  intros all_healthy any_unhealthy.
  destruct (List.find _ components) as [db|]; unfold is_unhealthy, is_healthy.
  - destruct (ServiceStatus.status db) eqn:Hdb, all_healthy, any_unhealthy;
      (split; [auto|]);
      (split; [first [done | by eauto]
              |first [done | intros (? & [= <-] & ?); congruence]]).
  - destruct all_healthy, any_unhealthy;
      (split; [auto|]); (split; [done|]); by intros (? & ? & ?).
Qed.

(** X17.  [_determine_overall_status] gives [healthy] in two cases: every
    component is healthy, or no component is unhealthy and the first
    component named [database] is healthy.  So components in the unknown
    state beside a healthy database leave the whole healthy, and without a
    database component they make it degraded. *)
Theorem overall_healthy_iff (components : list ServiceStatus.t) :
  _determine_overall_status components = "healthy" <->
  (forall c, c ∈ components -> ServiceStatus.status c = healthy) \/
  ((forall c, c ∈ components -> ServiceStatus.status c <> unhealthy) /\
   exists db,
     List.find (fun c => String.eqb (ServiceStatus.name c) "database") components
     = Some db /\
     ServiceStatus.status db = healthy).
Proof.
  rewrite <- forallb_is_healthy, <- existsb_is_unhealthy.
  unfold _determine_overall_status.
  destruct (List.find _ components) as [db|] eqn:Hfind.
  - apply find_database_spec in Hfind as [Hin _].
    pose proof (fun Hall => proj1 (forallb_is_healthy components) Hall db Hin) as Hall.
    revert Hall.
    generalize (forallb is_healthy components) (existsb is_unhealthy components).
    intros all_healthy any_unhealthy Hall. unfold is_unhealthy, is_healthy.
    destruct (ServiceStatus.status db) eqn:Hdb, all_healthy, any_unhealthy;
      try (specialize (Hall eq_refl); discriminate Hall);
      (split; [intros Hr | intros [Ha | [Hu (x & [= <-] & Hx)]]]);
      try done; try congruence; first [by left | right; by eauto].
  - generalize (forallb is_healthy components) (existsb is_unhealthy components).
    intros all_healthy any_unhealthy.
    destruct all_healthy, any_unhealthy;
      (split; [try done; by left|]); try done;
      by intros [|[_ (? & ? & ?)]].
Qed.

Lemma check_mcp_grafana_health_status
  (environ : list (string * string)) (manager_is_set : bool) (w : world) :
  Dict.wf (MCPServerManager.servers (self w)) ->
  exists c,
    _check_mcp_grafana_health environ manager_is_set w = (Ok c, w) /\
    ServiceStatus.name c = "mcp_grafana" /\
    ServiceStatus.status c
    = if env_missing (Dict.get "GRAFANA_URL" environ)
         || env_missing (Dict.get "GRAFANA_API_KEY" environ)
      then unknown
      else if manager_is_set then
        match Dict.get "grafana" (MCPServerManager.servers (self w)) with
        | Some server_info =>
            if MCPServerInfo.is_connected server_info then healthy else unhealthy
        | None => unknown
        end
      else unknown.
Proof.
  intros Hwf. unfold _check_mcp_grafana_health, try_except, bind, ret.
  destruct (env_missing (Dict.get "GRAFANA_URL" environ)
            || env_missing (Dict.get "GRAFANA_API_KEY" environ));
    [eexists; split; [reflexivity|]; split; reflexivity|].
  destruct manager_is_set; [|eexists; split; [reflexivity|]; split; reflexivity].
  rewrite get_server_status_spec by done. rewrite dict_get_status.
  destruct (Dict.get "grafana" (MCPServerManager.servers (self w))) as [server_info|];
    cbn; [|eexists; split; [reflexivity|]; split; reflexivity].
  destruct (MCPServerInfo.is_connected server_info);
    eexists; split; [reflexivity| |reflexivity|]; split; reflexivity.
Qed.

Lemma check_mcp_cloudwatch_health_status
  (environ : list (string * string)) (manager_is_set : bool) (w : world) :
  Dict.wf (MCPServerManager.servers (self w)) ->
  exists c,
    _check_mcp_cloudwatch_health environ manager_is_set w = (Ok c, w) /\
    ServiceStatus.name c = "mcp_cloudwatch" /\
    ServiceStatus.status c
    = if env_missing (Dict.get "CLOUDWATCH_AWS_ACCESS_KEY_ID" environ)
         || env_missing (Dict.get "CLOUDWATCH_AWS_SECRET_ACCESS_KEY" environ)
         || env_missing (Dict.get "CLOUDWATCH_REGION" environ)
      then unknown
      else if manager_is_set then
        match Dict.get "cloudwatch" (MCPServerManager.servers (self w)) with
        | Some server_info =>
            if MCPServerInfo.is_connected server_info then healthy else unhealthy
        | None => unknown
        end
      else unknown.
Proof.
  intros Hwf. unfold _check_mcp_cloudwatch_health, try_except, bind, ret.
  destruct (env_missing (Dict.get "CLOUDWATCH_AWS_ACCESS_KEY_ID" environ)
            || env_missing (Dict.get "CLOUDWATCH_AWS_SECRET_ACCESS_KEY" environ)
            || env_missing (Dict.get "CLOUDWATCH_REGION" environ));
    [eexists; split; [reflexivity|]; split; reflexivity|].
  destruct manager_is_set; [|eexists; split; [reflexivity|]; split; reflexivity].
  rewrite get_server_status_spec by done. rewrite dict_get_status.
  destruct (Dict.get "cloudwatch" (MCPServerManager.servers (self w))) as [server_info|];
    cbn; [|eexists; split; [reflexivity|]; split; reflexivity].
  destruct (MCPServerInfo.is_connected server_info);
    eexists; split; [reflexivity| |reflexivity|]; split; reflexivity.
Qed.

(* Settles the two equivalences of a health check once its answer is
   known. *)
Ltac health_cases :=
  split;
  (split;
   [ first [ discriminate
           | intros _; repeat (split; [reflexivity|]); eexists; split; [reflexivity|done] ]
   | first [ reflexivity
           | intros (? & ? & ? & ? & ? & ? & ?); congruence
           | intros (? & ? & ? & ? & ? & ?); congruence ] ]).

(** X18.  For a registry with one record for a name,
    [_check_mcp_grafana_health] raises nothing and changes nothing, and
    its answer is named [mcp_grafana].  The answer is healthy exactly when
    the two environment variables are set, a manager is set, and the
    registry holds a record under [grafana] that is connected; it is
    unhealthy exactly when all of this holds but the record is not
    connected.  In every other case it is unknown. *)
Theorem grafana_health_reads_registry
  (environ : list (string * string)) (manager_is_set : bool) (w : world) :
  Dict.wf (MCPServerManager.servers (self w)) ->
  exists c,
    _check_mcp_grafana_health environ manager_is_set w = (Ok c, w) /\
    ServiceStatus.name c = "mcp_grafana" /\
    (ServiceStatus.status c = healthy <->
     env_missing (Dict.get "GRAFANA_URL" environ) = false /\
     env_missing (Dict.get "GRAFANA_API_KEY" environ) = false /\
     manager_is_set = true /\
     exists server_info,
       Dict.get "grafana" (MCPServerManager.servers (self w)) = Some server_info /\
       MCPServerInfo.is_connected server_info = true) /\
    (ServiceStatus.status c = unhealthy <->
     env_missing (Dict.get "GRAFANA_URL" environ) = false /\
     env_missing (Dict.get "GRAFANA_API_KEY" environ) = false /\
     manager_is_set = true /\
     exists server_info,
       Dict.get "grafana" (MCPServerManager.servers (self w)) = Some server_info /\
       MCPServerInfo.is_connected server_info = false).
Proof.
  intros Hwf.
  destruct (check_mcp_grafana_health_status environ manager_is_set w Hwf)
    as (c & Hrun & Hname & Hst).
  exists c. split; [done|]. split; [done|]. rewrite Hst.
  destruct (env_missing (Dict.get "GRAFANA_URL" environ)),
           (env_missing (Dict.get "GRAFANA_API_KEY" environ)),
           manager_is_set; cbn [orb]; try by health_cases.
  destruct (Dict.get "grafana" (MCPServerManager.servers (self w))) as [server_info|];
    [|by health_cases].
  by destruct (MCPServerInfo.is_connected server_info) eqn:Hc; health_cases.
Qed.

(** X19.  The same for [_check_mcp_cloudwatch_health], with its three
    environment variables and the record under [cloudwatch]. *)
Theorem cloudwatch_health_reads_registry
  (environ : list (string * string)) (manager_is_set : bool) (w : world) :
  Dict.wf (MCPServerManager.servers (self w)) ->
  exists c,
    _check_mcp_cloudwatch_health environ manager_is_set w = (Ok c, w) /\
    ServiceStatus.name c = "mcp_cloudwatch" /\
    (ServiceStatus.status c = healthy <->
     env_missing (Dict.get "CLOUDWATCH_AWS_ACCESS_KEY_ID" environ) = false /\
     env_missing (Dict.get "CLOUDWATCH_AWS_SECRET_ACCESS_KEY" environ) = false /\
     env_missing (Dict.get "CLOUDWATCH_REGION" environ) = false /\
     manager_is_set = true /\
     exists server_info,
       Dict.get "cloudwatch" (MCPServerManager.servers (self w)) = Some server_info /\
       MCPServerInfo.is_connected server_info = true) /\
    (ServiceStatus.status c = unhealthy <->
     env_missing (Dict.get "CLOUDWATCH_AWS_ACCESS_KEY_ID" environ) = false /\
     env_missing (Dict.get "CLOUDWATCH_AWS_SECRET_ACCESS_KEY" environ) = false /\
     env_missing (Dict.get "CLOUDWATCH_REGION" environ) = false /\
     manager_is_set = true /\
     exists server_info,
       Dict.get "cloudwatch" (MCPServerManager.servers (self w)) = Some server_info /\
       MCPServerInfo.is_connected server_info = false).
Proof.
  intros Hwf.
  destruct (check_mcp_cloudwatch_health_status environ manager_is_set w Hwf)
    as (c & Hrun & Hname & Hst).
  exists c. split; [done|]. split; [done|]. rewrite Hst.
  destruct (env_missing (Dict.get "CLOUDWATCH_AWS_ACCESS_KEY_ID" environ)),
           (env_missing (Dict.get "CLOUDWATCH_AWS_SECRET_ACCESS_KEY" environ)),
           (env_missing (Dict.get "CLOUDWATCH_REGION" environ)),
           manager_is_set; cbn [orb]; try by health_cases.
  destruct (Dict.get "cloudwatch" (MCPServerManager.servers (self w)))
    as [server_info|]; [|by health_cases].
  by destruct (MCPServerInfo.is_connected server_info) eqn:Hc; health_cases.
Qed.

(** ** The manager after its initialization *)

Lemma started_inv (name : string) (c : bool) (process : provider_process)
  (server_info : MCPServerInfo.t) :
  started name c process = Some server_info ->
  exists session tools_attr,
    startup process = Ok (session, tools_attr) /\
    server_info = {| MCPServerInfo.name := name;
                     MCPServerInfo.session := Some session;
                     MCPServerInfo.tools := default [] tools_attr;
                     MCPServerInfo.is_connected := true |}.
Proof.
  unfold started. destruct c; [|done].
  destruct (startup process) as [[session tools_attr]|]; [|done].
  destruct (teardown process); [done|]. intros [= <-]. by eexists _, _.
Qed.

Lemma fresh_registry (grafana_server cloudwatch_server : option MCPServerInfo.t) :
  register "cloudwatch" cloudwatch_server (register "grafana" grafana_server [])
  = match grafana_server with
    | Some server_info => [("grafana", server_info)]
    | None => []
    end ++
    match cloudwatch_server with
    | Some server_info => [("cloudwatch", server_info)]
    | None => []
    end.
Proof. by destruct grafana_server, cloudwatch_server. Qed.

Lemma fresh_registry_wf (grafana_server cloudwatch_server : option MCPServerInfo.t) :
  Dict.wf (register "cloudwatch" cloudwatch_server (register "grafana" grafana_server [])).
Proof.
  rewrite fresh_registry.
  destruct grafana_server, cloudwatch_server;
    apply (bool_decide_unpack _); vm_compute; reflexivity.
Qed.

Lemma NoDup_adapter_names (timeout_seconds : float)
  (servers : list (string * MCPServerInfo.t)) :
  Dict.wf servers ->
  (forall entry, entry ∈ servers -> PyStr.contains "_" (fst entry) = false) ->
  (forall entry, entry ∈ servers ->
                 NoDup (map operation_name (MCPServerInfo.tools (snd entry)))) ->
  NoDup (map MCPToolWrapper.name (servers ≫= adapters_of timeout_seconds)).
Proof.
  intros Hwf Hplain Hops. rewrite names_of_adapters. apply NoDup_bind.
  - intros [k1 i1] [k2 i2] n H1 H2 Hn1 Hn2.
    apply elem_of_names_of in Hn1 as (t1 & _ & ->).
    apply elem_of_names_of in Hn2 as (t2 & _ & Heq). cbn in Heq.
    apply qualified_name_inj in Heq as [-> _];
      [|by apply (Hplain _ H1)|by apply (Hplain _ H2)].
    f_equal. by eapply dict_wf_unique.
  - intros entry Hentry. apply NoDup_names_of. by apply Hops.
  - by eapply NoDup_fmap_1.
Qed.

Section Initialized.
Context `{PyFloatFormat}.

(** X20.  After [initialize_servers] on a manager as its constructor
    leaves it, a health check never answers unhealthy: for a provider
    whose environment variables are set it answers healthy when the
    provider started and unknown when it did not, so a provider that is
    configured and failed to start is reported as unknown. *)
Theorem health_after_initialize
  (grafana_config : option GrafanaConfig)
  (cloudwatch_config : option CloudWatchConfig)
  (environ : list (string * string)) (w : world) :
  self w = MCPServerManager_init grafana_config cloudwatch_config ->
  (forall p e, startup (processes w p) = Raise e -> is_Exception e = true) ->
  (forall p e, teardown (processes w p) = Some e -> is_Exception e = true) ->
  exists w1 g c,
    initialize_servers w = (Ok tt, w1) /\
    _check_mcp_grafana_health environ true w1 = (Ok g, w1) /\
    _check_mcp_cloudwatch_health environ true w1 = (Ok c, w1) /\
    ServiceStatus.status g <> unhealthy /\
    ServiceStatus.status c <> unhealthy /\
    (ServiceStatus.status g = healthy <->
     env_missing (Dict.get "GRAFANA_URL" environ) = false /\
     env_missing (Dict.get "GRAFANA_API_KEY" environ) = false /\
     started "grafana" (configured grafana_config) (processes w Grafana) <> None) /\
    (ServiceStatus.status c = healthy <->
     env_missing (Dict.get "CLOUDWATCH_AWS_ACCESS_KEY_ID" environ) = false /\
     env_missing (Dict.get "CLOUDWATCH_AWS_SECRET_ACCESS_KEY" environ) = false /\
     env_missing (Dict.get "CLOUDWATCH_REGION" environ) = false /\
     started "cloudwatch" (configured cloudwatch_config) (processes w CloudWatch)
     <> None).
Proof.
  intros Hself Hup Hdown.
  destruct (initialize_servers_spec w Hup Hdown) as (w1 & new & Hrun & Hservers & _).
  rewrite Hself in Hservers.
  cbn [MCPServerManager_init MCPServerManager.servers MCPServerManager.grafana_config
       MCPServerManager.cloudwatch_config] in Hservers.
  assert (Hwf : Dict.wf (MCPServerManager.servers (self w1))).
  { rewrite Hservers. apply fresh_registry_wf. }
  destruct (check_mcp_grafana_health_status environ true w1 Hwf)
    as (g & Hg & _ & Hgs).
  destruct (check_mcp_cloudwatch_health_status environ true w1 Hwf)
    as (c & Hc & _ & Hcs).
  exists w1, g, c. split; [done|]. split; [done|]. split; [done|].
  rewrite Hgs, Hcs, Hservers.
  rewrite dict_get_register_eq, dict_get_register_ne, dict_get_register_eq by done.
  cbn [Dict.get].
  destruct (started "grafana" (configured grafana_config) (processes w Grafana))
    as [info_g|] eqn:Hsg;
    [apply started_connected in Hsg as [-> _]|];
    (destruct (started "cloudwatch" (configured cloudwatch_config)
                 (processes w CloudWatch)) as [info_c|] eqn:Hsc;
     [apply started_connected in Hsc as [-> _]|]);
    destruct (env_missing (Dict.get "GRAFANA_URL" environ)),
             (env_missing (Dict.get "GRAFANA_API_KEY" environ)),
             (env_missing (Dict.get "CLOUDWATCH_AWS_ACCESS_KEY_ID" environ)),
             (env_missing (Dict.get "CLOUDWATCH_AWS_SECRET_ACCESS_KEY" environ)),
             (env_missing (Dict.get "CLOUDWATCH_REGION" environ));
    cbn [orb]; (split; [done|]); (split; [done|]);
    split; (split; [first [done | intros ?; by repeat split]
                   |first [done | intros (? & ? & ?); congruence
                          | intros (? & ? & ? & ?); congruence]]).
Qed.

(** X21.  After [initialize_servers] on a manager as its constructor
    leaves it, every server of the registry is connected and
    [get_all_tools] gives one adapter for each tool that a started provider
    listed; and, when no provider lists an operation name twice, no two
    adapters have the same name. *)
Theorem initialized_manager_offers_started_tools
  (grafana_config : option GrafanaConfig)
  (cloudwatch_config : option CloudWatchConfig)
  (timeout_seconds : float) (w : world) :
  self w = MCPServerManager_init grafana_config cloudwatch_config ->
  (forall p e, startup (processes w p) = Raise e -> is_Exception e = true) ->
  (forall p e, teardown (processes w p) = Some e -> is_Exception e = true) ->
  exists w1 all_tools w2,
    initialize_servers w = (Ok tt, w1) /\
    get_all_tools timeout_seconds w1 = (Ok all_tools, w2) /\
    connected_server_count (self w1) = length (MCPServerManager.servers (self w1)) /\
    length all_tools
    = sum_list_with (fun entry => length (MCPServerInfo.tools (snd entry)))
        (MCPServerManager.servers (self w1)) /\
    ((forall p session tools_attr,
        startup (processes w p) = Ok (session, tools_attr) ->
        NoDup (map operation_name (default [] tools_attr))) ->
     NoDup (map MCPToolWrapper.name all_tools)).
Proof.
  intros Hself Hup Hdown.
  destruct (initialize_servers_spec w Hup Hdown) as (w1 & new & Hrun & Hservers & _).
  rewrite Hself in Hservers.
  cbn [MCPServerManager_init MCPServerManager.servers MCPServerManager.grafana_config
       MCPServerManager.cloudwatch_config] in Hservers.
  destruct (get_all_tools_spec timeout_seconds w1) as (w2 & Hrun2 & _).
  eexists w1, _, w2. split; [done|]. split; [done|].
  unfold connected_server_count. rewrite length_adapters, Hservers, fresh_registry.
  assert (Hstarted : forall name c p server_info,
            started name c (processes w p) = Some server_info ->
            MCPServerInfo.is_connected server_info = true /\
            offered server_info = length (MCPServerInfo.tools server_info) /\
            exists session tools_attr,
              startup (processes w p) = Ok (session, tools_attr) /\
              MCPServerInfo.tools server_info = default [] tools_attr).
  { intros name c p server_info (session & tools_attr & Hs & ->)%started_inv.
    split; [done|]. split; [done|]. by eexists _, _. }
  destruct (started "grafana" (configured grafana_config) (processes w Grafana))
    as [info_g|] eqn:Hsg;
    [destruct (Hstarted _ _ _ _ Hsg) as (Hcg & Hog & sg & tg & Hpg & Htg)|];
    (destruct (started "cloudwatch" (configured cloudwatch_config)
                 (processes w CloudWatch)) as [info_c|] eqn:Hsc;
     [destruct (Hstarted _ _ _ _ Hsc) as (Hcc & Hoc & sc & tc & Hpc & Htc)|]);
    cbn [app sum_list_with snd length];
    rewrite ?filter_cons_True, ?filter_nil by done;
    rewrite ?Hog, ?Hoc;
    (split; [done|]); (split; [done|]);
    intros Hnd;
    (apply NoDup_adapter_names;
     [ apply (bool_decide_unpack _); vm_compute; reflexivity
     | intros entry Hentry; rewrite ?elem_of_cons, elem_of_nil in Hentry;
       by destruct Hentry as [-> | [-> | []]] || destruct Hentry as [-> | []]
          || destruct Hentry
     | intros entry Hentry; rewrite ?elem_of_cons, elem_of_nil in Hentry;
       (destruct Hentry as [-> | [-> | []]] || destruct Hentry as [-> | []]
        || destruct Hentry);
       cbn [snd]; rewrite ?Htg, ?Htc; by eapply Hnd ]).
Qed.

End Initialized.

(** ** Witnesses for the manager and the health checks *)

(** The witness of X13: the record of a Grafana that no longer starts
    stays in the registry. *)
Lemma initialize_servers_keeps_registry_witness :
  exists w',
    initialize_servers restarted_world = (Ok tt, w') /\
    Dict.get "grafana" (MCPServerManager.servers (self w'))
    = Some (snd (connected_server "grafana" 1 [tool_descriptor "query" ""])).
Proof.
  destruct (initialize_servers_keeps_registry restarted_world)
    as (w' & Hrun & _ & Hg & _).
  - intros p e. cbn. intros [= <-]. reflexivity.
  - intros p e. cbn. discriminate.
  - exists w'. split; [exact Hrun|]. rewrite Hg. reflexivity.
Defined.

(** The witness of X14: a cancellation while Grafana is started. *)
Lemma initialize_servers_lets_interrupts_through_witness :
  exists w',
    initialize_servers
      (example_world (Some example_grafana_config) (Some example_cloudwatch_config)
         (fun _ => failing_process (NonException "CancelledError" "")))
    = (Raise (NonException "CancelledError" ""), w') /\
    is_initialized (self w') = false.
Proof.
  destruct (initialize_servers_lets_interrupts_through
              (example_world (Some example_grafana_config)
                 (Some example_cloudwatch_config)
                 (fun _ => failing_process (NonException "CancelledError" "")))
              example_grafana_config (NonException "CancelledError" "")
              eq_refl eq_refl eq_refl) as (w' & Hrun & Hself & _).
  exists w'. split; [exact Hrun|]. rewrite Hself. reflexivity.
Defined.

(** The witness of X15. *)
Lemma initialize_then_shutdown_round_trip_witness :
  exists w1 w2,
    initialize_servers half_started_world = (Ok tt, w1) /\
    shutdown w1 = (Ok tt, w2) /\
    self w2 = self half_started_world.
Proof.
  destruct (initialize_then_shutdown_round_trip half_started_world)
    as (w1 & w2 & Hrun1 & Hrun2 & Hself).
  - intros [] e; cbn; [intros [= <-]; reflexivity|discriminate].
  - intros [] e; cbn; discriminate.
  - exists w1, w2. split; [exact Hrun1|]. split; [exact Hrun2|exact Hself].
Defined.

(** The witness of X18: a Grafana that is registered and connected. *)
Lemma grafana_health_reads_registry_witness :
  exists c,
    _check_mcp_grafana_health example_environ true
      (world_with_servers [connected_server "grafana" 1 [tool_descriptor "query" ""]])
    = (Ok c,
       world_with_servers [connected_server "grafana" 1 [tool_descriptor "query" ""]]) /\
    ServiceStatus.status c = healthy.
Proof.
  destruct (grafana_health_reads_registry example_environ true
              (world_with_servers
                 [connected_server "grafana" 1 [tool_descriptor "query" ""]]))
    as (c & Hrun & _ & Hhealthy & _).
  - apply (bool_decide_unpack _). vm_compute. reflexivity.
  - exists c. split; [exact Hrun|]. apply Hhealthy.
    split; [reflexivity|]. split; [reflexivity|]. split; [reflexivity|].
    eexists. split; reflexivity.
Defined.

(** The witness of X19: a CloudWatch whose record is not connected. *)
Lemma cloudwatch_health_reads_registry_witness :
  exists c,
    _check_mcp_cloudwatch_health example_environ true
      (world_with_servers [disconnected_server "cloudwatch" 2 []])
    = (Ok c, world_with_servers [disconnected_server "cloudwatch" 2 []]) /\
    ServiceStatus.status c = unhealthy.
Proof.
  destruct (cloudwatch_health_reads_registry example_environ true
              (world_with_servers [disconnected_server "cloudwatch" 2 []]))
    as (c & Hrun & _ & _ & Hunhealthy).
  - apply (bool_decide_unpack _). vm_compute. reflexivity.
  - exists c. split; [exact Hrun|]. apply Hunhealthy.
    split; [reflexivity|]. split; [reflexivity|]. split; [reflexivity|].
    split; [reflexivity|]. eexists. split; reflexivity.
Defined.

(** The witness of X20: Grafana did not start and is reported as unknown,
    CloudWatch started and is healthy. *)
Lemma health_after_initialize_witness :
  exists w1 g c,
    initialize_servers half_started_world = (Ok tt, w1) /\
    _check_mcp_grafana_health example_environ true w1 = (Ok g, w1) /\
    _check_mcp_cloudwatch_health example_environ true w1 = (Ok c, w1) /\
    ServiceStatus.status g <> healthy /\
    ServiceStatus.status g <> unhealthy /\
    ServiceStatus.status c = healthy.
Proof.
  destruct (health_after_initialize (Some example_grafana_config)
              (Some example_cloudwatch_config) example_environ half_started_world)
    as (w1 & g & c & Hrun & Hg & Hc & Hgu & _ & Hgh & Hch).
  - reflexivity.
  - intros [] e; cbn; [intros [= <-]; reflexivity|discriminate].
  - intros [] e; cbn; discriminate.
  - exists w1, g, c. split; [exact Hrun|]. split; [exact Hg|]. split; [exact Hc|].
    split; [|split; [exact Hgu|]].
    + intros Hh. apply Hgh in Hh as (_ & _ & Hstarted). by apply Hstarted.
    + apply Hch. split; [reflexivity|]. split; [reflexivity|].
      split; [reflexivity|]. discriminate.
Defined.

(** The witness of X21: two providers that both list [query]. *)
Lemma initialized_manager_offers_started_tools_witness :
  exists w1 all_tools w2,
    initialize_servers started_world = (Ok tt, w1) /\
    get_all_tools 30 w1 = (Ok all_tools, w2) /\
    NoDup (map MCPToolWrapper.name all_tools).
Proof.
  destruct (initialized_manager_offers_started_tools (Some example_grafana_config)
              (Some example_cloudwatch_config) 30 started_world)
    as (w1 & all_tools & w2 & Hrun & Htools & _ & _ & Hnames).
  - reflexivity.
  - intros [] e; cbn; discriminate.
  - intros [] e; cbn; discriminate.
  - exists w1, all_tools, w2. split; [exact Hrun|]. split; [exact Htools|].
    apply Hnames.
    intros [] session tools_attr; cbn; intros [= <- <-];
      apply (bool_decide_unpack _); vm_compute; reflexivity.
Defined.

(** ** The aggregator reads the registry only *)

(** X22.  [get_all_tools] leaves the manager as it was, and a second call
    gives the adapters of the first. *)
Theorem get_all_tools_is_repeatable (timeout_seconds : float) (w : world) :
  exists all_tools w',
    get_all_tools timeout_seconds w = (Ok all_tools, w') /\
    self w' = self w /\
    fst (get_all_tools timeout_seconds w') = Ok all_tools.
Proof.
  destruct (get_all_tools_spec timeout_seconds w) as (w1 & Hrun1 & Hself1).
  destruct (get_all_tools_spec timeout_seconds w1) as (w2 & Hrun2 & _).
  eexists _, w1. split; [exact Hrun1|]. split; [exact Hself1|].
  by rewrite Hrun2, Hself1.
Qed.
